(** * Order placement service: a shallow embedding of
      [services/order_service.py] and [schemas/order_schema.py].

    The service coordinates clients, products, bills, orders and order
    details through one SQLAlchemy session.  The session is modelled as an
    explicit state (committed store, transaction view, journal of calls),
    the service methods as programs of a state-and-exception monad, and
    every call into the storage layer may fail as an oracle decides.

    Monetary amounts are Python floats, that is IEEE 754 binary64 numbers;
    they are modelled by the primitive floats, which are that format with
    the same rounding, so that rounding, overflow and NaN are part of the
    model. *)

From Stdlib Require Import ZArith String Ascii Lia Floats.
From stdpp Require Import base option list gmap.

Local Open Scope Z_scope.

(* ================================================================== *)
(** ** Python's [str(int)] and [int(str)] *)
(* ================================================================== *)

(** The bill number is written with [str(next_number)] and read back with
    [int(bn)].  [py_int] is [int(s)] in base 10 on the strings that are
    [plain]: surrounding whitespace is stripped, one sign is allowed, and
    digits may be separated by single underscores.  [None] stands for the
    [ValueError] Python raises.

    A string is a sequence of one-byte characters here.  On a [str] with
    a character beyond ASCII [int] also reads the decimal digits and the
    whitespace of other scripts, and on more than 4300 digits it raises
    [ValueError] (the interpreter's default limit on conversions); [py_int]
    does neither, so what is stated about the numbers read from the
    store is stated for stores whose bill numbers are [plain]. *)
Module PyInt.

Definition is_digit (c : ascii) : bool :=
  (48 <=? N_of_ascii c)%N && (N_of_ascii c <=? 57)%N.

Definition digit_val (c : ascii) : Z := Z.of_N (N_of_ascii c) - 48.

Definition digit_char (d : Z) : ascii := ascii_of_N (Z.to_N (48 + d)).

(** The whitespace [int] skips around an ASCII numeral: tab, line feed,
    vertical tab, form feed, carriage return and space. *)
Definition is_space (c : ascii) : bool :=
  let n := N_of_ascii c in
  ((9 <=? n)%N && (n <=? 13)%N) || (n =? 32)%N.

Fixpoint str_forall (P : ascii -> bool) (s : string) : bool :=
  match s with
  | EmptyString => true
  | String c r => P c && str_forall P r
  end.

(** Decimal digits of a non-negative [n], most significant first, pushed
    in front of [acc]. *)
Fixpoint digits_of (fuel : nat) (n : Z) (acc : string) : string :=
  match fuel with
  | O => acc
  | S f =>
      let acc' := String (digit_char (n mod 10)) acc in
      if n <? 10 then acc' else digits_of f (n / 10) acc'
  end.

Definition digits_fuel (n : Z) : nat := S (Z.to_nat (Z.log2 n)).

Definition py_str (n : Z) : string :=
  if n <? 0
  then String "-" (digits_of (digits_fuel (- n)) (- n) EmptyString)
  else digits_of (digits_fuel n) n EmptyString.

Fixpoint lstrip (s : string) : string :=
  match s with
  | EmptyString => EmptyString
  | String c r => if is_space c then lstrip r else s
  end.

Fixpoint rstrip (s : string) : string :=
  match s with
  | EmptyString => EmptyString
  | String c r =>
      match rstrip r with
      | EmptyString => if is_space c then EmptyString else String c EmptyString
      | r' => String c r'
      end
  end.

Definition strip (s : string) : string := rstrip (lstrip s).

Inductive lex_state := AtStart | AfterDigit | AfterUnderscore.

Fixpoint parse_digits (st : lex_state) (acc : Z) (s : string) : option Z :=
  match s with
  | EmptyString => match st with AfterDigit => Some acc | _ => None end
  | String c r =>
      if is_digit c then parse_digits AfterDigit (10 * acc + digit_val c) r
      else if (c =? "_")%char then
        match st with
        | AfterDigit => parse_digits AfterUnderscore acc r
        | _ => None
        end
      else None
  end.

Definition py_int (s : string) : option Z :=
  match strip s with
  | EmptyString => None
  | String c r =>
      if (c =? "-")%char then Z.opp <$> parse_digits AtStart 0 r
      else if (c =? "+")%char then parse_digits AtStart 0 r
      else parse_digits AtStart 0 (String c r)
  end.

Definition not_space (c : ascii) : bool := negb (is_space c).

Definition is_ascii (c : ascii) : bool := (N_of_ascii c <? 128)%N.

(** The strings on which [py_int] is [int]: ASCII, and short enough to
    stay within the limit on digits. *)
Definition plain (s : string) : bool :=
  str_forall is_ascii s && (String.length s <=? 4300)%nat.

End PyInt.

(* ================================================================== *)
(** ** Python's numbers *)
(* ================================================================== *)

(** The pricing mixes the two kinds of number: the float of a price, a
    percentage or the running subtotal, and the int of a quantity or of
    the literals [0] and [100].  An operation on two ints is exact, one
    with a float converts the int and is the binary64 operation. *)
Inductive Num := NInt (n : Z) | NFloat (x : float).

(** The conversion of an int in a mixed operation: the nearest float,
    ties to even.  Python raises [OverflowError] where this is an
    infinity, for an int of about 309 digits or more; what is stated
    about the amounts computed is stated for quantities below that
    ([fits_float]). *)
Definition float_of_int (n : Z) : float :=
  SF2Prim (binary_normalize prec emax n 0 false).

Definition fits_float (n : Z) : bool := is_finite (float_of_int n).

(** The float a number is stored as in a float column. *)
Definition to_float (v : Num) : float :=
  match v with
  | NInt n => float_of_int n
  | NFloat x => x
  end.

(** [a * b] *)
Definition num_mul (a b : Num) : Num :=
  match a, b with
  | NInt m, NInt n => NInt (m * n)
  | _, _ => NFloat (to_float a * to_float b)
  end.

(** [x or 0] on an optional float: [None] and both zeros are falsy and
    give the int [0]; a NaN is truthy. *)
Definition or_zero (x : option float) : Num :=
  match x with
  | Some v => if (v =? 0)%float then NInt 0 else NFloat v
  | None => NInt 0
  end.

(** [v > 0] *)
Definition gt_zero (v : Num) : bool :=
  match v with
  | NInt n => 0 <? n
  | NFloat x => (0 <? x)%float
  end.

(** [max(x, 0)] for a float [x]: the first argument unless [0 > x], and
    then the int [0].  A NaN compares false and is returned. *)
Definition max_zero (x : float) : Num :=
  if (x <? 0)%float then NInt 0 else NFloat x.

(** Classes of the specification of a float. *)
Definition sf_nan (x : spec_float) : bool :=
  match x with
  | S754_nan => true
  | _ => false
  end.

Definition sf_finite (x : spec_float) : bool :=
  match x with
  | S754_zero _ | S754_finite _ _ _ => true
  | _ => false
  end.

(* ================================================================== *)
(** ** Data model *)
(* ================================================================== *)

(** [models.enums] is not part of the sources at hand: the members of
    [DeliveryMethod] and [Status] are carried by their codes, and
    [PaymentType] lists the one member the service names. *)
Definition DeliveryMethod := Z.
Definition Status := Z.

Inductive PaymentType := CASH | OtherPayment (code : Z).

(** [OrderItemInput]: [quantity] is declared [gt=0]; the service itself
    never re-checks it. *)
Record OrderItemInput := {
  product_id : Z;
  quantity : Z
}.

(** [OrderSchema].  [id_key] comes from the base schema and is filled in
    by [model_validate] on the way out. *)
Record OrderSchema := {
  id_key : option Z;
  date : option Z;
  total : float;
  delivery_method : DeliveryMethod;
  status : Status;
  client_id : option Z;
  bill_id : option Z;
  items : option (list OrderItemInput);
  discount_pct : option float
}.

Record ProductModel := {
  price : option float;
  stock : option Z
}.

Record BillModel := {
  bill_number : option string;
  discount : float;
  b_date : Z;
  b_total : float;
  payment_type : PaymentType;
  b_client_id : option Z
}.

Record OrderModel := {
  o_date : Z;
  o_total : float;
  o_delivery_method : DeliveryMethod;
  o_status : Status;
  o_client_id : option Z;
  o_bill_id : option Z
}.

Record OrderDetailModel := {
  od_order_id : Z;
  od_product_id : Z;
  od_quantity : Z;
  od_price : option float
}.

(** The tables, keyed by primary key. *)
Record Store := {
  clients : gset Z;
  products : gmap Z ProductModel;
  bills : gmap Z BillModel;
  orders : gmap Z OrderModel;
  order_details : list OrderDetailModel
}.

Definition with_products (f : gmap Z ProductModel -> gmap Z ProductModel)
    (st : Store) : Store :=
  {| clients := clients st; products := f (products st); bills := bills st;
     orders := orders st; order_details := order_details st |}.

Definition with_bills (f : gmap Z BillModel -> gmap Z BillModel)
    (st : Store) : Store :=
  {| clients := clients st; products := products st; bills := f (bills st);
     orders := orders st; order_details := order_details st |}.

Definition with_orders (f : gmap Z OrderModel -> gmap Z OrderModel)
    (st : Store) : Store :=
  {| clients := clients st; products := products st; bills := bills st;
     orders := f (orders st); order_details := order_details st |}.

Definition with_order_details
    (f : list OrderDetailModel -> list OrderDetailModel) (st : Store) : Store :=
  {| clients := clients st; products := products st; bills := bills st;
     orders := orders st; order_details := f (order_details st) |}.

(* ================================================================== *)
(** ** Exceptions, the journal and the session *)
(* ================================================================== *)

Inductive Entity := EClient | EProduct | EBill | EOrder.

(** Who built an [InstanceNotFoundError]: the repository layer (its text is
    not in the sources at hand) or one of the f-strings of the service. *)
Inductive Origin := FromRepository | FromService.

(** The places where the service calls into the storage layer or the
    cache; each may raise an error of its own. *)
Inductive Call :=
| CallFindClient
| CallFindBill
| CallGetProduct (pid : Z)
| CallGetBill
| CallMaxOrderId
| CallBillNumbers
| CallFlushOrder
| CallFlushBill
| CallCommit
| CallDeletePattern.

Inductive Exn :=
| InstanceNotFoundError (by_ : Origin) (what : Entity) (key : option Z)
    (* "<Entity> with id <key> not found" *)
| ValueError (pid : Z) (available : option Z) (requested : Z)
    (* "No hay stock suficiente para el producto <pid>.
        Disponible: <available>, solicitado: <requested>." *)
| TypeError
    (* [None - int] *)
| KeyError (k : Z)
    (* [product_cache[k]] without an entry *)
| ObjectDeletedError (k : Z)
    (* attribute access through a handle whose row is gone *)
| IntegrityError (k : Z)
    (* INSERT of an order whose primary key is taken *)
| StorageError (c : Call).
    (* any other exception raised by the call [c] *)

Inductive Level := INFO | WARNING | ERROR.

Inductive LogMsg :=
| MsgNotFound (what : Entity) (key : option Z)
| MsgAllocDefault (reason : Exn)
    (* "Could not compute next order number, defaulting to 1000. Reason: .." *)
| MsgBillGenerated (bn : option string) (bid : Z)
| MsgOrderCreated (oid : Z) (n_items : nat)
| MsgCacheNotInvalidated (reason : Exn)
| MsgErrorCreating (reason : Exn)
| MsgUpdating (oid : Z).

Inductive Event :=
| EvLog (lvl : Level) (m : LogMsg)
| EvRollback
| EvCommit
| EvDeletePattern (pattern : string).

(** A SQLAlchemy session: the committed store [db], the transaction's view
    [tx] (identity map and flushed rows; this is what a commit persists),
    and the journal of log lines, commits, rollbacks and cache evictions,
    newest first. *)
Record Session := {
  db : Store;
  tx : Store;
  journal : list Event
}.

Definition open_session (st : Store) : Session :=
  {| db := st; tx := st; journal := [] |}.

Definition rolled_back (s : Session) : Prop := EvRollback ∈ journal s.

(** What the surroundings decide: which calls fail, and the clock. *)
Record Env := {
  faults : Call -> bool;
  utcnow : Z;
  utcnow_date : Z
}.

Definition no_faults : Call -> bool := fun _ => false.

(* ================================================================== *)
(** ** The monad of service code: state and exceptions *)
(* ================================================================== *)

Inductive Outcome (A : Type) :=
| Ret (a : A)
| Raise (e : Exn).
Arguments Ret {A} a.
Arguments Raise {A} e.

(** An exception leaves the session as it was when it was raised. *)
Definition M (A : Type) : Type := Session -> Outcome A * Session.

#[global] Instance M_ret : MRet M := fun A a s => (Ret a, s).

#[global] Instance M_bind : MBind M := fun A B f m s =>
  match m s with
  | (Ret a, s') => f a s'
  | (Raise e, s') => (Raise e, s')
  end.

Definition raise {A} (e : Exn) : M A := fun s => (Raise e, s).

(** [try: m except Exception as e: h e] *)
Definition try_except {A} (m : M A) (h : Exn -> M A) : M A := fun s =>
  match m s with
  | (Ret a, s') => (Ret a, s')
  | (Raise e, s') => h e s'
  end.

(** [try: m except InstanceNotFoundError: h] *)
Definition try_except_not_found {A} (m : M A) (h : M A) : M A :=
  try_except m (fun e =>
    match e with
    | InstanceNotFoundError _ _ _ => h
    | _ => raise e
    end).

(** Runs [m] and hands back how it ended, so that the locals of the
    enclosing [try] keep the values they had when the exception came. *)
Definition attempt {A} (m : M A) : M (A + Exn) := fun s =>
  match m s with
  | (Ret a, s') => (Ret (inl a), s')
  | (Raise e, s') => (Ret (inr e), s')
  end.

(** [for x in xs: acc = body x acc] *)
Fixpoint for_in {A S} (xs : list A) (body : A -> S -> M S) (acc : S) : M S :=
  match xs with
  | [] => mret acc
  | x :: rest => acc' ← body x acc; for_in rest body acc'
  end.

Definition get_tx : M Store := fun s => (Ret (tx s), s).

Definition modify_tx (f : Store -> Store) : M unit := fun s =>
  (Ret tt, {| db := db s; tx := f (tx s); journal := journal s |}).

Definition emit (ev : Event) : M unit := fun s =>
  (Ret tt, {| db := db s; tx := tx s; journal := ev :: journal s |}).

Definition logger (lvl : Level) (m : LogMsg) : M unit := emit (EvLog lvl m).

(* ================================================================== *)
(** ** The storage layer, as the service uses it *)
(* ================================================================== *)

(** A Python reference to a persistent object: the session's identity map
    hands out one object per primary key, so the key is the reference. *)
Abbreviation Handle := Z.

Definition Zmax_list (l : list Z) : option Z :=
  foldr (fun k acc => Some (match acc with None => k | Some m => Z.max k m end))
        None l.

Definition max_key {A} (m : gmap Z A) : option Z :=
  Zmax_list (map_to_list m).*1.

(** The key an autoincrement column hands out next. *)
Definition fresh_key {A} (m : gmap Z A) : Z :=
  match max_key m with
  | None => 1
  | Some k => Z.max k 0 + 1
  end.

Definition set_stock (v : option Z) (p : ProductModel) : ProductModel :=
  {| price := price p; stock := v |}.

Definition set_bill_number (bn : option string) (b : BillModel) : BillModel :=
  {| bill_number := bn; discount := discount b; b_date := b_date b;
     b_total := b_total b; payment_type := payment_type b;
     b_client_id := b_client_id b |}.

Definition set_o_bill_id (bid : option Z) (o : OrderModel) : OrderModel :=
  {| o_date := o_date o; o_total := o_total o;
     o_delivery_method := o_delivery_method o; o_status := o_status o;
     o_client_id := o_client_id o; o_bill_id := bid |}.

(** [OrderSchema.model_validate(order_model)]: a pure conversion; [items]
    and [discount_pct] are not columns and take their defaults (the
    default [0] of [discount_pct] is carried as the zero float). *)
Definition model_validate (key : Z) (o : OrderModel) : OrderSchema :=
  {| id_key := Some key; date := Some (o_date o); total := o_total o;
     delivery_method := o_delivery_method o; status := o_status o;
     client_id := o_client_id o; bill_id := o_bill_id o;
     items := None; discount_pct := Some 0%float |}.

(** [int(bn)] inside [try ... except (ValueError, TypeError)]: [None] when
    either is raised ([TypeError] for a bill number that is [None]). *)
Definition int_of_bill_number (bn : option string) : option Z :=
  bn ≫= PyInt.py_int.

Definition session_rollback : M unit := fun s =>
  (Ret tt, {| db := db s; tx := db s; journal := EvRollback :: journal s |}).

Definition persist_tx : M unit := fun s =>
  (Ret tt, {| db := tx s; tx := tx s; journal := EvCommit :: journal s |}).

Section Service.

Context (env : Env).

(** The oracle: the call [c] raises when the surroundings say so. *)
Definition call (c : Call) : M unit := fun s =>
  if faults env c then (Raise (StorageError c), s) else (Ret tt, s).

(** Modelled from the spec: [ClientRepository.find]
    (repositories/client_repository.py is not among the sources): a lookup
    by primary key that fails with [NotFound] when the row is absent. *)
Definition client_repository_find (key : option Z) : M unit :=
  call CallFindClient;;
  st ← get_tx;
  match key with
  | Some k =>
      if bool_decide (k ∈ clients st) then mret tt
      else raise (InstanceNotFoundError FromRepository EClient key)
  | None => raise (InstanceNotFoundError FromRepository EClient key)
  end.

(** Modelled from the spec: [BillRepository.find]
    (repositories/bill_repository.py is not among the sources): a lookup
    by primary key that fails with [NotFound] when the row is absent. *)
Definition bill_repository_find (key : Z) : M unit :=
  call CallFindBill;;
  st ← get_tx;
  match bills st !! key with
  | Some _ => mret tt
  | None => raise (InstanceNotFoundError FromRepository EBill (Some key))
  end.

(** [session.get(ProductModel, pid)] *)
Definition session_get_product (pid : Z) : M (option Handle) :=
  call (CallGetProduct pid);;
  st ← get_tx;
  mret (match products st !! pid with Some _ => Some pid | None => None end).

(** [session.get(BillModel, bid)] *)
Definition session_get_bill (bid : Z) : M (option Handle) :=
  call CallGetBill;;
  st ← get_tx;
  mret (match bills st !! bid with Some _ => Some bid | None => None end).

(** Reading the attributes of a product through its handle. *)
Definition product_attrs (h : Handle) : M ProductModel :=
  st ← get_tx;
  match products st !! h with
  | Some p => mret p
  | None => raise (ObjectDeletedError h)
  end.

(** [session.add(obj)] on an object the session already holds. *)
Definition session_add_persistent (h : Handle) : M unit := mret tt.

(** [session.add(order_model); session.flush()]: the INSERT goes out with
    the explicit primary key. *)
Definition add_flush_order (key : Z) (o : OrderModel) : M unit :=
  call CallFlushOrder;;
  st ← get_tx;
  match orders st !! key with
  | Some _ => raise (IntegrityError key)
  | None => modify_tx (with_orders <[key := o]>)
  end.

(** [session.add(bill_model); session.flush()]; the result is
    [bill_model.id_key] as the flush assigned it. *)
Definition add_flush_bill (b : BillModel) : M Z :=
  call CallFlushBill;;
  st ← get_tx;
  let key := fresh_key (bills st) in
  modify_tx (with_bills <[key := b]>);;
  mret key.

(** [session.commit()]: all or nothing. *)
Definition session_commit : M unit :=
  call CallCommit;;
  persist_tx.

(** [cache_service.delete_pattern(pattern)] *)
Definition cache_delete_pattern (pattern : string) : M unit :=
  call CallDeletePattern;;
  emit (EvDeletePattern pattern).

(** [query(OrderModel.id_key).order_by(id_key.desc()).limit(1).scalar()] *)
Definition query_max_order_id : M (option Z) :=
  call CallMaxOrderId;;
  st ← get_tx;
  mret (max_key (orders st)).

(** [query(BillModel.bill_number).all()] *)
Definition query_bill_numbers : M (list (option string)) :=
  call CallBillNumbers;;
  st ← get_tx;
  mret (bill_number <$> (map_to_list (bills st)).*2).

(* ================================================================== *)
(** ** [OrderService] *)
(* ================================================================== *)

(** One turn of [for (bn,) in rows]. *)
Definition scan_bill_number (max_val : Z) (bn : option string) : Z :=
  match int_of_bill_number bn with
  | Some num => if max_val <? num then num else max_val
  | None => max_val
  end.

(** [OrderService._generate_next_order_number].  The local [max_val]
    keeps, in the handler, the value it had when the lookup failed. *)
Definition _generate_next_order_number : M Z :=
  let max_val := 999 in
  r ← attempt query_max_order_id;
  match r with
  | inr e => logger WARNING (MsgAllocDefault e);; mret (max_val + 1)
  | inl max_order =>
      let max_val :=
        match max_order with
        | Some m => if negb (m =? 0) && (max_val <? m) then m else max_val
        | None => max_val
        end in
      r ← attempt query_bill_numbers;
      match r with
      | inr e => logger WARNING (MsgAllocDefault e);; mret (max_val + 1)
      | inl rows => mret (foldl scan_bill_number max_val rows + 1)
      end
  end.

(** Lines 74-78: the client must exist. *)
Definition validate_client (schema : OrderSchema) : M unit :=
  try_except_not_found
    (client_repository_find (client_id schema))
    (logger ERROR (MsgNotFound EClient (client_id schema));;
     raise (InstanceNotFoundError FromService EClient (client_id schema))).

(** Lines 85-96: one turn of the loop that validates stock and adds up the
    subtotal.  The message names the product by
    [product.id_key or product.id]; the primary key stands for it. *)
Definition precheck_item (item : OrderItemInput) (acc : gmap Z Handle * float)
    : M (gmap Z Handle * float) :=
  let '(product_cache, subtotal) := acc in
  product ← session_get_product (product_id item);
  match product with
  | None =>
      raise (InstanceNotFoundError FromService EProduct (Some (product_id item)))
  | Some product =>
      p ← product_attrs product;
      if match stock p with
         | None => true
         | Some st => st <? quantity item
         end
      then raise (ValueError product (stock p) (quantity item))
      else
        let product_cache := <[product_id item := product]> product_cache in
        let price := or_zero (price p) in
        mret (product_cache,
              (subtotal + to_float (num_mul price (NInt (quantity item))))%float)
  end.

(** Lines 99-101: discount amount and total.  The product is a float, and
    [/ 100] divides it by the float 100. *)
Definition apply_discount (subtotal : float) (pct : option float) : Num * Num :=
  let discount_pct := or_zero pct in
  let discount_amount :=
    if gt_zero discount_pct
    then NFloat (to_float (num_mul (NFloat subtotal) discount_pct) / 100)
    else NInt 0 in
  let total := max_zero (subtotal - to_float discount_amount) in
  (discount_amount, total).

(** Lines 110-118: one turn of the loop that takes the stock. *)
Definition update_stock_item (product_cache : gmap Z Handle)
    (item : OrderItemInput) (_ : unit) : M unit :=
  match product_cache !! product_id item with
  | None => raise (KeyError (product_id item))
  | Some product =>
      p ← product_attrs product;
      match stock p with
      | None => raise TypeError
      | Some st =>
          let stock' := st - quantity item in
          modify_tx (with_products (alter (set_stock (Some stock')) product));;
          if stock' <? 0
          then raise (ValueError product (Some stock') (quantity item))
          else session_add_persistent product
      end
  end.

(** Lines 133-153: create the bill, or rewrite the number of the one
    supplied; the result is [schema.bill_id] afterwards. *)
Definition create_or_update_bill (schema : OrderSchema)
    (discount_amount total : Num) (next_number : Z) : M Z :=
  match bill_id schema with
  | None =>
      let bill_model :=
        {| bill_number := Some (PyInt.py_str next_number);
           discount := to_float discount_amount;
           b_date := utcnow_date env;
           b_total := to_float total;
           payment_type := CASH;
           b_client_id := client_id schema |} in
      bid ← add_flush_bill bill_model;
      logger INFO (MsgBillGenerated (bill_number bill_model) bid);;
      mret bid
  | Some bid =>
      bill ← session_get_bill bid;
      match bill with
      | None =>
          logger ERROR (MsgNotFound EBill (Some bid));;
          raise (InstanceNotFoundError FromService EBill (Some bid))
      | Some bill =>
          modify_tx (with_bills
            (alter (set_bill_number (Some (PyInt.py_str next_number))) bill));;
          call CallFlushBill;;
          mret bid
      end
  end.

(** Lines 160-168: one turn of the loop that writes the detail rows. *)
Definition create_order_detail (product_cache : gmap Z Handle) (order_key : Z)
    (item : OrderItemInput) (_ : unit) : M unit :=
  match product_cache !! product_id item with
  | None => raise (KeyError (product_id item))
  | Some product =>
      p ← product_attrs product;
      let od :=
        {| od_order_id := order_key; od_product_id := product_id item;
           od_quantity := quantity item; od_price := price p |} in
      modify_tx (with_order_details (fun l => l ++ [od]))
  end.

(** Lines 109-168: the body of the [try] up to the commit. *)
Definition save_mutations (schema : OrderSchema) (items : list OrderItemInput)
    (product_cache : gmap Z Handle) (discount_amount total : Num)
    (next_number : Z) : M OrderModel :=
  for_in items (update_stock_item product_cache) tt;;
  let order_model :=
    {| o_date := default (utcnow env) (date schema);
       o_total := to_float total;
       o_delivery_method := delivery_method schema;
       o_status := status schema;
       o_client_id := client_id schema;
       o_bill_id := None |} in
  add_flush_order next_number order_model;;
  bid ← create_or_update_bill schema discount_amount total next_number;
  let order_model := set_o_bill_id (Some bid) order_model in
  modify_tx (with_orders (alter (set_o_bill_id (Some bid)) next_number));;
  for_in items (create_order_detail product_cache next_number) tt;;
  mret order_model.

(** Lines 170-177: commit, then the best-effort cache eviction. *)
Definition save_commit (items : list OrderItemInput) (next_number : Z)
    (order_model : OrderModel) : M OrderSchema :=
  session_commit;;
  logger INFO (MsgOrderCreated next_number (length items));;
  try_except (cache_delete_pattern "products:*")
    (fun e => logger WARNING (MsgCacheNotInvalidated e));;
  mret (model_validate next_number order_model).

Definition save_transaction (schema : OrderSchema) (items : list OrderItemInput)
    (product_cache : gmap Z Handle) (discount_amount total : Num)
    (next_number : Z) : M OrderSchema :=
  order_model ← save_mutations schema items product_cache discount_amount
                   total next_number;
  save_commit items next_number order_model.

(** [OrderService.save] *)
Definition save (schema : OrderSchema) : M OrderSchema :=
  validate_client schema;;
  let items := default [] (items schema) in
  '(product_cache, subtotal) ← for_in items precheck_item (∅, 0%float);
  let '(discount_amount, total) := apply_discount subtotal (discount_pct schema) in
  next_number ← _generate_next_order_number;
  try_except
    (save_transaction schema items product_cache discount_amount total
       next_number)
    (fun e =>
       session_rollback;;
       logger ERROR (MsgErrorCreating e);;
       raise e).

(** Modelled from the spec: [BaseServiceImpl.update]
    (services/base_service_impl.py is not among the sources): "generic
    update semantics (field-by-field overwrite)" of the order with the
    given key, failing with [NotFound] when there is none. *)
Definition overwrite_fields (o : OrderModel) (schema : OrderSchema) : OrderModel :=
  {| o_date := default (o_date o) (date schema);
     o_total := total schema;
     o_delivery_method := delivery_method schema;
     o_status := status schema;
     o_client_id := match client_id schema with
                    | Some c => Some c
                    | None => o_client_id o
                    end;
     o_bill_id := match bill_id schema with
                  | Some b => Some b
                  | None => o_bill_id o
                  end |}.

(** Modelled from the spec: [BaseServiceImpl.update], see
    [overwrite_fields]. *)
Definition base_update (key : Z) (schema : OrderSchema) : M OrderSchema :=
  st ← get_tx;
  match orders st !! key with
  | None => raise (InstanceNotFoundError FromRepository EOrder (Some key))
  | Some o =>
      let o' := overwrite_fields o schema in
      modify_tx (with_orders <[key := o']>);;
      session_commit;;
      mret (model_validate key o')
  end.

(** [OrderService.update] *)
Definition update (key : Z) (schema : OrderSchema) : M OrderSchema :=
  match client_id schema with
  | Some c =>
      try_except_not_found
        (client_repository_find (Some c))
        (logger ERROR (MsgNotFound EClient (Some c));;
         raise (InstanceNotFoundError FromService EClient (Some c)))
  | None => mret tt
  end;;
  match bill_id schema with
  | Some b =>
      try_except_not_found
        (bill_repository_find b)
        (logger ERROR (MsgNotFound EBill (Some b));;
         raise (InstanceNotFoundError FromService EBill (Some b)))
  | None => mret tt
  end;;
  logger INFO (MsgUpdating key);;
  base_update key schema.

End Service.

(* ================================================================== *)
(** ** Specification-side definitions *)
(* ================================================================== *)

(** The quantity the item list asks of product [pid], over all its lines. *)
Definition total_quantity (pid : Z) (items : list OrderItemInput) : Z :=
  foldr (fun it acc =>
           if bool_decide (product_id it = pid) then quantity it + acc else acc)
        0 items.

Definition item_ids (items : list OrderItemInput) : list Z :=
  product_id <$> items.

(** A product after [n] units were taken from its stock. *)
Definition take_stock (n : Z) (p : ProductModel) : ProductModel :=
  {| price := price p; stock := (fun st => st - n) <$> stock p |}.

(** The unit price the pricing uses for [pid]: the product's price, the
    int zero when it is absent or zero. *)
Definition unit_price (P : gmap Z ProductModel) (pid : Z) : Num :=
  or_zero (P !! pid ≫= price).

(** What a line comes to: unit price times quantity. *)
Definition line_amount (P : gmap Z ProductModel) (it : OrderItemInput) : float :=
  to_float (num_mul (unit_price P (product_id it)) (NInt (quantity it))).

(** The float sum of the lines, added one after the other to [acc] in the
    order of the list. *)
Definition subtotal_from (acc : float) (P : gmap Z ProductModel)
    (items : list OrderItemInput) : float :=
  foldl (fun acc it => (acc + line_amount P it)%float) acc items.

(** Sum over the items of unit price times quantity, from zero. *)
Definition subtotal_of (P : gmap Z ProductModel) (items : list OrderItemInput)
    : float :=
  subtotal_from 0 P items.

(** The detail rows a placement writes when it stores the raw price. *)
Definition details_of (P : gmap Z ProductModel) (order_key : Z)
    (items : list OrderItemInput) : list OrderDetailModel :=
  (fun it => {| od_order_id := order_key; od_product_id := product_id it;
                od_quantity := quantity it;
                od_price := P !! product_id it ≫= price |}) <$> items.

Definition is_log (ev : Event) : Prop := exists lvl m, ev = EvLog lvl m.

(** [keeps R m]: however [m] ends, the sessions before and after are
    related by [R]. *)
Definition keeps {A} (R : relation Session) (m : M A) : Prop :=
  forall s o s', m s = (o, s') -> R s s'.

(** Nothing moved but the journal, and that only by log lines. *)
Definition quiet : relation Session := fun s s' =>
  db s' = db s /\ tx s' = tx s /\
  forall ev, ev ∈ journal s' -> ev ∈ journal s \/ is_log ev.

Definition same_db : relation Session := fun s s' => db s' = db s.

Definition same_products : relation Session := fun s s' =>
  products (tx s') = products (tx s).

Definition same_bills : relation Session := fun s s' =>
  bills (tx s') = bills (tx s).

Definition same_orders : relation Session := fun s s' =>
  orders (tx s') = orders (tx s).

Definition same_details : relation Session := fun s s' =>
  order_details (tx s') = order_details (tx s).

(** Only the product table of the transaction moved. *)
Definition only_products : relation Session := fun s s' =>
  db s' = db s /\ journal s' = journal s /\
  clients (tx s') = clients (tx s) /\ bills (tx s') = bills (tx s) /\
  orders (tx s') = orders (tx s) /\
  order_details (tx s') = order_details (tx s).

(** Why the pre-check of one line fails. *)
Definition precheck_failure (env : Env) (P : gmap Z ProductModel)
    (it : OrderItemInput) (e : Exn) : Prop :=
  let pid := product_id it in
  (faults env (CallGetProduct pid) = true /\ e = StorageError (CallGetProduct pid)) \/
  (faults env (CallGetProduct pid) = false /\ P !! pid = None /\
   e = InstanceNotFoundError FromService EProduct (Some pid)) \/
  (faults env (CallGetProduct pid) = false /\
   exists p, P !! pid = Some p /\ e = ValueError pid (stock p) (quantity it) /\
             match stock p with
             | None => True
             | Some st => st < quantity it
             end).

(** The line passes the pre-check on stock: the product has a figure and it
    covers the quantity. *)
Definition in_stock (P : gmap Z ProductModel) (it : OrderItemInput) : Prop :=
  exists p st, P !! product_id it = Some p /\ stock p = Some st /\
               quantity it <= st.

(** What the pre-check leaves behind for a line: its handle is cached and
    the product has a stock figure. *)
Definition stock_ready (P : gmap Z ProductModel) (c : gmap Z Z)
    (it : OrderItemInput) : Prop :=
  c !! product_id it = Some (product_id it) /\
  exists p st, P !! product_id it = Some p /\ stock p = Some st.

(** The bill row a placement creates when none is supplied. *)
Definition new_bill (env : Env) (schema : OrderSchema)
    (discount_amount total : float) (next_number : Z) : BillModel :=
  {| bill_number := Some (PyInt.py_str next_number);
     discount := discount_amount;
     b_date := utcnow_date env;
     b_total := total;
     payment_type := CASH;
     b_client_id := client_id schema |}.

(** The order row a placement leaves, linked to bill [bid]. *)
Definition placed_order (env : Env) (schema : OrderSchema) (total : float)
    (bid : Z) : OrderModel :=
  {| o_date := default (utcnow env) (date schema);
     o_total := total;
     o_delivery_method := delivery_method schema;
     o_status := status schema;
     o_client_id := client_id schema;
     o_bill_id := Some bid |}.

(** The session a failed transaction leaves behind. *)
Definition after_rollback (e : Exn) (s : Session) : Session :=
  {| db := db s; tx := db s;
     journal := EvLog ERROR (MsgErrorCreating e) :: EvRollback :: journal s |}.

(** The three ways a run of [save] goes: the client check raises, the
    pre-check raises, or the transaction is entered and its outcome,
    rolled back when it is an error, is the outcome of [save]. *)
Inductive save_run (env : Env) (schema : OrderSchema) (s : Session)
    : Outcome OrderSchema -> Session -> Prop :=
| run_no_client e s' :
    validate_client env schema s = (Raise e, s') ->
    save_run env schema s (Raise e) s'
| run_precheck_failed s1 e :
    validate_client env schema s = (Ret tt, s1) ->
    for_in (default [] (items schema)) (precheck_item env) (∅, 0%float) s1
      = (Raise e, s1) ->
    save_run env schema s (Raise e) s1
| run_transaction s1 c sub n s2 o s3 :
    validate_client env schema s = (Ret tt, s1) ->
    for_in (default [] (items schema)) (precheck_item env) (∅, 0%float) s1
      = (Ret (c, sub), s1) ->
    _generate_next_order_number env s1 = (Ret n, s2) ->
    save_transaction env schema (default [] (items schema)) c
      (apply_discount sub (discount_pct schema)).1
      (apply_discount sub (discount_pct schema)).2 n s2 = (o, s3) ->
    save_run env schema s
      o
      (match o with Ret _ => s3 | Raise e => after_rollback e s3 end).

(** The discount the specification describes, for a percentage [pct]:
    [subtotal * pct / 100] when [pct > 0], zero otherwise. *)
Definition discount_of (subtotal pct : float) : float :=
  if (0 <? pct)%float then (subtotal * pct / 100)%float else 0%float.

(** [max(x, 0)] as the float that is stored. *)
Definition floor_zero (x : float) : float :=
  if (x <? 0)%float then 0%float else x.

(** The total the specification describes. *)
Definition total_of (subtotal pct : float) : float :=
  floor_zero (subtotal - discount_of subtotal pct).

(** The products with every absent price set to the float zero. *)
Definition zero_priced (P : gmap Z ProductModel) : gmap Z ProductModel :=
  (fun p => {| price := Some (default 0%float (price p)); stock := stock p |})
    <$> P.

(** Every quantity of the list converts to a float. *)
Definition quantities_fit (items : list OrderItemInput) : Prop :=
  Forall (fun it => fits_float (quantity it) = true) items.

(** The references of a request resolve: the client lookup answers and
    finds the client, and every product lookup answers and finds the
    product. *)
Definition lookups_resolve (env : Env) (schema : OrderSchema) (st : Store)
    : Prop :=
  faults env CallFindClient = false /\
  (exists c, client_id schema = Some c /\ c ∈ clients st) /\
  Forall (fun it => faults env (CallGetProduct (product_id it)) = false /\
                    is_Some (products st !! product_id it))
         (default [] (items schema)).

(** The errors [save] raises before its [try], by the step that raises
    them. *)
Inductive raised_before_transaction (schema : OrderSchema) : Exn -> Prop :=
| rbt_client_lookup :
    raised_before_transaction schema (StorageError CallFindClient)
| rbt_no_client :
    raised_before_transaction schema
      (InstanceNotFoundError FromService EClient (client_id schema))
| rbt_product_lookup pid :
    pid ∈ item_ids (default [] (items schema)) ->
    raised_before_transaction schema (StorageError (CallGetProduct pid))
| rbt_no_product pid :
    pid ∈ item_ids (default [] (items schema)) ->
    raised_before_transaction schema
      (InstanceNotFoundError FromService EProduct (Some pid))
| rbt_stock pid a q :
    pid ∈ item_ids (default [] (items schema)) ->
    raised_before_transaction schema (ValueError pid a q).

(** The errors raised inside the [try]. *)
Inductive raised_in_transaction (schema : OrderSchema) : Exn -> Prop :=
| rit_stock pid a q :
    a < 0 -> raised_in_transaction schema (ValueError pid (Some a) q)
| rit_key_taken n :
    raised_in_transaction schema (IntegrityError n)
| rit_no_bill b :
    bill_id schema = Some b ->
    raised_in_transaction schema
      (InstanceNotFoundError FromService EBill (Some b))
| rit_storage c :
    c ∈ [CallFlushOrder; CallGetBill; CallFlushBill; CallCommit] ->
    raised_in_transaction schema (StorageError c).

(** The errors [update] raises. *)
Inductive raised_by_update (st : Store) (key : Z) (schema : OrderSchema)
    : Exn -> Prop :=
| rbu_client_lookup :
    raised_by_update st key schema (StorageError CallFindClient)
| rbu_no_client c :
    client_id schema = Some c -> c ∉ clients st ->
    raised_by_update st key schema
      (InstanceNotFoundError FromService EClient (Some c))
| rbu_bill_lookup :
    raised_by_update st key schema (StorageError CallFindBill)
| rbu_no_bill b :
    bill_id schema = Some b -> bills st !! b = None ->
    raised_by_update st key schema
      (InstanceNotFoundError FromService EBill (Some b))
| rbu_no_order :
    orders st !! key = None ->
    raised_by_update st key schema
      (InstanceNotFoundError FromRepository EOrder (Some key))
| rbu_commit :
    raised_by_update st key schema (StorageError CallCommit).

(** The example store of the specification's scenarios: client 1, and
    product 1 with stock 10 at price 5. *)
Module Scenario.

Definition env0 : Env :=
  {| faults := no_faults; utcnow := 1700000000; utcnow_date := 19675 |}.

Definition store0 : Store :=
  {| clients := {[ 1 ]};
     products := {[ 1 := {| price := Some 5%float; stock := Some 10 |} ]};
     bills := ∅; orders := ∅; order_details := [] |}.

Definition request (its : list OrderItemInput) (pct : float) : OrderSchema :=
  {| id_key := None; date := None; total := 0%float; delivery_method := 1;
     status := 1; client_id := Some 1; bill_id := None;
     items := Some its; discount_pct := Some pct |}.

Definition line (pid q : Z) : OrderItemInput :=
  {| product_id := pid; quantity := q |}.

End Scenario.

(** Further stores and requests the examples run on. *)

(** A store where bill 7 exists with a number of its own. *)
Definition store_with_bill : Store :=
  with_bills
    <[7 := {| bill_number := Some "F-0001"%string; discount := 0%float;
              b_date := 19000; b_total := 0%float; payment_type := CASH;
              b_client_id := Some 1 |}]>
    Scenario.store0.

(** A store where bill 7 carries the number 2000, with blanks around. *)
Definition store_with_bill_2000 : Store :=
  with_bills
    <[7 := {| bill_number := Some " 2000 "%string; discount := 0%float;
              b_date := 19000; b_total := 0%float; payment_type := CASH;
              b_client_id := Some 1 |}]>
    Scenario.store0.

(** A request that supplies bill 7. *)
Definition request_with_bill : OrderSchema :=
  {| id_key := None; date := None; total := 0%float; delivery_method := 1;
     status := 1; client_id := Some 1; bill_id := Some 7;
     items := Some [Scenario.line 1 1]; discount_pct := None |}.

(** Product 2 has stock but no price. *)
Definition store_unpriced : Store :=
  with_products <[2 := {| price := None; stock := Some 4 |}]> Scenario.store0.



(** Product 3 has a price but no stock figure. *)
Definition store_unstocked : Store :=
  with_products <[3 := {| price := Some 2%float; stock := None |}]> Scenario.store0.

(** A store that holds order 2000. *)
Definition store_with_order_2000 : Store :=
  with_orders
    <[2000 := {| o_date := 1690000000; o_total := 5%float; o_delivery_method := 1;
                 o_status := 1; o_client_id := Some 1; o_bill_id := None |}]>
    Scenario.store0.

(** Surroundings where reading the bill numbers fails. *)
Definition env_bill_lookup_fails : Env :=
  {| faults := fun c => match c with CallBillNumbers => true | _ => false end;
     utcnow := 1700000000; utcnow_date := 19675 |}.

(** The scenario store with order 1000 placed, for a total of 9. *)
Definition store_with_order_1000 : Store :=
  with_orders
    <[1000 := {| o_date := 1690000000; o_total := 9%float; o_delivery_method := 1;
                 o_status := 1; o_client_id := Some 1; o_bill_id := None |}]>
    Scenario.store0.

(** An update that names items and a total of its own. *)
Definition update_request : OrderSchema :=
  {| id_key := None; date := None; total := 3%float; delivery_method := 2;
     status := 2; client_id := Some 1; bill_id := None;
     items := Some [Scenario.line 1 4]; discount_pct := Some 50%float |}.

(* ================================================================== *)
(** ** The rest of the service *)
(* ================================================================== *)

(** [OrderService.to_model] (lines 183-193): [date] falls back on the
    clock, every other field is taken over. *)
Definition to_model (env : Env) (schema : OrderSchema) : OrderModel :=
  {| o_date := default (utcnow env) (date schema);
     o_total := total schema;
     o_delivery_method := delivery_method schema;
     o_status := status schema;
     o_client_id := client_id schema;
     o_bill_id := bill_id schema |}.

(** Every bill number of the table is one [PyInt.py_int] reads the way
    [int] does. *)
Definition plain_bill_numbers (B : gmap Z BillModel) : Prop :=
  forall k b bn,
    B !! k = Some b -> bill_number b = Some bn -> PyInt.plain bn = true.

(** The storage calls a placement makes up to its commit all answer. *)
Definition storage_answers (env : Env) : Prop :=
  faults env CallFindClient = false /\
  (forall pid, faults env (CallGetProduct pid) = false) /\
  faults env CallMaxOrderId = false /\
  faults env CallBillNumbers = false /\
  faults env CallFlushOrder = false /\
  faults env CallGetBill = false /\
  faults env CallFlushBill = false.

(** Every line asks for a positive quantity of a product that exists, and
    the lines of a product ask, in sum, no more than its stock. *)
Definition stock_suffices (st : Store) (its : list OrderItemInput) : Prop :=
  Forall (fun it =>
            0 < quantity it /\
            exists p v, products st !! product_id it = Some p /\
                        stock p = Some v /\
                        total_quantity (product_id it) its <= v) its.

(** The quantity the detail rows [rows] record for product [pid]. *)
Definition detail_quantity (pid : Z) (rows : list OrderDetailModel) : Z :=
  foldr (fun od acc =>
           if bool_decide (od_product_id od = pid) then od_quantity od + acc
           else acc)
        0 rows.

(** The journal grew by log lines only. *)
Definition only_logged : relation Session := fun s s' =>
  forall ev, ev ∈ journal s' -> ev ∈ journal s \/ is_log ev.

(** The handler of [save]'s [try] (lines 178-181). *)
Definition save_handler (e : Exn) : M OrderSchema :=
  session_rollback;; logger ERROR (MsgErrorCreating e);; raise e.

(** The journal entry of the cache eviction: the eviction itself, or the
    warning when it failed. *)
Definition eviction_entry (env : Env) : Event :=
  if faults env CallDeletePattern
  then EvLog WARNING (MsgCacheNotInvalidated (StorageError CallDeletePattern))
  else EvDeletePattern "products:*".

(** A session over [st] with the bill [b] added under key [k]. *)
Definition with_extra_bill (k : Z) (b : BillModel) (s : Session) : Session :=
  {| db := db s; tx := with_bills <[k := b]> (tx s); journal := journal s |}.

(** A bill whose number does not read as an integer. *)
Definition unreadable_bill : BillModel :=
  {| bill_number := Some "F-0001"%string; discount := 0%float; b_date := 19000;
     b_total := 0%float; payment_type := CASH; b_client_id := Some 1 |}.

(** Surroundings where the cache cannot be reached. *)
Definition env_cache_down : Env :=
  {| faults := fun c => match c with CallDeletePattern => true | _ => false end;
     utcnow := 1700000000; utcnow_date := 19675 |}.

(** Surroundings where the commit fails. *)
Definition env_commit_fails : Env :=
  {| faults := fun c => match c with CallCommit => true | _ => false end;
     utcnow := 1700000000; utcnow_date := 19675 |}.

(* ================================================================== *)
(** ** Facts about [str] and [int] *)
(* ================================================================== *)

Module PyIntFacts.
Import PyInt.

Example py_str_1000 : py_str 1000 = "1000"%string.
Proof. reflexivity. Qed.

Example py_str_neg : py_str (-42) = "-42"%string.
Proof. reflexivity. Qed.

Example py_int_spaces : py_int " 1_000 "%string = Some 1000.
Proof. reflexivity. Qed.

Example py_int_word : py_int "F-0001"%string = None.
Proof. reflexivity. Qed.

Example py_int_empty : py_int ""%string = None.
Proof. reflexivity. Qed.

(** A unit separator is not whitespace for [int]. *)
Example py_int_unit_separator :
  py_int (String (ascii_of_N 31) "2000")%string = None.
Proof. reflexivity. Qed.

Lemma digit_char_is_digit d :
  0 <= d < 10 -> is_digit (digit_char d) = true /\ digit_val (digit_char d) = d.
Proof.
  intros Hd.
  assert (d = 0 \/ d = 1 \/ d = 2 \/ d = 3 \/ d = 4 \/
          d = 5 \/ d = 6 \/ d = 7 \/ d = 8 \/ d = 9) as Hc by lia.
  repeat (destruct Hc as [-> | Hc]; [split; reflexivity |]).
  subst d. split; reflexivity.
Qed.

Lemma is_digit_not_space c : is_digit c = true -> is_space c = false.
Proof.
  unfold is_digit, is_space. intros H.
  apply andb_true_iff in H as [H1 H2].
  apply N.leb_le in H1. apply N.leb_le in H2.
  apply orb_false_iff. split.
  - apply andb_false_iff. right. apply N.leb_gt. lia.
  - apply N.eqb_neq. lia.
Qed.

Lemma is_digit_not_sign c :
  is_digit c = true -> (c =? "-")%char = false /\ (c =? "+")%char = false.
Proof.
  intros H. split; apply Ascii.eqb_neq; intros ->; discriminate H.
Qed.

Lemma string_cons_app a (d t : string) :
  (String a d ++ t)%string = String a (d ++ t)%string.
Proof. reflexivity. Qed.

Lemma string_app_cons (d : string) c rest :
  (d ++ String c rest)%string = ((d ++ String c EmptyString) ++ rest)%string.
Proof.
  induction d as [| a d IHd]; [reflexivity |].
  rewrite !string_cons_app. now rewrite IHd.
Qed.

Lemma str_forall_app P s t :
  str_forall P (s ++ t)%string = str_forall P s && str_forall P t.
Proof.
  induction s as [| c r IH]; [reflexivity |].
  rewrite string_cons_app. cbn [str_forall].
  now rewrite IH, andb_assoc.
Qed.

Lemma digits_of_S f n acc :
  digits_of (S f) n acc =
  if n <? 10 then String (digit_char (n mod 10)) acc
  else digits_of f (n / 10) (String (digit_char (n mod 10)) acc).
Proof. reflexivity. Qed.

(** [digits_of] emits a non-empty block of digits whose value is [n]. *)
Lemma digits_of_parse f : forall n rest,
  0 <= n < 2 ^ Z.of_nat (S f) ->
  exists c d k,
    digits_of (S f) n rest = String c (d ++ rest)%string /\
    str_forall is_digit (String c d) = true /\
    0 <= k /\
    forall st acc,
      parse_digits st acc (digits_of (S f) n rest) =
      parse_digits AfterDigit (acc * 10 ^ k + n) rest.
Proof.
  induction f as [| f IH]; intros n rest Hn;
    rewrite digits_of_S; destruct (Z.ltb_spec n 10) as [Hlt | Hge].
  1, 3: destruct (digit_char_is_digit n) as [Hd Hv]; [lia |];
        rewrite Z.mod_small by lia;
        exists (digit_char n), EmptyString, 1; repeat split; try lia;
        [ cbn; now rewrite Hd
        | intros st acc; cbn [parse_digits]; rewrite Hd, Hv; f_equal; lia ].
  - change (2 ^ Z.of_nat 1) with 2 in Hn. lia.
  - assert (0 <= n mod 10 < 10) as Hm by (apply Z.mod_pos_bound; lia).
    destruct (digit_char_is_digit (n mod 10) Hm) as [Hd Hv].
    assert (0 <= n / 10 < 2 ^ Z.of_nat (S f)) as Hq.
    { split; [apply Z.div_pos; lia |].
      apply Z.div_lt_upper_bound; [lia |].
      rewrite (Nat2Z.inj_succ (S f)), Z.pow_succ_r in Hn by lia.
      pose proof (Z.pow_pos_nonneg 2 (Z.of_nat (S f))). lia. }
    destruct (IH (n / 10) (String (digit_char (n mod 10)) rest) Hq)
      as (c & d & k & Heq & Hall & Hk & Hp).
    exists c, (d ++ String (digit_char (n mod 10)) EmptyString)%string, (k + 1).
    repeat split; try lia.
    + rewrite Heq. f_equal. apply string_app_cons.
    + cbn [str_forall] in Hall |- *.
      rewrite str_forall_app. cbn [str_forall].
      apply andb_true_iff in Hall as [Hc Hall]. now rewrite Hc, Hall, Hd.
    + intros st acc. rewrite Hp. cbn [parse_digits]. rewrite Hd, Hv.
      f_equal. rewrite Z.pow_add_r by lia.
      pose proof (Z.div_mod n 10 ltac:(lia)). lia.
Qed.

Lemma digits_fuel_bound n : 0 <= n -> 0 <= n < 2 ^ Z.of_nat (digits_fuel n).
Proof.
  intros Hn. split; [exact Hn |]. unfold digits_fuel.
  rewrite Nat2Z.inj_succ, Z2Nat.id by apply Z.log2_nonneg.
  destruct (Z.eq_dec n 0) as [-> | Hne]; [reflexivity |].
  apply Z.log2_spec. lia.
Qed.

Lemma lstrip_no_space s :
  str_forall not_space s = true -> lstrip s = s.
Proof.
  destruct s as [| c r]; cbn; [reflexivity |].
  intros H. apply andb_true_iff in H as [H _].
  apply negb_true_iff in H. now rewrite H.
Qed.

Lemma rstrip_no_space s :
  str_forall not_space s = true -> rstrip s = s.
Proof.
  induction s as [| c r IH]; cbn; [reflexivity |].
  intros H. apply andb_true_iff in H as [Hc Hr].
  apply negb_true_iff in Hc. rewrite (IH Hr), Hc.
  now destruct r.
Qed.

Lemma str_forall_impl (P R : ascii -> bool) s :
  (forall c, P c = true -> R c = true) ->
  str_forall P s = true -> str_forall R s = true.
Proof.
  intros HPR. induction s as [| c r IH]; cbn; [reflexivity |].
  intros H. apply andb_true_iff in H as [Hc Hr].
  now rewrite (HPR _ Hc), (IH Hr).
Qed.

Lemma string_app_empty (s : string) : (s ++ "")%string = s.
Proof.
  induction s as [| c r IH]; [reflexivity |].
  rewrite string_cons_app. now rewrite IH.
Qed.

Lemma strip_no_space s : str_forall not_space s = true -> strip s = s.
Proof.
  intros H. unfold strip.
  rewrite (lstrip_no_space _ H). now apply rstrip_no_space.
Qed.

Lemma digits_of_spec n :
  0 <= n ->
  exists c d,
    digits_of (digits_fuel n) n EmptyString = String c d /\
    is_digit c = true /\
    str_forall not_space (String c d) = true /\
    parse_digits AtStart 0 (String c d) = Some n.
Proof.
  intros Hn.
  pose proof (digits_fuel_bound n Hn) as Hb. unfold digits_fuel in *.
  destruct (digits_of_parse _ n EmptyString Hb)
    as (c & d & k & Heq & Hall & Hk & Hp).
  rewrite string_app_empty in Heq.
  exists c, d. split; [exact Heq |]. split; [| split].
  - cbn [str_forall] in Hall. now apply andb_true_iff in Hall as [Hc _].
  - eapply str_forall_impl; [| exact Hall].
    intros a Ha. unfold not_space. now rewrite (is_digit_not_space _ Ha).
  - rewrite <- Heq, Hp. cbn [parse_digits]. f_equal; lia.
Qed.

(** Round trip: [int(str(n)) == n] for every integer. *)
Lemma py_int_py_str n : py_int (py_str n) = Some n.
Proof.
  unfold py_str. destruct (Z.ltb_spec n 0) as [Hneg | Hpos].
  - destruct (digits_of_spec (- n)) as (c & d & -> & Hc & Hns & Hparse); [lia |].
    unfold py_int. rewrite strip_no_space.
    + rewrite Ascii.eqb_refl, Hparse. cbn. f_equal. lia.
    + cbn [str_forall] in Hns |- *. now rewrite Hns.
  - destruct (digits_of_spec n Hpos) as (c & d & -> & Hc & Hns & Hparse).
    unfold py_int. rewrite (strip_no_space _ Hns).
    now destruct (is_digit_not_sign c Hc) as [-> ->].
Qed.

End PyIntFacts.

(* ================================================================== *)
(** ** The monad: running programs step by step *)
(* ================================================================== *)

Lemma bind_inv {A B} (m : M A) (f : A -> M B) s o s' :
  (m ≫= f) s = (o, s') ->
  (exists a s1, m s = (Ret a, s1) /\ f a s1 = (o, s')) \/
  (exists e, m s = (Raise e, s') /\ o = Raise e).
Proof.
  unfold mbind, M_bind. destruct (m s) as [[a | e] s1]; intros H.
  - left. eauto.
  - right. inversion H; subst. eauto.
Qed.

Lemma bind_ret_inv {A B} (m : M A) (f : A -> M B) s b s' :
  (m ≫= f) s = (Ret b, s') ->
  exists a s1, m s = (Ret a, s1) /\ f a s1 = (Ret b, s').
Proof.
  intros H. apply bind_inv in H as [H | (e & _ & H)]; [exact H | discriminate].
Qed.

Lemma bind_run_ret {A B} (m : M A) (f : A -> M B) s a s1 :
  m s = (Ret a, s1) -> (m ≫= f) s = f a s1.
Proof. unfold mbind, M_bind. now intros ->. Qed.

Lemma bind_run_raise {A B} (m : M A) (f : A -> M B) s e s1 :
  m s = (Raise e, s1) -> (m ≫= f) s = (Raise e, s1).
Proof. unfold mbind, M_bind. now intros ->. Qed.

Lemma for_in_cons {A S} (x : A) xs (body : A -> S -> M S) acc :
  for_in (x :: xs) body acc = (body x acc ≫= for_in xs body).
Proof. reflexivity. Qed.

Ltac munfold :=
  unfold mbind, M_bind, mret, M_ret, raise, try_except_not_found, try_except,
    attempt, get_tx, modify_tx, logger, emit, call, session_rollback,
    persist_tx in *.

Lemma call_inv env c s o s' :
  call env c s = (o, s') ->
  s' = s /\
  ((faults env c = false /\ o = Ret tt) \/
   (faults env c = true /\ o = Raise (StorageError c))).
Proof.
  unfold call. destruct (faults env c); intros H; simplify_eq; auto.
Qed.

(** Symbolic execution of a run [H : m s = (o, s')], one construct at a
    time. *)
Ltac msim :=
  repeat match goal with
  | H : (_ ≫= _) _ = _ |- _ =>
      apply bind_inv in H as [(? & ? & ? & ?) | (? & ? & ?)]; simplify_eq
  | H : mret _ _ = _ |- _ => unfold mret, M_ret in H; simplify_eq
  | H : raise _ _ = _ |- _ => unfold raise in H; simplify_eq
  | H : get_tx _ = _ |- _ => unfold get_tx in H; simplify_eq
  | H : modify_tx _ _ = _ |- _ => unfold modify_tx in H; simplify_eq
  | H : emit _ _ = _ |- _ => unfold emit in H; simplify_eq
  | H : logger _ _ _ = _ |- _ => unfold logger in H
  | H : persist_tx _ = _ |- _ => unfold persist_tx in H; simplify_eq
  | H : session_rollback _ = _ |- _ => unfold session_rollback in H; simplify_eq
  | H : session_add_persistent _ _ = _ |- _ =>
      unfold session_add_persistent in H
  | H : call _ _ _ = _ |- _ =>
      apply call_inv in H as (? & [(? & ?) | (? & ?)]); simplify_eq
  | H : (match ?x with _ => _ end) _ = _ |- _ =>
      destruct x eqn:?; cbv beta iota in H
  | H : Ret _ = Ret _ |- _ => simplify_eq
  | H : Raise _ = Raise _ |- _ => simplify_eq
  | H : Ret _ = Raise _ |- _ => discriminate H
  | H : Raise _ = Ret _ |- _ => discriminate H
  end.

Section Keeps.

Context (R : relation Session) `{!PreOrder R}.

Lemma keeps_ret {A} (a : A) : keeps R (mret a).
Proof. intros s o s' H. inversion H; subst. reflexivity. Qed.

Lemma keeps_raise {A} e : keeps R (@raise A e).
Proof. intros s o s' H. inversion H; subst. reflexivity. Qed.

Lemma keeps_get_tx : keeps R get_tx.
Proof. intros s o s' H. inversion H; subst. reflexivity. Qed.

Lemma keeps_call env c : keeps R (call env c).
Proof.
  intros s o s' H. unfold call in H.
  destruct (faults env c); inversion H; subst; reflexivity.
Qed.

Lemma keeps_bind {A B} (m : M A) (f : A -> M B) :
  keeps R m -> (forall a, keeps R (f a)) -> keeps R (m ≫= f).
Proof.
  intros Hm Hf s o s' H.
  apply bind_inv in H as [(a & s1 & H1 & H2) | (e & H1 & _)].
  - transitivity s1; [exact (Hm _ _ _ H1) | exact (Hf _ _ _ _ H2)].
  - exact (Hm _ _ _ H1).
Qed.

Lemma keeps_try_except {A} (m : M A) h :
  keeps R m -> (forall e, keeps R (h e)) -> keeps R (try_except m h).
Proof.
  intros Hm Hh s o s' H. unfold try_except in H.
  destruct (m s) as [[a | e] s1] eqn:E.
  - inversion H; subst. exact (Hm _ _ _ E).
  - transitivity s1; [exact (Hm _ _ _ E) | exact (Hh _ _ _ _ H)].
Qed.

Lemma keeps_attempt {A} (m : M A) : keeps R m -> keeps R (attempt m).
Proof.
  intros Hm s o s' H. unfold attempt in H.
  destruct (m s) as [[a | e] s1] eqn:E; inversion H; subst; exact (Hm _ _ _ E).
Qed.

Lemma keeps_for_in {A S} (xs : list A) (body : A -> S -> M S) :
  (forall x acc, x ∈ xs -> keeps R (body x acc)) ->
  forall acc, keeps R (for_in xs body acc).
Proof.
  induction xs as [| x xs IH]; intros Hb acc.
  - apply keeps_ret.
  - rewrite for_in_cons. apply keeps_bind.
    + apply Hb. left.
    + intros a. apply IH. intros y acc' Hy. apply Hb. now right.
Qed.

End Keeps.

#[global] Instance quiet_preorder : PreOrder quiet.
Proof.
  split.
  - intros s. unfold quiet. auto.
  - intros s1 s2 s3 (Hd1 & Ht1 & Hj1) (Hd2 & Ht2 & Hj2).
    repeat split; [congruence | congruence |].
    intros ev Hev. destruct (Hj2 ev Hev) as [H | H]; auto.
Qed.

#[global] Instance same_db_preorder : PreOrder same_db.
Proof. split; unfold same_db; [easy | intros ???; congruence]. Qed.

#[global] Instance same_products_preorder : PreOrder same_products.
Proof. split; unfold same_products; [easy | intros ???; congruence]. Qed.

#[global] Instance same_bills_preorder : PreOrder same_bills.
Proof. split; unfold same_bills; [easy | intros ???; congruence]. Qed.

#[global] Instance same_orders_preorder : PreOrder same_orders.
Proof. split; unfold same_orders; [easy | intros ???; congruence]. Qed.

#[global] Instance same_details_preorder : PreOrder same_details.
Proof. split; unfold same_details; [easy | intros ???; congruence]. Qed.

#[global] Instance only_products_preorder : PreOrder only_products.
Proof.
  split.
  - intros s. unfold only_products. auto 10.
  - intros s1 s2 s3 (?&?&?&?&?&?) (?&?&?&?&?&?).
    unfold only_products. repeat split; congruence.
Qed.

#[global] Instance eq_session_preorder : PreOrder (@eq Session).
Proof. split; [easy | intros ???; congruence]. Qed.

Ltac keeps_atom :=
  let s := fresh "s" in
  let o := fresh "o" in
  let s' := fresh "s'" in
  let H := fresh "H" in
  intros s o s' H; munfold; cbv beta in H;
  repeat case_match; simplify_eq;
  unfold quiet, same_db, same_products, same_bills, same_orders,
    same_details, only_products; cbn;
  try done.

Lemma is_log_cons lvl m ev (l : list Event) :
  ev ∈ EvLog lvl m :: l -> ev ∈ l \/ is_log ev.
Proof.
  intros [-> | H]%elem_of_cons; [right; unfold is_log; eauto | now left].
Qed.

Lemma keeps_quiet_logger lvl m : keeps quiet (logger lvl m).
Proof. keeps_atom. repeat split. intros ev. apply is_log_cons. Qed.

Ltac keeps_step :=
  lazymatch goal with
  | |- keeps _ (mret _) => apply keeps_ret
  | |- keeps _ (raise _) => apply keeps_raise
  | |- keeps _ (call _ _) => apply keeps_call
  | |- keeps _ get_tx => apply keeps_get_tx
  | |- keeps _ (_ ≫= _) => apply keeps_bind; [.. | intros ?]
  | |- keeps _ (try_except _ _) => apply keeps_try_except; [.. | intros ?]
  | |- keeps _ (try_except_not_found _ _) => unfold try_except_not_found
  | |- keeps _ (attempt _) => apply keeps_attempt
  | |- keeps _ (for_in _ _ _) => apply keeps_for_in; [.. | intros ? ? ?]
  | |- keeps quiet (logger _ _) => apply keeps_quiet_logger
  | |- keeps _ (match ?x with _ => _ end) => destruct x
  | |- keeps _ (let _ := _ in _) => cbv zeta
  | |- PreOrder _ => exact _
  end.

Ltac keeps_solve := repeat keeps_step; try solve [keeps_atom].

(** *** Validation, pre-check and allocation do not touch the stores *)

Lemma validate_client_quiet env schema : keeps quiet (validate_client env schema).
Proof.
  unfold validate_client, client_repository_find.
  keeps_solve.
Qed.

Lemma precheck_item_pure env item acc : keeps eq (precheck_item env item acc).
Proof.
  unfold precheck_item, session_get_product, product_attrs. keeps_solve.
Qed.

Lemma precheck_pure env items acc :
  keeps eq (for_in items (precheck_item env) acc).
Proof. keeps_solve. apply precheck_item_pure. Qed.

Lemma generate_next_order_number_quiet env :
  keeps quiet (_generate_next_order_number env).
Proof.
  unfold _generate_next_order_number, query_max_order_id, query_bill_numbers.
  keeps_solve.
Qed.

(** *** The allocator always answers *)

Lemma attempt_total {A} (m : M A) s :
  exists r s', attempt m s = (Ret r, s').
Proof. unfold attempt. destruct (m s) as [[a | e] s']; eauto. Qed.

Lemma generate_next_order_number_total env s :
  exists n s', _generate_next_order_number env s = (Ret n, s').
Proof.
  unfold _generate_next_order_number, query_max_order_id, query_bill_numbers.
  munfold. repeat case_match; simplify_eq; eauto.
Qed.

(** *** The pre-check loop *)

Lemma precheck_item_spec env it c sub s o s' :
  precheck_item env it (c, sub) s = (o, s') ->
  s' = s /\
  match o with
  | Ret (c', sub') =>
      faults env (CallGetProduct (product_id it)) = false /\
      c' = <[product_id it := product_id it]> c /\
      sub' = (sub + line_amount (products (tx s)) it)%float /\
      in_stock (products (tx s)) it
  | Raise e => precheck_failure env (products (tx s)) it e
  end.
Proof.
  unfold precheck_item, session_get_product, product_attrs, precheck_failure,
    in_stock, line_amount, unit_price.
  intros H. msim; (split; [done |]).
  all: repeat match goal with
         | H : match ?x with _ => _ end = _ |- _ =>
             destruct x eqn:?; simplify_eq
         end.
  all: try match goal with
         | H : (_ <? _) = true |- _ => apply Z.ltb_lt in H
         | H : (_ <? _) = false |- _ => apply Z.ltb_ge in H
         end.
  all: try congruence.
  all: try match goal with
         | H1 : ?l = Some ?a, H2 : ?l = Some ?b |- _ =>
             tryif constr_eq a b then fail
             else (assert (a = b) by congruence; subst)
         end.
  - right. right. split; [done |]. eexists. split; [reflexivity |].
    match goal with H : stock _ = _ |- _ => rewrite H end. auto.
  - right. right. split; [done |]. eexists. split; [reflexivity |].
    match goal with H : stock _ = _ |- _ => rewrite H end. auto.
  - repeat split; eauto.
  - right. left. auto.
  - left. auto.
Qed.

Lemma subtotal_from_cons acc P it items :
  subtotal_from acc P (it :: items) =
  subtotal_from (acc + line_amount P it)%float P items.
Proof. reflexivity. Qed.

Lemma precheck_spec env items : forall c0 sub0 s o s',
  for_in items (precheck_item env) (c0, sub0) s = (o, s') ->
  s' = s /\
  match o with
  | Ret (c, sub) =>
      sub = subtotal_from sub0 (products (tx s)) items /\
      (forall k, c !! k =
                 if bool_decide (k ∈ item_ids items) then Some k else c0 !! k) /\
      Forall (in_stock (products (tx s))) items /\
      Forall (fun it => faults env (CallGetProduct (product_id it)) = false) items
  | Raise e =>
      exists done_ it rest,
        items = done_ ++ it :: rest /\
        Forall (in_stock (products (tx s))) done_ /\
        Forall (fun it => faults env (CallGetProduct (product_id it)) = false)
               done_ /\
        precheck_failure env (products (tx s)) it e
  end.
Proof.
  induction items as [| it items IH]; intros c0 sub0 s o s' H.
  - inversion H; subst. split; [done |]. split; [| now repeat split].
    reflexivity.
  - rewrite for_in_cons in H.
    apply bind_inv in H as [([c1 sub1] & s1 & H1 & H2) | (e & H1 & ->)].
    + apply precheck_item_spec in H1 as (-> & Hf & -> & -> & Hin).
      apply IH in H2 as (-> & H2). split; [done |].
      destruct o as [[c sub] | e].
      * destruct H2 as (Hsub & Hc & Hall & Hfs).
        split; [| split; [| split]].
        -- rewrite Hsub, subtotal_from_cons. reflexivity.
        -- intros k. rewrite Hc. unfold item_ids. cbn.
           destruct (decide (k = product_id it)) as [-> | Hne].
           ++ rewrite lookup_insert_eq.
              rewrite (bool_decide_eq_true_2 (_ ∈ _ :: _)) by left.
              now case_bool_decide.
           ++ rewrite lookup_insert_ne by done.
              rewrite (bool_decide_ext (k ∈ product_id it :: (product_id <$> items))
                         (k ∈ product_id <$> items)); [done |].
              rewrite elem_of_cons. split; [intros [? | ?]; done | auto].
        -- now constructor.
        -- now constructor.
      * destruct H2 as (d & it' & rest & -> & Hd & Hfd & Hfail).
        exists (it :: d), it', rest. repeat split; auto.
    + apply precheck_item_spec in H1 as (-> & Hfail). split; [done |].
      exists [], it, items. repeat split; auto.
Qed.

(** *** The loop that takes the stock *)

Lemma total_quantity_cons pid it items :
  total_quantity pid (it :: items) =
  if bool_decide (product_id it = pid)
  then quantity it + total_quantity pid items
  else total_quantity pid items.
Proof. reflexivity. Qed.

Lemma total_quantity_absent pid items :
  pid ∉ item_ids items -> total_quantity pid items = 0.
Proof.
  unfold item_ids. induction items as [| it items IH]; [reflexivity |].
  rewrite fmap_cons, not_elem_of_cons, total_quantity_cons.
  intros [Hne Hni]. rewrite bool_decide_eq_false_2 by congruence. auto.
Qed.

Lemma take_stock_0 p : take_stock 0 p = p.
Proof.
  destruct p as [pr [st |]]; unfold take_stock; cbn; [| reflexivity].
  now rewrite Z.sub_0_r.
Qed.

Lemma take_stock_set n q st p :
  take_stock n (set_stock (Some (st - q)) p) =
  {| price := price p; stock := Some (st - (q + n)) |}.
Proof. unfold take_stock, set_stock. cbn. do 2 f_equal. lia. Qed.

Lemma update_stock_item_spec c it s o s' :
  stock_ready (products (tx s)) c it ->
  update_stock_item c it tt s = (o, s') ->
  exists p st,
    products (tx s) !! product_id it = Some p /\ stock p = Some st /\
    s' = {| db := db s;
            tx := with_products
                    (alter (set_stock (Some (st - quantity it))) (product_id it))
                    (tx s);
            journal := journal s |} /\
    ((0 <= st - quantity it /\ o = Ret tt) \/
     (st - quantity it < 0 /\
      o = Raise (ValueError (product_id it) (Some (st - quantity it))
                            (quantity it)))).
Proof.
  intros (Hc & p & st & Hp & Hst) H.
  unfold update_stock_item, product_attrs in H. rewrite Hc in H.
  msim; try congruence.
  all: eexists _, _; split; [reflexivity |]; split; [eassumption |];
       split; [reflexivity |].
  - right. split; [| done]. now apply Z.ltb_lt.
  - left. split; [| done]. now apply Z.ltb_ge.
Qed.

Lemma update_stock_spec c items : forall s o s',
  Forall (stock_ready (products (tx s)) c) items ->
  for_in items (update_stock_item c) tt s = (o, s') ->
  only_products s s' /\
  match o with
  | Ret _ =>
      (forall k, products (tx s') !! k =
                 take_stock (total_quantity k items) <$> products (tx s) !! k) /\
      (forall k, k ∈ item_ids items ->
                 exists p st, products (tx s') !! k = Some p /\
                              stock p = Some st /\ 0 <= st)
  | Raise e => exists pid a q, e = ValueError pid (Some a) q /\ a < 0
  end.
Proof.
  induction items as [| it items IH]; intros s o s' Hready H.
  - inversion H; subst. split; [reflexivity |]. split.
    + intros k. cbn. destruct (products (tx s') !! k) as [p |]; cbn; [| done].
      now rewrite take_stock_0.
    + intros k Hk. inversion Hk.
  - rewrite for_in_cons in H. inversion Hready as [| ? ? Hit Hrest]; subst.
    apply bind_inv in H as [([] & s1 & H1 & H2) | (e & H1 & ->)].
    + apply (update_stock_item_spec _ _ _ _ _ Hit) in H1
        as (p & st & Hp & Hst & -> & [(Hge & _) | (_ & [=])]).
      apply IH in H2 as (Hframe & H2).
      2: { cbn. eapply Forall_impl; [exact Hrest |].
           intros it' (Hc' & p' & st' & Hp' & Hst'). split; [exact Hc' |].
           destruct (decide (product_id it = product_id it')) as [Heq | Hne].
           - rewrite <- Heq, lookup_alter_eq, Hp. cbn. eauto.
           - rewrite lookup_alter_ne by done. eauto. }
      split.
      { destruct Hframe as (? & ? & ? & ? & ? & ?).
        unfold only_products. cbn in *. auto 10. }
      destruct o as [[] | e]; [| exact H2].
      destruct H2 as (Hall & Hnonneg). cbn in Hall.
      assert (forall k, products (tx s') !! k =
                take_stock (total_quantity k (it :: items)) <$>
                  products (tx s) !! k) as Hall'.
      { intros k. rewrite Hall, total_quantity_cons.
        destruct (decide (product_id it = k)) as [<- | Hne].
        - rewrite lookup_alter_eq, Hp, bool_decide_eq_true_2 by done. cbn.
          rewrite take_stock_set. unfold take_stock. now rewrite Hst.
        - rewrite lookup_alter_ne, bool_decide_eq_false_2 by done. done. }
      split; [exact Hall' |].
      intros k Hk. unfold item_ids in Hk. rewrite fmap_cons in Hk.
      destruct (decide (k ∈ item_ids items)) as [Hin | Hnin]; [auto |].
      apply elem_of_cons in Hk as [-> | Hk]; [| done].
      rewrite Hall', Hp, total_quantity_cons, bool_decide_eq_true_2 by done.
      rewrite (total_quantity_absent _ _ Hnin).
      eexists _, (st - (quantity it + 0)). split; [reflexivity |].
      unfold take_stock. cbn [stock]. rewrite Hst. split; [reflexivity | lia].
    + apply (update_stock_item_spec _ _ _ _ _ Hit) in H1
        as (p & st & Hp & Hst & -> & [(_ & [=]) | (Hlt & [= ->])]).
      split; [unfold only_products; cbn; auto 10 |]. eauto.
Qed.

(** *** Keys *)

Lemma Zmax_list_ge l k : k ∈ l -> exists m, Zmax_list l = Some m /\ k <= m.
Proof.
  induction l as [| x l IH]; intros Hk; [inversion Hk |].
  change (Zmax_list (x :: l))
    with (Some (match Zmax_list l with None => x | Some m => Z.max x m end)).
  apply elem_of_cons in Hk as [-> | Hk].
  - destruct (Zmax_list l); eexists; (split; [reflexivity | lia]).
  - destruct (IH Hk) as (m & -> & Hle). eexists; split; [reflexivity | lia].
Qed.

Lemma Zmax_list_nil_inv l : Zmax_list l = None -> l = [].
Proof. destruct l; [done | discriminate]. Qed.

Lemma max_key_ge {A} (m : gmap Z A) k a :
  m !! k = Some a -> exists mx, max_key m = Some mx /\ k <= mx.
Proof.
  intros Hk. apply Zmax_list_ge.
  apply list_elem_of_fmap. exists (k, a). split; [done |].
  now apply elem_of_map_to_list.
Qed.

Lemma fresh_key_fresh {A} (m : gmap Z A) : m !! fresh_key m = None.
Proof.
  destruct (m !! fresh_key m) as [a |] eqn:E; [| done].
  apply max_key_ge in E as (mx & Hmx & Hle).
  unfold fresh_key in Hle. rewrite Hmx in Hle. lia.
Qed.

(** *** Order, bill and detail rows *)

Lemma add_flush_order_ret env n om s s' :
  add_flush_order env n om s = (Ret tt, s') ->
  faults env CallFlushOrder = false /\
  orders (tx s) !! n = None /\
  s' = {| db := db s; tx := with_orders <[n := om]> (tx s);
          journal := journal s |}.
Proof. unfold add_flush_order. intros H. msim. auto. Qed.

Lemma create_or_update_bill_ret env schema d t n s bid s' :
  create_or_update_bill env schema d t n s = (Ret bid, s') ->
  db s' = db s /\ clients (tx s') = clients (tx s) /\
  products (tx s') = products (tx s) /\ orders (tx s') = orders (tx s) /\
  order_details (tx s') = order_details (tx s) /\
  match bill_id schema with
  | None =>
      bills (tx s) !! bid = None /\
      bills (tx s') = <[bid := new_bill env schema (to_float d) (to_float t) n]> (bills (tx s))
  | Some b0 =>
      bid = b0 /\
      exists b, bills (tx s) !! b0 = Some b /\
        bills (tx s') =
          <[b0 := set_bill_number (Some (PyInt.py_str n)) b]> (bills (tx s))
  end.
Proof.
  unfold create_or_update_bill, add_flush_bill, session_get_bill.
  intros H. destruct (bill_id schema) as [b0 |]; msim; cbn.
  - destruct (bills (tx s) !! bid) as [b |] eqn:Hb; [| discriminate].
    match goal with H : Some _ = Some _ |- _ => injection H as <- end.
    repeat split; try done. exists b. split; [done |].
    apply map_eq. intros k. destruct (decide (bid = k)) as [-> | Hne].
    + now rewrite lookup_alter_eq, lookup_insert_eq, Hb.
    + now rewrite lookup_alter_ne, lookup_insert_ne.
  - repeat split; try done. apply fresh_key_fresh.
Qed.

Lemma create_order_detail_spec c n it s o s' :
  c !! product_id it = Some (product_id it) ->
  create_order_detail c n it tt s = (o, s') ->
  match o with
  | Ret _ =>
      s' = {| db := db s;
              tx := with_order_details
                      (fun l => l ++ details_of (products (tx s)) n [it]) (tx s);
              journal := journal s |}
  | Raise e => s' = s /\ products (tx s) !! product_id it = None
  end.
Proof.
  intros Hc H. unfold create_order_detail, product_attrs in H.
  rewrite Hc in H. msim.
  - unfold details_of. cbn.
    match goal with H : _ !! _ = Some _ |- _ => rewrite H end. done.
  - done.
Qed.

Lemma create_order_details_ret c n items : forall s s',
  Forall (fun it => c !! product_id it = Some (product_id it)) items ->
  for_in items (create_order_detail c n) tt s = (Ret tt, s') ->
  s' = {| db := db s;
          tx := with_order_details
                  (fun l => l ++ details_of (products (tx s)) n items) (tx s);
          journal := journal s |}.
Proof.
  induction items as [| it items IH]; intros s s' Hc H.
  - inversion H; subst. destruct s' as [d [] j]. cbn.
    unfold with_order_details, details_of. cbn. now rewrite app_nil_r.
  - rewrite for_in_cons in H. inversion Hc as [| ? ? Hit Hrest]; subst.
    apply bind_ret_inv in H as ([] & s1 & H1 & H2).
    apply (create_order_detail_spec _ _ _ _ _ _ Hit) in H1. cbn in H1.
    subst s1.
    apply IH in H2; [| exact Hrest]. subst s'. cbn.
    unfold with_order_details, details_of. cbn. now rewrite <- app_assoc.
Qed.

(** *** The mutations of a placement, when they all go through *)

Lemma details_of_take_stock (P P' : gmap Z ProductModel) n items :
  (forall k, exists q, P' !! k = take_stock q <$> P !! k) ->
  details_of P' n items = details_of P n items.
Proof.
  intros HP. unfold details_of. apply list_fmap_ext. intros _ it _.
  f_equal. destruct (HP (product_id it)) as (q & ->).
  now destruct (P !! product_id it).
Qed.

Lemma save_mutations_ret env schema items c d t n s om s' :
  Forall (stock_ready (products (tx s)) c) items ->
  save_mutations env schema items c d t n s = (Ret om, s') ->
  exists bid,
    om = placed_order env schema (to_float t) bid /\
    db s' = db s /\ clients (tx s') = clients (tx s) /\
    (forall k, products (tx s') !! k =
               take_stock (total_quantity k items) <$> products (tx s) !! k) /\
    (forall k, k ∈ item_ids items ->
               exists p st, products (tx s') !! k = Some p /\
                            stock p = Some st /\ 0 <= st) /\
    orders (tx s) !! n = None /\
    orders (tx s') = <[n := om]> (orders (tx s)) /\
    order_details (tx s') =
      order_details (tx s) ++ details_of (products (tx s)) n items /\
    match bill_id schema with
    | None =>
        bills (tx s) !! bid = None /\
        bills (tx s') = <[bid := new_bill env schema (to_float d) (to_float t) n]> (bills (tx s))
    | Some b0 =>
        bid = b0 /\
        exists b, bills (tx s) !! b0 = Some b /\
          bills (tx s') =
            <[b0 := set_bill_number (Some (PyInt.py_str n)) b]> (bills (tx s))
    end.
Proof.
  intros Hready H. unfold save_mutations in H.
  apply bind_ret_inv in H as ([] & s1 & Hstock & H).
  apply bind_ret_inv in H as ([] & s2 & Horder & H).
  apply bind_ret_inv in H as (bid & s3 & Hbill & H).
  apply bind_ret_inv in H as ([] & s4 & Hlink & H).
  apply bind_ret_inv in H as ([] & s5 & Hdetails & H).
  unfold mret, M_ret in H. injection H as <- <-.
  apply (update_stock_spec _ _ _ _ _ Hready) in Hstock
    as ((Hdb1 & Hj1 & Hc1 & Hb1 & Ho1 & Hd1) & Hprod & Hnonneg).
  apply add_flush_order_ret in Horder as (_ & Hfree & ->).
  apply create_or_update_bill_ret in Hbill
    as (Hdb3 & Hc3 & Hp3 & Ho3 & Hd3 & Hbills).
  unfold modify_tx in Hlink. injection Hlink as <-.
  apply create_order_details_ret in Hdetails.
  2: { eapply Forall_impl; [exact Hready |]. now intros it [Hc _]. }
  subst s5. cbn in *. exists bid.
  split; [reflexivity |]. split; [congruence |]. split; [congruence |].
  split; [intros k; rewrite Hp3; apply Hprod |].
  split; [intros k Hk; rewrite Hp3; auto |].
  split; [congruence |]. split.
  { rewrite Ho3, Ho1. apply map_eq. intros k.
    destruct (decide (n = k)) as [-> | Hne].
    - now rewrite lookup_alter_eq, !lookup_insert_eq.
    - now rewrite lookup_alter_ne, !lookup_insert_ne. }
  split.
  { rewrite Hd3, Hd1, Hp3. f_equal. apply details_of_take_stock.
    intros k. eexists. apply Hprod. }
  now rewrite <- Hb1.
Qed.

(** *** The shape of a run of [save] *)

Lemma save_inv env schema s o s' :
  save env schema s = (o, s') -> save_run env schema s o s'.
Proof.
  intros H. unfold save in H.
  apply bind_inv in H as [([] & s1 & Hv & H) | (e & Hv & ->)].
  2: { now apply run_no_client. }
  apply bind_inv in H as [([c sub] & s1' & Hp & H) | (e & Hp & ->)].
  2: { pose proof (precheck_pure _ _ _ _ _ _ Hp) as <-.
       now eapply run_precheck_failed. }
  pose proof (precheck_pure _ _ _ _ _ _ Hp) as <-.
  destruct (apply_discount sub (discount_pct schema)) as [d t] eqn:Hd.
  destruct (generate_next_order_number_total env s1) as (n & s2 & Hn).
  rewrite (bind_run_ret _ _ _ _ _ Hn) in H.
  unfold try_except in H.
  destruct (save_transaction env schema (default [] (items schema)) c d t n s2)
    as [[r | e] s3] eqn:Ht.
  - injection H as <- <-.
    eapply (run_transaction _ _ _ _ _ _ _ _ (Ret r)); eauto.
    now rewrite Hd.
  - unfold session_rollback, logger, emit, raise in H. cbn in H.
    injection H as <- <-.
    eapply (run_transaction _ _ _ _ _ _ _ _ (Raise e)); eauto.
    now rewrite Hd.
Qed.

(** *** Commit and what follows it *)

Lemma evict_best_effort env pattern s o s' :
  try_except (cache_delete_pattern env pattern)
    (fun e => logger WARNING (MsgCacheNotInvalidated e)) s = (o, s') ->
  o = Ret tt /\ db s' = db s /\ tx s' = tx s /\
  forall ev, ev ∈ journal s -> ev ∈ journal s'.
Proof.
  unfold try_except, cache_delete_pattern, call, logger, emit, mbind, M_bind.
  destruct (faults env CallDeletePattern); intros H; simplify_eq; cbn;
    repeat split; intros ev Hev; now right.
Qed.

Lemma save_commit_spec env items n om s o s' :
  save_commit env items n om s = (o, s') ->
  (faults env CallCommit = true /\ o = Raise (StorageError CallCommit) /\
   s' = s) \/
  (faults env CallCommit = false /\ o = Ret (model_validate n om) /\
   db s' = tx s /\ tx s' = tx s /\ EvCommit ∈ journal s').
Proof.
  unfold save_commit, session_commit. intros H.
  apply bind_inv in H as [([] & s1 & Hc & H) | (e & Hc & ->)].
  - right.
    apply bind_inv in Hc as [([] & s0 & Hc & Hp) | (e & Hc & [=])].
    apply call_inv in Hc as (-> & [(Hf & _) | (_ & [=])]).
    unfold persist_tx in Hp. injection Hp as <-.
    apply bind_inv in H as [([] & s2 & Hl & H) | (e & Hl & _)].
    2: { unfold logger, emit in Hl. discriminate Hl. }
    unfold logger, emit in Hl. injection Hl as <-.
    apply bind_inv in H as [([] & s3 & He & H) | (e & He & _)].
    2: { apply evict_best_effort in He as ([=] & _). }
    apply evict_best_effort in He as (_ & Hdb & Htx & Hj).
    unfold mret, M_ret in H. injection H as <- <-.
    cbn in *. repeat split; try done.
    apply Hj. right. left.
  - left.
    apply bind_inv in Hc as [([] & s0 & Hc & Hp) | (e' & Hc & [= ->])].
    { unfold persist_tx in Hp. discriminate Hp. }
    apply call_inv in Hc as (-> & [(_ & [=]) | (Hf & [= ->])]). auto.
Qed.

Lemma save_mutations_same_db env schema items c d t n :
  keeps same_db (save_mutations env schema items c d t n).
Proof.
  unfold save_mutations, update_stock_item, add_flush_order,
    create_or_update_bill, add_flush_bill, session_get_bill,
    create_order_detail, product_attrs, session_add_persistent.
  keeps_solve.
Qed.

(** A transaction that raises has not committed. *)
Lemma save_transaction_raise env schema items c d t n s e s' :
  save_transaction env schema items c d t n s = (Raise e, s') ->
  db s' = db s /\
  (save_mutations env schema items c d t n s = (Raise e, s') \/
   exists om, save_mutations env schema items c d t n s = (Ret om, s') /\
              faults env CallCommit = true /\ e = StorageError CallCommit).
Proof.
  unfold save_transaction. intros H.
  apply bind_inv in H as [(om & s1 & Hm & H) | (e' & Hm & [= ->])].
  - apply save_commit_spec in H
      as [(Hf & [= ->] & ->) | (_ & [=] & _)].
    split; [exact (save_mutations_same_db _ _ _ _ _ _ _ _ _ _ Hm) |].
    right. eauto.
  - split; [exact (save_mutations_same_db _ _ _ _ _ _ _ _ _ _ Hm) | now left].
Qed.

Lemma save_transaction_ret env schema items c d t n s r s' :
  save_transaction env schema items c d t n s = (Ret r, s') ->
  exists om s1,
    save_mutations env schema items c d t n s = (Ret om, s1) /\
    faults env CallCommit = false /\
    r = model_validate n om /\ db s' = tx s1 /\ tx s' = tx s1 /\
    EvCommit ∈ journal s'.
Proof.
  unfold save_transaction. intros H.
  apply bind_ret_inv in H as (om & s1 & Hm & H).
  apply save_commit_spec in H as [(_ & [=] & _) | (Hf & [= ->] & ? & ? & ?)].
  eauto 10.
Qed.

(** *** A placement that succeeds *)

Lemma precheck_ready env items c sub s :
  for_in items (precheck_item env) (∅, 0%float) s = (Ret (c, sub), s) ->
  Forall (stock_ready (products (tx s)) c) items.
Proof.
  intros H. apply precheck_spec in H as (_ & _ & Hc & Hin & _).
  apply Forall_forall. intros it Hit.
  rewrite Forall_forall in Hin. destruct (Hin it Hit) as (p & st & Hp & Hst & _).
  split; [| eauto].
  rewrite Hc, bool_decide_eq_true_2; [done |].
  unfold item_ids. apply list_elem_of_fmap. eauto.
Qed.

Lemma save_ret env schema s r s' :
  save env schema s = (Ret r, s') ->
  exists sub n bid s1 s2,
    let its := default [] (items schema) in
    let d := (apply_discount sub (discount_pct schema)).1 in
    let t := (apply_discount sub (discount_pct schema)).2 in
    quiet s s1 /\
    _generate_next_order_number env s1 = (Ret n, s2) /\
    sub = subtotal_of (products (tx s)) its /\
    Forall (in_stock (products (tx s))) its /\
    r = model_validate n (placed_order env schema (to_float t) bid) /\
    tx s' = db s' /\ EvCommit ∈ journal s' /\
    clients (db s') = clients (tx s) /\
    (forall k, products (db s') !! k =
               take_stock (total_quantity k its) <$> products (tx s) !! k) /\
    (forall k, k ∈ item_ids its ->
               exists p st, products (db s') !! k = Some p /\
                            stock p = Some st /\ 0 <= st) /\
    orders (tx s) !! n = None /\
    orders (db s') = <[n := placed_order env schema (to_float t) bid]> (orders (tx s)) /\
    order_details (db s') =
      order_details (tx s) ++ details_of (products (tx s)) n its /\
    match bill_id schema with
    | None =>
        bills (tx s) !! bid = None /\
        bills (db s') = <[bid := new_bill env schema (to_float d) (to_float t) n]> (bills (tx s))
    | Some b0 =>
        bid = b0 /\
        exists b, bills (tx s) !! b0 = Some b /\
          bills (db s') =
            <[b0 := set_bill_number (Some (PyInt.py_str n)) b]> (bills (tx s))
    end.
Proof.
  intros H. apply save_inv in H.
  inversion H as [| | s1 c sub n s2 o s3 Hv Hp Hn Ht Ho Hs]; subst.
  apply save_transaction_ret in Ht
    as (om & s4 & Hm & _ & -> & Hdb & Htx & Hcommit).
  pose proof (validate_client_quiet _ _ _ _ _ Hv) as Hq1.
  pose proof (generate_next_order_number_quiet _ _ _ _ Hn) as Hq2.
  destruct Hq1 as (_ & Htx1 & _). destruct (Hq2) as (_ & Htx2 & _).
  pose proof (precheck_ready _ _ _ _ _ Hp) as Hready.
  apply precheck_spec in Hp as (_ & Hsub & _ & Hin & _).
  rewrite <- Htx2 in Hready.
  apply (save_mutations_ret _ _ _ _ _ _ _ _ _ _ Hready) in Hm
    as (bid & -> & _ & Hcl & Hprod & Hnn & Hfree & Hord & Hdet & Hbill).
  rewrite Htx2, Htx1 in *.
  exists sub, n, bid, s1, s2. cbn zeta.
  split; [exact (validate_client_quiet _ _ _ _ _ Hv) |].
  split; [exact Hn |]. split; [exact Hsub |]. split; [exact Hin |].
  split; [reflexivity |]. split; [congruence |]. split; [exact Hcommit |].
  rewrite Hdb. repeat split; try assumption.
Qed.

(** *** Floats *)

(** The rounding of the specification never yields a NaN on a mantissa
    that is not negative. *)










Lemma sf_finite_not_nan x : sf_finite x = true -> sf_nan x = false.
Proof. destruct x; cbn; congruence. Qed.

(** From the primitive predicates to the specification. *)

Lemma SFcompare_refl x : sf_nan x = false -> SFcompare x x = Some Eq.
Proof.
  destruct x as [s | s | | s m e]; try discriminate; intros _; cbn.
  - reflexivity.
  - now destruct s.
  - destruct s; rewrite Z.compare_refl, Pos.compare_cont_refl; reflexivity.
Qed.

Lemma is_nan_spec x : is_nan x = sf_nan (Prim2SF x).
Proof.
  unfold is_nan. rewrite FloatAxioms.eqb_spec. unfold SFeqb.
  destruct (sf_nan (Prim2SF x)) eqn:E.
  - destruct (Prim2SF x); try discriminate. reflexivity.
  - now rewrite SFcompare_refl.
Qed.


Lemma Prim2SF_zero : Prim2SF 0 = S754_zero false.
Proof. reflexivity. Qed.



Lemma at_least_zero_not_nan x : (0 <=? x)%float = true -> is_nan x = false.
Proof.
  rewrite is_nan_spec, FloatAxioms.leb_spec, Prim2SF_zero. unfold SFleb.
  destruct (Prim2SF x) as [s | [] | | [] m e]; cbn; congruence.
Qed.


Lemma eq_zero_not_positive v : (v =? 0)%float = true -> (0 <? v)%float = false.
Proof.
  rewrite FloatAxioms.eqb_spec, FloatAxioms.ltb_spec, Prim2SF_zero.
  unfold SFeqb, SFltb.
  destruct (Prim2SF v) as [s | [] | | [] m e]; cbn; congruence.
Qed.



(** Zero times a positive float that is not the infinity is zero. *)
Lemma zero_times_positive d :
  (0 <? d)%float = true -> d <> infinity -> (0 * d)%float = 0%float.
Proof.
  intros Hpos Hinf. apply Prim2SF_inj.
  rewrite FloatAxioms.mul_spec, Prim2SF_zero.
  rewrite FloatAxioms.ltb_spec, Prim2SF_zero in Hpos. unfold SFltb in Hpos.
  destruct (Prim2SF d) as [s | [] | | [] m e] eqn:E; cbn in Hpos;
    try discriminate; try reflexivity.
  exfalso. apply Hinf. apply Prim2SF_inj. rewrite E. reflexivity.
Qed.

(** *** Pricing *)

Lemma to_float_zero : to_float (NInt 0) = 0%float.
Proof. reflexivity. Qed.

Lemma floor_zero_max_zero x : to_float (max_zero x) = floor_zero x.
Proof. unfold max_zero, floor_zero. now destruct (x <? 0)%float. Qed.

(** The floor: the result is never below zero; it is the argument or
    zero. *)
Lemma floor_zero_not_below x : (floor_zero x <? 0)%float = false.
Proof.
  unfold floor_zero. destruct (x <? 0)%float eqn:E; [reflexivity | exact E].
Qed.


(** What lines 99-101 compute is what the specification describes, as
    floats. *)
Lemma apply_discount_spec sub pct :
  to_float (apply_discount sub pct).1 = discount_of sub (default 0%float pct) /\
  to_float (apply_discount sub pct).2 = total_of sub (default 0%float pct).
Proof.
  unfold apply_discount, total_of, discount_of. cbn [fst snd].
  rewrite floor_zero_max_zero.
  destruct pct as [v |]; cbn [or_zero].
  - change (default 0%float (Some v)) with v.
    destruct (v =? 0)%float eqn:E.
    + rewrite (eq_zero_not_positive v E). now split.
    + cbn [gt_zero]. destruct (0 <? v)%float; now split.
  - now split.
Qed.

(* ================================================================== *)
(** ** Successful placements *)
(* ================================================================== *)

(** C2.  After a successful placement every product's stock is its former
    stock minus the quantity the item list asks of it over all its lines
    (products the list does not name are untouched), the stock of every
    product named is non-negative, and a store without negative stock
    stays without. *)
Theorem C2_stock_decreases_by_total_quantity env schema st r s' :
  save env schema (open_session st) = (Ret r, s') ->
  let its := default [] (items schema) in
  (forall k, products (db s') !! k =
             take_stock (total_quantity k its) <$> products st !! k) /\
  (forall k, k ∈ item_ids its ->
     exists p p' v,
       products st !! k = Some p /\ stock p = Some v /\
       products (db s') !! k = Some p' /\ price p' = price p /\
       stock p' = Some (v - total_quantity k its) /\
       0 <= v - total_quantity k its) /\
  (forall k, k ∉ item_ids its -> products (db s') !! k = products st !! k) /\
  ((forall k p v, products st !! k = Some p -> stock p = Some v -> 0 <= v) ->
   (forall k p v, products (db s') !! k = Some p -> stock p = Some v -> 0 <= v)).
Proof.
  intros H its. apply save_ret in H
    as (sub & n & bid & s1 & s2 & _ & _ & _ & _ & _ & _ & _ & _ & Hprod & Hnn & _).
  cbn [open_session tx] in Hprod, Hnn. fold its in Hprod, Hnn.
  assert (forall k, k ∈ item_ids its ->
     exists p p' v,
       products st !! k = Some p /\ stock p = Some v /\
       products (db s') !! k = Some p' /\ price p' = price p /\
       stock p' = Some (v - total_quantity k its) /\
       0 <= v - total_quantity k its) as Hnamed.
  { intros k Hk. destruct (Hnn k Hk) as (p' & v' & Hp' & Hst' & Hge).
    rewrite Hprod in Hp'.
    destruct (products st !! k) as [p |] eqn:Hp; [| discriminate].
    injection Hp' as <-. unfold take_stock in Hst'. cbn in Hst'.
    destruct (stock p) as [v |] eqn:Hv; [| discriminate].
    injection Hst' as <-.
    exists p, (take_stock (total_quantity k its) p), v.
    rewrite Hprod, Hp. unfold take_stock. cbn. rewrite Hv. auto 10. }
  split; [exact Hprod |]. split; [exact Hnamed |]. split.
  - intros k Hk. rewrite Hprod, (total_quantity_absent _ _ Hk).
    destruct (products st !! k); cbn; [| done]. now rewrite take_stock_0.
  - intros Hinv k p' v' Hp' Hv'.
    destruct (decide (k ∈ item_ids its)) as [Hk | Hk].
    + destruct (Hnamed k Hk) as (p & p2 & v & _ & _ & Hp2 & _ & Hst & Hge).
      congruence.
    + rewrite Hprod, (total_quantity_absent _ _ Hk) in Hp'.
      destruct (products st !! k) as [p |] eqn:Hp; [| discriminate].
      cbn in Hp'. rewrite take_stock_0 in Hp'. injection Hp' as ->.
      eauto.
Qed.

Lemma C2_stock_decreases_by_total_quantity_witness :
  exists r s',
    save Scenario.env0 (Scenario.request [Scenario.line 1 2] 10)
      (open_session Scenario.store0) = (Ret r, s') /\
    products (db s') !! 1 =
      take_stock (total_quantity 1 [Scenario.line 1 2]) <$>
        products Scenario.store0 !! 1 /\
    products (db s') !! 1 = Some {| price := Some 5%float; stock := Some 8 |}.
Proof.
  eexists _, _. split; [vm_compute; reflexivity |].
  split; [| vm_compute; reflexivity].
  refine (proj1 (C2_stock_decreases_by_total_quantity Scenario.env0
            (Scenario.request [Scenario.line 1 2] 10) Scenario.store0 _ _ _) 1).
  vm_compute. reflexivity.
Defined.

(** C3.  After a successful placement the order's id and the number of the
    bill it is linked to are the same integer: the bill number is the
    decimal writing of the id and reads back as the id, whether the bill
    was created (its key was free before) or supplied (its row was there
    before and keeps its key). *)
Theorem C3_order_id_equals_bill_number env schema st r s' :
  save env schema (open_session st) = (Ret r, s') ->
  exists n bid o b,
    id_key r = Some n /\ bill_id r = Some bid /\
    orders (db s') !! n = Some o /\ o_bill_id o = Some bid /\
    bills (db s') !! bid = Some b /\
    bill_number b = Some (PyInt.py_str n) /\
    int_of_bill_number (bill_number b) = Some n /\
    match bill_id schema with
    | None => bills st !! bid = None
    | Some b0 => bid = b0 /\ is_Some (bills st !! b0)
    end.
Proof.
  intros H. apply save_ret in H
    as (sub & n & bid & s1 & s2 & _ & _ & _ & _ & -> & _ & _ & _ & _ & _ & _
        & Hord & _ & Hbill).
  cbn [open_session tx] in *.
  exists n, bid. eexists. 
  assert (exists b, bills (db s') !! bid = Some b /\
                    bill_number b = Some (PyInt.py_str n) /\
                    match bill_id schema with
                    | None => bills st !! bid = None
                    | Some b0 => bid = b0 /\ is_Some (bills st !! b0)
                    end) as (b & Hb & Hnum & Hkind).
  { destruct (bill_id schema) as [b0 |].
    - destruct Hbill as (-> & b & Hb & ->).
      eexists. rewrite lookup_insert_eq. split; [reflexivity |].
      split; [reflexivity |]. split; [reflexivity | eauto].
    - destruct Hbill as (Hfree & ->).
      eexists. rewrite lookup_insert_eq. split; [reflexivity |].
      split; [reflexivity | exact Hfree]. }
  exists b. split; [reflexivity |]. split; [reflexivity |].
  split; [rewrite Hord; apply lookup_insert_eq |].
  split; [reflexivity |]. split; [exact Hb |]. split; [exact Hnum |].
  split; [| exact Hkind].
  rewrite Hnum. cbn. apply PyIntFacts.py_int_py_str.
Qed.

Lemma C3_order_id_equals_bill_number_witness :
  (exists r s',
     save Scenario.env0 (Scenario.request [Scenario.line 1 2] 10)
       (open_session Scenario.store0) = (Ret r, s') /\
     id_key r = Some 1000 /\
     (bill_number <$> bills (db s') !! 1) = Some (Some "1000"%string)) /\
  (exists r s',
     save Scenario.env0 request_with_bill (open_session store_with_bill)
       = (Ret r, s') /\
     exists n bid o b,
       id_key r = Some n /\ bill_id r = Some bid /\
       orders (db s') !! n = Some o /\ o_bill_id o = Some bid /\
       bills (db s') !! bid = Some b /\
       bill_number b = Some (PyInt.py_str n) /\
       int_of_bill_number (bill_number b) = Some n /\
       match bill_id request_with_bill with
       | None => bills store_with_bill !! bid = None
       | Some b0 => bid = b0 /\ is_Some (bills store_with_bill !! b0)
       end).
Proof.
  split.
  - eexists _, _. repeat split; vm_compute; reflexivity.
  - eexists _, _. split; [vm_compute; reflexivity |].
    apply (C3_order_id_equals_bill_number Scenario.env0 request_with_bill
             store_with_bill).
    vm_compute. reflexivity.
Defined.




Lemma unit_price_zero_priced P pid :
  unit_price (zero_priced P) pid = unit_price P pid.
Proof.
  unfold unit_price, zero_priced. rewrite lookup_fmap.
  destruct (P !! pid) as [p |]; [| reflexivity]. cbn.
  destruct (price p); reflexivity.
Qed.

Lemma subtotal_from_zero_priced P items : forall acc,
  subtotal_from acc (zero_priced P) items = subtotal_from acc P items.
Proof.
  induction items as [| it items IH]; intros acc; [reflexivity |].
  rewrite !subtotal_from_cons, IH. unfold line_amount.
  now rewrite unit_price_zero_priced.
Qed.

(** C10.  After a successful placement, with quantities a float can
    hold, the detail rows written are one per item, each with the
    product's raw price.  The total of the placement is the total priced
    with every absent price set to zero: for an item whose product has no
    price the unit price is the int zero and the line adds zero to the
    subtotal, while its detail row stores the absent price, not zero. *)
Theorem C10_detail_keeps_raw_price env schema st r s' :
  save env schema (open_session st) = (Ret r, s') ->
  quantities_fit (default [] (items schema)) ->
  let its := default [] (items schema) in
  let pct := default 0%float (discount_pct schema) in
  exists n,
    id_key r = Some n /\
    order_details (db s') = order_details st ++ details_of (products st) n its /\
    total r = total_of (subtotal_of (products st) its) pct /\
    total r = total_of (subtotal_of (zero_priced (products st)) its) pct /\
    forall it p,
      it ∈ its -> products st !! product_id it = Some p -> price p = None ->
      unit_price (products st) (product_id it) = NInt 0 /\
      line_amount (products st) it = 0%float /\
      (zero_priced (products st) !! product_id it ≫= price) = Some 0%float /\
      {| od_order_id := n; od_product_id := product_id it;
         od_quantity := quantity it; od_price := None |}
        ∈ order_details (db s').
Proof.
  intros H _ its pct. apply save_ret in H
    as (sub & n & bid & s1 & s2 & _ & _ & Hsub & _ & -> & _ & _ & _ & _ & _ & _
        & _ & Hdet & _).
  cbn [open_session tx] in *. fold its in Hdet, Hsub. subst sub.
  destruct (apply_discount_spec (subtotal_of (products st) its)
              (discount_pct schema)) as [_ Ht].
  fold pct in Ht.
  exists n. split; [reflexivity |]. split; [exact Hdet |].
  split; [exact Ht |].
  split.
  { unfold subtotal_of. rewrite subtotal_from_zero_priced. exact Ht. }
  intros it p Hit Hp Hprice.
  assert (unit_price (products st) (product_id it) = NInt 0) as Hunit.
  { unfold unit_price. rewrite Hp. cbn. now rewrite Hprice. }
  split; [exact Hunit |].
  split; [unfold line_amount; rewrite Hunit; reflexivity |].
  split.
  { unfold zero_priced. rewrite lookup_fmap, Hp. cbn. now rewrite Hprice. }
  rewrite Hdet. apply elem_of_app. right. unfold details_of.
  apply list_elem_of_fmap. exists it. split; [| exact Hit].
  rewrite Hp. cbn. now rewrite Hprice.
Qed.

Lemma C10_detail_keeps_raw_price_witness :
  exists r s',
    save Scenario.env0
      (Scenario.request [Scenario.line 1 2; Scenario.line 2 3] 0)
      (open_session store_unpriced) = (Ret r, s') /\
    total r = 10%float /\
    total r =
      total_of
        (subtotal_of (zero_priced (products store_unpriced))
           [Scenario.line 1 2; Scenario.line 2 3]) 0 /\
    order_details (db s') =
      [ {| od_order_id := 1000; od_product_id := 1; od_quantity := 2;
           od_price := Some 5%float |};
        {| od_order_id := 1000; od_product_id := 2; od_quantity := 3;
           od_price := None |} ] /\
    {| od_order_id := 1000; od_product_id := 2; od_quantity := 3;
       od_price := None |} ∈ order_details (db s').
Proof.
  assert (exists r s',
            save Scenario.env0
              (Scenario.request [Scenario.line 1 2; Scenario.line 2 3] 0)
              (open_session store_unpriced) = (Ret r, s') /\
            id_key r = Some 1000 /\ total r = 10%float /\
            order_details (db s') =
              [ {| od_order_id := 1000; od_product_id := 1; od_quantity := 2;
                   od_price := Some 5%float |};
                {| od_order_id := 1000; od_product_id := 2; od_quantity := 3;
                   od_price := None |} ])
    as (r & s' & Hsave & Hid & Htotal & Hrows).
  { eexists _, _. repeat split; vm_compute; reflexivity. }
  exists r, s'. split; [exact Hsave |]. split; [exact Htotal |].
  destruct (C10_detail_keeps_raw_price _ _ _ _ _ Hsave)
    as (n & Hn & _ & _ & Hzero & Hline).
  - repeat constructor.
  - rewrite Hid in Hn. injection Hn as <-.
    split; [exact Hzero |]. split; [exact Hrows |].
    refine (proj2 (proj2 (proj2
      (Hline (Scenario.line 2 3) {| price := None; stock := Some 4 |} _ _ _)))).
    + right. left.
    + vm_compute. reflexivity.
    + reflexivity.
Defined.

(* ================================================================== *)
(** ** The sequence allocator *)
(* ================================================================== *)

Lemma Zmax_list_in l m : Zmax_list l = Some m -> m ∈ l.
Proof.
  revert m. induction l as [| x l IH]; intros m; [discriminate |].
  change (Zmax_list (x :: l))
    with (Some (match Zmax_list l with None => x | Some m => Z.max x m end)).
  destruct (Zmax_list l) as [m' |]; intros [= <-].
  - destruct (Z.max_spec x m') as [[_ ->] | [_ ->]]; [right; auto | left].
  - left.
Qed.

Lemma max_key_in {A} (m : gmap Z A) mx :
  max_key m = Some mx -> is_Some (m !! mx).
Proof.
  intros H. apply Zmax_list_in in H.
  apply list_elem_of_fmap in H as ([k a] & -> & H).
  apply elem_of_map_to_list in H. cbn. eauto.
Qed.

Lemma scan_bill_number_ge rows : forall m,
  m <= foldl scan_bill_number m rows.
Proof.
  induction rows as [| bn rows IH]; intros m; cbn; [lia |].
  etransitivity; [| apply IH]. unfold scan_bill_number.
  destruct (int_of_bill_number bn) as [num |]; [| lia].
  destruct (Z.ltb_spec m num); lia.
Qed.

Lemma scan_bill_number_bound rows : forall m bn num,
  bn ∈ rows -> int_of_bill_number bn = Some num ->
  num <= foldl scan_bill_number m rows.
Proof.
  induction rows as [| x rows IH]; intros m bn num Hin Hnum; [inversion Hin |].
  cbn. apply elem_of_cons in Hin as [<- | Hin]; [| eauto].
  etransitivity; [| apply scan_bill_number_ge].
  unfold scan_bill_number. rewrite Hnum. destruct (Z.ltb_spec m num); lia.
Qed.

Lemma scan_bill_number_le rows B : forall m,
  m <= B ->
  (forall bn num, bn ∈ rows -> int_of_bill_number bn = Some num -> num <= B) ->
  foldl scan_bill_number m rows <= B.
Proof.
  induction rows as [| x rows IH]; intros m Hm Hall; cbn; [exact Hm |].
  apply IH.
  - unfold scan_bill_number.
    destruct (int_of_bill_number x) as [num |] eqn:E; [| exact Hm].
    destruct (Z.ltb_spec m num); [| exact Hm].
    apply (Hall x num); [left | exact E].
  - intros bn num Hin. apply Hall. now right.
Qed.

Lemma plain_bill_numbers_empty : plain_bill_numbers ∅.
Proof. intros k b bn Hk. rewrite lookup_empty in Hk. discriminate Hk. Qed.

Lemma plain_bill_numbers_2000 :
  plain_bill_numbers (bills (tx (open_session store_with_bill_2000))).
Proof.
  intros k b bn Hk Hbn. cbn in Hk.
  destruct (decide (k = 7)) as [-> | Hne].
  - rewrite lookup_insert_eq in Hk. injection Hk as <-.
    injection Hbn as <-. reflexivity.
  - rewrite lookup_insert_ne, lookup_empty in Hk by congruence.
    discriminate Hk.
Qed.

(** The allocator when both lookups answer. *)
Lemma generate_next_order_number_ok env s :
  faults env CallMaxOrderId = false ->
  faults env CallBillNumbers = false ->
  exists n,
    _generate_next_order_number env s = (Ret n, s) /\
    1000 <= n /\
    (forall k o, orders (tx s) !! k = Some o -> k < n) /\
    (forall k b num, bills (tx s) !! k = Some b ->
                     int_of_bill_number (bill_number b) = Some num -> num < n) /\
    ((forall k o, orders (tx s) !! k = Some o -> k <= 999) ->
     (forall k b num, bills (tx s) !! k = Some b ->
                      int_of_bill_number (bill_number b) = Some num ->
                      num <= 999) ->
     n = 1000).
Proof.
  intros Ho Hb.
  unfold _generate_next_order_number, query_max_order_id, query_bill_numbers,
    attempt, call, get_tx, mbind, M_bind, mret, M_ret.
  rewrite Ho, Hb. cbn.
  set (v0 := match max_key (orders (tx s)) with
             | Some m => if negb (m =? 0) && (999 <? m) then m else 999
             | None => 999
             end).
  set (rows := bill_number <$> (map_to_list (bills (tx s))).*2).
  assert (999 <= v0) as Hv0.
  { unfold v0. destruct (max_key (orders (tx s))) as [m |]; [| lia].
    destruct (Z.eqb_spec m 0); destruct (Z.ltb_spec 999 m); cbn; lia. }
  assert (forall k o, orders (tx s) !! k = Some o -> k <= v0) as Hkeys.
  { intros k o Hk. apply max_key_ge in Hk as (mx & Hmx & Hle).
    unfold v0. rewrite Hmx.
    destruct (Z.eqb_spec mx 0); destruct (Z.ltb_spec 999 mx); cbn; lia. }
  assert (forall k b, bills (tx s) !! k = Some b -> bill_number b ∈ rows)
    as Hrows.
  { intros k b Hk. unfold rows. apply list_elem_of_fmap. exists b.
    split; [done |]. apply list_elem_of_fmap. exists (k, b).
    split; [done |]. now apply elem_of_map_to_list. }
  eexists. split; [reflexivity |].
  pose proof (scan_bill_number_ge rows v0) as Hge.
  split; [lia |]. split; [| split].
  - intros k o Hk. specialize (Hkeys k o Hk). lia.
  - intros k b num Hk Hnum.
    pose proof (scan_bill_number_bound rows v0 _ _ (Hrows k b Hk) Hnum). lia.
  - intros Hsmall Hbsmall.
    assert (v0 = 999) as Hv.
    { unfold v0. destruct (max_key (orders (tx s))) as [m |] eqn:E; [| done].
      destruct (max_key_in _ _ E) as [o Hm]. specialize (Hsmall m o Hm).
      destruct (Z.eqb_spec m 0); destruct (Z.ltb_spec 999 m); cbn; lia. }
    assert (foldl scan_bill_number v0 rows <= 999); [| lia].
    apply scan_bill_number_le; [lia |].
    intros bn num Hin Hnum. unfold rows in Hin.
    apply list_elem_of_fmap in Hin as (b & -> & Hin).
    apply list_elem_of_fmap in Hin as ([k b'] & -> & Hin).
    apply elem_of_map_to_list in Hin. eauto.
Qed.



(** The allocator when the first lookup fails: nothing was read yet, and
    the answer is 1000 with a warning in the journal. *)
Lemma generate_next_order_number_first_lookup_fails env s :
  faults env CallMaxOrderId = true ->
  _generate_next_order_number env s =
    (Ret 1000,
     {| db := db s; tx := tx s;
        journal := EvLog WARNING (MsgAllocDefault (StorageError CallMaxOrderId))
                   :: journal s |}).
Proof.
  intros Ho.
  unfold _generate_next_order_number, query_max_order_id, attempt, call,
    logger, emit, mbind, M_bind, mret, M_ret.
  now rewrite Ho.
Qed.

(** The allocator when only the second lookup fails: [max_val] already
    holds the largest order id. *)
Lemma generate_next_order_number_second_lookup_fails env s :
  faults env CallMaxOrderId = false ->
  faults env CallBillNumbers = true ->
  exists n,
    _generate_next_order_number env s =
      (Ret n,
       {| db := db s; tx := tx s;
          journal :=
            EvLog WARNING (MsgAllocDefault (StorageError CallBillNumbers))
            :: journal s |}) /\
    1000 <= n /\
    (forall k o, orders (tx s) !! k = Some o -> k < n).
Proof.
  intros Ho Hb.
  unfold _generate_next_order_number, query_max_order_id, query_bill_numbers,
    attempt, call, get_tx, logger, emit, mbind, M_bind, mret, M_ret.
  rewrite Ho, Hb. cbn. eexists. split; [reflexivity |].
  split.
  - destruct (max_key (orders (tx s))) as [m |]; [| lia].
    destruct (Z.eqb_spec m 0); destruct (Z.ltb_spec 999 m); cbn; lia.
  - intros k o Hk. apply max_key_ge in Hk as (mx & -> & Hle).
    destruct (Z.eqb_spec mx 0); destruct (Z.ltb_spec 999 mx); cbn; lia.
Qed.

(** C7.  The allocator never raises; but when the order lookup has
    answered and the bill lookup fails, it logs the warning that says it
    defaults to 1000 and returns the largest order id plus one: with order
    2000 in the store it returns 2001. *)
Theorem C7_fallback_after_order_lookup_is_not_1000 :
  _generate_next_order_number env_bill_lookup_fails
    (open_session store_with_order_2000) =
  (Ret 2001,
   {| db := store_with_order_2000; tx := store_with_order_2000;
      journal :=
        [EvLog WARNING (MsgAllocDefault (StorageError CallBillNumbers))] |}).
Proof. vm_compute. reflexivity. Qed.

(* ================================================================== *)
(** ** Placements that fail on stock *)
(* ================================================================== *)

Lemma validate_client_ok env schema s c :
  faults env CallFindClient = false ->
  client_id schema = Some c -> c ∈ clients (tx s) ->
  validate_client env schema s = (Ret tt, s).
Proof.
  intros Hf Hc Hin.
  unfold validate_client, client_repository_find, try_except_not_found,
    try_except, call, get_tx, mbind, M_bind, mret, M_ret.
  rewrite Hf, Hc. cbn. now rewrite bool_decide_eq_true_2.
Qed.

Lemma first_not_in_stock_unique P l1 x r1 : forall l2 y r2,
  l1 ++ x :: r1 = l2 ++ y :: r2 ->
  Forall (in_stock P) l1 -> Forall (in_stock P) l2 ->
  ~ in_stock P x -> ~ in_stock P y ->
  l1 = l2 /\ x = y.
Proof.
  induction l1 as [| a l1 IH]; intros [| b l2] y r2 Heq H1 H2 Hx Hy;
    cbn in Heq.
  - now injection Heq as -> _.
  - injection Heq as -> _. inversion H2; subst. contradiction.
  - injection Heq as -> _. inversion H1; subst. contradiction.
  - injection Heq as -> Heq. inversion H1; inversion H2; subst.
    destruct (IH l2 y r2 Heq) as [-> ->]; auto.
Qed.

(** With the references resolved, a placement either stops in the
    pre-check on the first line that is not in stock, or reaches the
    transaction with every line in stock on its own. *)
Lemma save_when_lookups_resolve env schema st o s' :
  lookups_resolve env schema st ->
  save env schema (open_session st) = (o, s') ->
  let its := default [] (items schema) in
  (exists done_ it rest,
     its = done_ ++ it :: rest /\
     Forall (in_stock (products st)) done_ /\
     ~ in_stock (products st) it /\
     o = Raise (ValueError (product_id it)
                  (products st !! product_id it ≫= stock) (quantity it)) /\
     s' = open_session st) \/
  (Forall (in_stock (products st)) its /\
   exists c sub n s2 s3,
     Forall (stock_ready (products st) c) its /\
     db s2 = st /\ tx s2 = st /\
     save_transaction env schema its c
       (apply_discount sub (discount_pct schema)).1
       (apply_discount sub (discount_pct schema)).2 n s2 = (o, s3) /\
     s' = match o with Ret _ => s3 | Raise e => after_rollback e s3 end).
Proof.
  intros (Hf & (c0 & Hc0 & Hin0) & Hprods) H its.
  pose proof (validate_client_ok env schema (open_session st) c0 Hf Hc0 Hin0)
    as Hok.
  apply save_inv in H.
  inversion H as [e s1 Hv | s1 e Hv Hp | s1 c sub n s2 o' s3 Hv Hp Hn Ht];
    subst; rewrite Hok in Hv; simplify_eq.
  - left.
    apply precheck_spec in Hp as (_ & d & it & rest & Hsplit & Hd & _ & Hfail).
    cbn [open_session tx] in Hfail, Hd.
    assert (it ∈ its) as Hit.
    { unfold its. rewrite Hsplit. apply elem_of_app. right. left. }
    rewrite Forall_forall in Hprods. destruct (Hprods it Hit) as (Hnf & p & Hp).
    destruct Hfail as [(Hft & _) | [(_ & Hnone & _) | (_ & p' & Hp' & -> & Hshort)]];
      [congruence | congruence |].
    exists d, it, rest. split; [exact Hsplit |]. split; [exact Hd |].
    split; [| split; [| reflexivity]].
    + intros (p2 & v & Hp2 & Hv & Hle).
      assert (p' = p2) by congruence. subst p2. rewrite Hv in Hshort. lia.
    + now rewrite Hp'.
  - right.
    pose proof (precheck_ready _ _ _ _ _ Hp) as Hready.
    apply precheck_spec in Hp as (_ & _ & _ & Hall & _).
    cbn [open_session tx] in Hready, Hall.
    destruct (generate_next_order_number_quiet _ _ _ _ Hn) as (Hdb & Htx & _).
    cbn [open_session tx db] in Hdb, Htx.
    split; [exact Hall |]. exists c, sub, n, s2, s3. repeat split; auto.
Qed.

(** What the loop that takes the stock does when some product is asked
    for more than it has: it raises, with a negative figure. *)
Lemma save_mutations_stock_short env schema items c d t n s o s' k p v :
  Forall (stock_ready (products (tx s)) c) items ->
  k ∈ item_ids items -> products (tx s) !! k = Some p -> stock p = Some v ->
  v < total_quantity k items ->
  save_mutations env schema items c d t n s = (o, s') ->
  exists pid a q, o = Raise (ValueError pid (Some a) q) /\ a < 0.
Proof.
  intros Hready Hk Hp Hv Hlt H. unfold save_mutations in H.
  apply bind_inv in H as [([] & s1 & Hloop & _) | (e & Hloop & ->)].
  - exfalso.
    apply (update_stock_spec _ _ _ _ _ Hready) in Hloop as (_ & Hall & Hnn).
    destruct (Hnn k Hk) as (p' & v' & Hp' & Hv' & Hge).
    rewrite Hall, Hp in Hp'. injection Hp' as <-.
    unfold take_stock in Hv'. cbn in Hv'. rewrite Hv in Hv'. cbn in Hv'.
    injection Hv' as <-. lia.
  - apply (update_stock_spec _ _ _ _ _ Hready) in Hloop
      as (_ & pid & a & q & -> & Ha).
    eauto.
Qed.

(* ================================================================== *)
(** ** Placements that fail *)
(* ================================================================== *)

Lemma validate_client_raise env schema s e s' :
  validate_client env schema s = (Raise e, s') ->
  e = StorageError CallFindClient \/
  e = InstanceNotFoundError FromService EClient (client_id schema).
Proof.
  unfold validate_client, client_repository_find, try_except_not_found,
    try_except, call, get_tx, logger, emit, raise, mbind, M_bind, mret, M_ret.
  destruct (faults env CallFindClient); cbn.
  - intros [= <- _]. now left.
  - destruct (client_id schema) as [c |]; cbn;
      [destruct (bool_decide (c ∈ clients (tx s))) |];
      intros [= <- _]; now right.
Qed.

Lemma create_order_details_total c n items : forall s o s',
  Forall (fun it => c !! product_id it = Some (product_id it) /\
                    is_Some (products (tx s) !! product_id it)) items ->
  for_in items (create_order_detail c n) tt s = (o, s') -> o = Ret tt.
Proof.
  induction items as [| it items IH]; intros s o s' Hall H.
  - now inversion H.
  - rewrite for_in_cons in H. inversion Hall as [| ? ? [Hc [p Hp]] Hrest]; subst.
    apply bind_inv in H as [([] & s1 & H1 & H2) | (e & H1 & ->)].
    + apply (create_order_detail_spec _ _ _ _ _ _ Hc) in H1. cbn in H1.
      subst s1. eapply IH; [| exact H2]. exact Hrest.
    + apply (create_order_detail_spec _ _ _ _ _ _ Hc) in H1 as (_ & Hnone).
      congruence.
Qed.

Lemma save_mutations_raise env schema items c d t n s e s' :
  Forall (stock_ready (products (tx s)) c) items ->
  save_mutations env schema items c d t n s = (Raise e, s') ->
  raised_in_transaction schema e.
Proof.
  intros Hready H. unfold save_mutations in H.
  apply bind_inv in H as [([] & s1 & Hloop & H) | (e' & Hloop & [= ->])].
  2: { apply (update_stock_spec _ _ _ _ _ Hready) in Hloop
         as (_ & pid & a & q & -> & Ha).
       now constructor. }
  apply (update_stock_spec _ _ _ _ _ Hready) in Hloop
    as ((_ & _ & _ & _ & _ & _) & Hprod & _).
  apply bind_inv in H as [([] & s2 & Horder & H) | (e' & Horder & [= ->])].
  2: { unfold add_flush_order in Horder. msim.
       - apply rit_key_taken.
       - apply rit_storage. left. }
  apply add_flush_order_ret in Horder as (_ & _ & ->).
  apply bind_inv in H as [(bid & s3 & Hbill & H) | (e' & Hbill & [= ->])].
  2: { unfold create_or_update_bill, add_flush_bill, session_get_bill in Hbill.
       destruct (bill_id schema) as [b0 |] eqn:Hb0; msim.
       - apply rit_storage. right. right. left.
       - now apply rit_no_bill.
       - apply rit_storage. right. left.
       - apply rit_storage. right. right. left. }
  apply create_or_update_bill_ret in Hbill as (_ & _ & Hp3 & _).
  apply bind_inv in H as [([] & s4 & Hlink & H) | (e' & Hlink & _)].
  2: { unfold modify_tx in Hlink. discriminate Hlink. }
  unfold modify_tx in Hlink. injection Hlink as <-.
  apply bind_inv in H as [([] & s5 & _ & H) | (e' & Hdet & _)].
  { unfold mret, M_ret in H. discriminate H. }
  exfalso. apply create_order_details_total in Hdet; [discriminate Hdet |].
  eapply Forall_impl; [exact Hready |].
  intros it (Hc & p & v & Hp & _). split; [exact Hc |].
  cbn. rewrite Hp3. cbn. rewrite Hprod, Hp. cbn. eauto.
Qed.

Lemma not_rolled_back_quiet st s' :
  quiet (open_session st) s' -> ~ rolled_back s'.
Proof.
  intros (_ & _ & Hj) Hrb. destruct (Hj _ Hrb) as [Hin | (lvl & m & [=])].
  cbn in Hin. now apply elem_of_nil in Hin.
Qed.

(** What a failing placement leaves behind when it fails before the
    [try]: the session it started from, but for log lines. *)
Lemma save_raise_early schema st e s' :
  quiet (open_session st) s' ->
  raised_before_transaction schema e ->
  db s' = st /\ tx s' = st /\
  (forall k, products (db s') !! k = products st !! k) /\
  ((raised_before_transaction schema e /\ ~ rolled_back s') \/
   (raised_in_transaction schema e /\ rolled_back s' /\
    EvLog ERROR (MsgErrorCreating e) ∈ journal s')).
Proof.
  intros Hquiet He. pose proof Hquiet as (Hdb & Htx & _).
  cbn [open_session db tx] in Hdb, Htx.
  split; [exact Hdb |]. split; [exact Htx |].
  split; [intros k; now rewrite Hdb |]. left.
  split; [exact He | exact (not_rolled_back_quiet _ _ Hquiet)].
Qed.

Lemma precheck_raise env schema s e s' :
  for_in (default [] (items schema)) (precheck_item env) (∅, 0%float) s
    = (Raise e, s') ->
  raised_before_transaction schema e.
Proof.
  intros Hp.
  apply precheck_spec in Hp as (_ & d & it & rest & Hsplit & _ & _ & Hfail).
  assert (product_id it ∈ item_ids (default [] (items schema))) as Hit.
  { unfold item_ids. rewrite Hsplit, fmap_app, fmap_cons.
    apply elem_of_app. right. left. }
  destruct Hfail as [(_ & ->) | [(_ & _ & ->) | (_ & p & _ & -> & _)]];
    now constructor.
Qed.

(** What a failing transaction leaves behind, once the handler has run. *)
Lemma save_raise_late env schema st c sub n s2 e s3 :
  quiet (open_session st) s2 ->
  Forall (stock_ready (products (tx s2)) c) (default [] (items schema)) ->
  save_transaction env schema (default [] (items schema)) c
    (apply_discount sub (discount_pct schema)).1
    (apply_discount sub (discount_pct schema)).2 n s2 = (Raise e, s3) ->
  let s' := after_rollback e s3 in
  db s' = st /\ tx s' = st /\
  (forall k, products (db s') !! k = products st !! k) /\
  ((raised_before_transaction schema e /\ ~ rolled_back s') \/
   (raised_in_transaction schema e /\ rolled_back s' /\
    EvLog ERROR (MsgErrorCreating e) ∈ journal s')).
Proof.
  intros (Hdb & _ & _) Hready Ht. cbn [open_session db] in Hdb.
  apply save_transaction_raise in Ht as (Hdb3 & Hwhere).
  cbn. rewrite Hdb3, Hdb.
  split; [reflexivity |]. split; [reflexivity |].
  split; [reflexivity |]. right. split; [| split].
  - destruct Hwhere as [Hm | (om & _ & _ & ->)].
    + exact (save_mutations_raise _ _ _ _ _ _ _ _ _ _ Hready Hm).
    + apply rit_storage. right. right. right. left.
  - unfold rolled_back. cbn. right. left.
  - left.
Qed.

Lemma validate_client_raise_early env schema s e s' :
  validate_client env schema s = (Raise e, s') ->
  raised_before_transaction schema e.
Proof. intros [-> | ->]%validate_client_raise; constructor. Qed.

(** However a placement fails, nothing is changed; the error tells which
    side of the [try] it comes from. *)
Lemma save_raise_spec env schema st e s' :
  save env schema (open_session st) = (Raise e, s') ->
  db s' = st /\ tx s' = st /\
  (forall k, products (db s') !! k = products st !! k) /\
  ((raised_before_transaction schema e /\ ~ rolled_back s') \/
   (raised_in_transaction schema e /\ rolled_back s' /\
    EvLog ERROR (MsgErrorCreating e) ∈ journal s')).
Proof.
  intros H. apply save_inv in H.
  inversion H as [e' s1 Hv | s1 e' Hv Hp | s1 c sub n s2 o s3 Hv Hp Hn Ht Ho Hs];
    subst.
  - apply save_raise_early.
    + exact (validate_client_quiet _ _ _ _ _ Hv).
    + exact (validate_client_raise_early _ _ _ _ _ Hv).
  - apply save_raise_early.
    + exact (validate_client_quiet _ _ _ _ _ Hv).
    + exact (precheck_raise _ _ _ _ _ Hp).
  - pose proof (generate_next_order_number_quiet _ _ _ _ Hn) as Hq2.
    eapply save_raise_late; [| | exact Ht].
    + etransitivity; [exact (validate_client_quiet _ _ _ _ _ Hv) | exact Hq2].
    + destruct Hq2 as (_ & -> & _). exact (precheck_ready _ _ _ _ _ Hp).
Qed.




(* ================================================================== *)
(** ** [update] *)
(* ================================================================== *)

Lemma update_spec env key schema st o s' :
  update env key schema (open_session st) = (o, s') ->
  db s' = with_orders (fun _ => orders (db s')) st /\
  tx s' = with_orders (fun _ => orders (tx s')) st /\
  match o with
  | Ret r =>
      exists o0,
        orders st !! key = Some o0 /\
        orders (db s') = <[key := overwrite_fields o0 schema]> (orders st) /\
        r = model_validate key (overwrite_fields o0 schema) /\
        (forall c, client_id schema = Some c -> c ∈ clients st) /\
        (forall b, bill_id schema = Some b -> is_Some (bills st !! b))
  | Raise e => db s' = st /\ raised_by_update st key schema e
  end.
Proof.
  destruct st as [cl pr bi od de].
  unfold update, client_repository_find, bill_repository_find, base_update,
    session_commit, try_except_not_found, try_except.
  intros H.
  destruct (client_id schema) as [c |] eqn:Hc;
    destruct (bill_id schema) as [b |] eqn:Hb;
    msim; cbn in *;
    repeat match goal with
           | H : match ?m ?s with _ => _ end = _ |- _ =>
               destruct (m s) as [[? | ?] ?] eqn:?; msim; cbn in *
           | H : bool_decide _ = true |- _ => apply bool_decide_eq_true in H
           | H : bool_decide _ = false |- _ => apply bool_decide_eq_false in H
           end;
    try (split; [reflexivity |]; split; [reflexivity |]).
  all: try (split; [reflexivity |]).
  all: try solve [econstructor; eauto].
  all: try solve [eexists; repeat split; eauto; intros; simplify_eq; eauto].
Qed.

Lemma update_no_client env key schema s c :
  client_id schema = Some c -> faults env CallFindClient = false ->
  c ∉ clients (tx s) ->
  exists s',
    update env key schema s =
      (Raise (InstanceNotFoundError FromService EClient (Some c)), s').
Proof.
  intros Hc Hf Hnin.
  unfold update, client_repository_find, try_except_not_found, try_except,
    call, get_tx, logger, emit, raise, mbind, M_bind, mret, M_ret.
  rewrite Hc, Hf. cbn. rewrite bool_decide_eq_false_2 by done. cbn. eauto.
Qed.

Lemma update_no_bill env key schema s b :
  (client_id schema = None \/
   exists c, client_id schema = Some c /\ faults env CallFindClient = false /\
             c ∈ clients (tx s)) ->
  bill_id schema = Some b -> faults env CallFindBill = false ->
  bills (tx s) !! b = None ->
  exists s',
    update env key schema s =
      (Raise (InstanceNotFoundError FromService EBill (Some b)), s').
Proof.
  intros Hclient Hb Hf Hnone.
  unfold update, client_repository_find, bill_repository_find,
    try_except_not_found, try_except,
    call, get_tx, logger, emit, raise, mbind, M_bind, mret, M_ret.
  rewrite Hb.
  destruct Hclient as [-> | (c & -> & Hfc & Hin)]; cbn.
  - rewrite Hf. cbn. rewrite Hnone. cbn. eauto.
  - rewrite Hfc. cbn. rewrite bool_decide_eq_true_2 by done. cbn.
    rewrite Hf. cbn. rewrite Hnone. cbn. eauto.
Qed.

(** C8.  [update] leaves every product as it is, in the committed store
    and in the session, and the client, bill and detail tables and every
    other order as well.  When it succeeds, the supplied client and bill
    ids exist and the order's fields were overwritten from the schema,
    the total being the one the schema carries, not one computed from
    items.  When it fails nothing is changed.  A supplied client id or
    bill id that does not exist makes it fail with [NotFound]. *)
Theorem C8_update_leaves_stock_and_pricing env key schema st o s' :
  update env key schema (open_session st) = (o, s') ->
  products (db s') = products st /\ products (tx s') = products st /\
  clients (db s') = clients st /\ bills (db s') = bills st /\
  order_details (db s') = order_details st /\
  (forall k, k <> key -> orders (db s') !! k = orders st !! k) /\
  match o with
  | Ret r =>
      exists o0,
        orders st !! key = Some o0 /\
        orders (db s') !! key = Some (overwrite_fields o0 schema) /\
        r = model_validate key (overwrite_fields o0 schema) /\
        total r = total schema /\
        (forall c, client_id schema = Some c -> c ∈ clients st) /\
        (forall b, bill_id schema = Some b -> is_Some (bills st !! b))
  | Raise e => db s' = st /\ raised_by_update st key schema e
  end /\
  (forall c, client_id schema = Some c -> faults env CallFindClient = false ->
             c ∉ clients st ->
             o = Raise (InstanceNotFoundError FromService EClient (Some c))) /\
  (forall b, bill_id schema = Some b -> faults env CallFindBill = false ->
             bills st !! b = None ->
             (client_id schema = None \/
              exists c, client_id schema = Some c /\
                        faults env CallFindClient = false /\ c ∈ clients st) ->
             o = Raise (InstanceNotFoundError FromService EBill (Some b))).
Proof.
  intros H. pose proof (update_spec _ _ _ _ _ _ H) as (Hdb & Htx & Ho).
  split; [now rewrite Hdb |]. split; [now rewrite Htx |].
  split; [now rewrite Hdb |]. split; [now rewrite Hdb |].
  split; [now rewrite Hdb |]. split.
  { intros k Hk. destruct o as [r | e].
    - destruct Ho as (o0 & _ & -> & _). now rewrite lookup_insert_ne.
    - destruct Ho as (-> & _). reflexivity. }
  split.
  { destruct o as [r | e]; [| exact Ho].
    destruct Ho as (o0 & Hk & Hord & -> & Hc & Hb).
    exists o0. split; [exact Hk |].
    split; [rewrite Hord; apply lookup_insert_eq |].
    split; [reflexivity |]. split; [reflexivity |]. auto. }
  split.
  - intros c Hc Hf Hnin.
    destruct (update_no_client env key schema (open_session st) c Hc Hf Hnin)
      as (s0 & Hrun).
    rewrite Hrun in H. now injection H as <- _.
  - intros b Hb Hf Hnone Hclient.
    destruct (update_no_bill env key schema (open_session st) b Hclient Hb Hf Hnone)
      as (s0 & Hrun).
    rewrite Hrun in H. now injection H as <- _.
Qed.

Lemma C8_update_leaves_stock_and_pricing_witness :
  exists r s',
    update Scenario.env0 1000 update_request (open_session store_with_order_1000)
      = (Ret r, s') /\
    products (db s') = products store_with_order_1000 /\
    products (db s') !! 1 = Some {| price := Some 5%float; stock := Some 10 |} /\
    total r = 3%float.
Proof.
  eexists _, _. split; [vm_compute; reflexivity |].
  split.
  - refine (proj1 (C8_update_leaves_stock_and_pricing Scenario.env0 1000
                     update_request store_with_order_1000 _ _ _)).
    vm_compute. reflexivity.
  - split; vm_compute; reflexivity.
Defined.

(* ================================================================== *)
(** ** Stock that does not suffice *)
(* ================================================================== *)

(** A placement with a line that is not in stock stops before the [try]. *)
Lemma save_fails_before_transaction env schema st o s' :
  save env schema (open_session st) = (o, s') ->
  ~ Forall (in_stock (products st)) (default [] (items schema)) ->
  exists e, o = Raise e /\ db s' = st /\ tx s' = st /\
            raised_before_transaction schema e /\ ~ rolled_back s'.
Proof.
  intros H Hnot. destruct o as [r | e].
  - exfalso. apply Hnot. apply save_ret in H as (? & ? & ? & ? & ? & _ & _ & _ & Hall & _).
    exact Hall.
  - exists e. split; [reflexivity |].
    destruct (save_raise_spec _ _ _ _ _ H)
      as (Hdb & Htx & _ & [(Hb & Hnr) | (_ & Hrb & _)]); [auto |].
    exfalso. apply save_inv in H.
    inversion H as [e' s1 Hv | s1 e' Hv Hp | s1 c sub n s2 o s3 Hv Hp Hn Ht Ho Hs];
      subst.
    + apply validate_client_quiet in Hv.
      exact (not_rolled_back_quiet _ _ Hv Hrb).
    + apply validate_client_quiet in Hv.
      exact (not_rolled_back_quiet _ _ Hv Hrb).
    + apply Hnot. apply precheck_spec in Hp as (_ & _ & _ & Hall & _).
      destruct (validate_client_quiet _ _ _ _ _ Hv) as (_ & Htx1 & _).
      now rewrite Htx1 in Hall.
Qed.

(** C9.  A placement with an item whose product exists but has no stock
    figure never succeeds and changes nothing: it stops before the [try]
    with a lookup error, a [NotFound] or the insufficient-stock error,
    never with a [TypeError] from the comparison.  When the references of
    the request resolve, the error is the insufficient-stock error, raised
    on the first line that is not in stock: that item itself, with no
    figure available, when the lines before it are in stock. *)
Theorem C9_absent_stock_is_insufficient env schema st it p :
  it ∈ default [] (items schema) ->
  products st !! product_id it = Some p -> stock p = None ->
  (exists e s',
     save env schema (open_session st) = (Raise e, s') /\
     db s' = st /\ tx s' = st /\
     raised_before_transaction schema e /\ e <> TypeError) /\
  (lookups_resolve env schema st ->
   exists pid a q s',
     save env schema (open_session st) = (Raise (ValueError pid a q), s') /\
     (forall done_ rest,
        default [] (items schema) = done_ ++ it :: rest ->
        Forall (in_stock (products st)) done_ ->
        pid = product_id it /\ a = None /\ q = quantity it)).
Proof.
  intros Hit Hp Hst.
  assert (~ in_stock (products st) it) as Hnit.
  { intros (p2 & v & Hp2 & Hv & _). congruence. }
  assert (~ Forall (in_stock (products st)) (default [] (items schema))) as Hnall.
  { intros Hall. rewrite Forall_forall in Hall. auto. }
  destruct (save env schema (open_session st)) as [o s'] eqn:E.
  split.
  - destruct (save_fails_before_transaction _ _ _ _ _ E Hnall)
      as (e & -> & Hdb & Htx & Hb & _).
    exists e, s'. repeat split; try assumption.
    intros ->. inversion Hb.
  - intros Hres.
    destruct (save_when_lookups_resolve _ _ _ _ _ Hres E)
      as [(d & it' & rest' & Hsplit' & Hd & Hnot & -> & ->) | (Hall & _)];
      [| contradiction].
    eexists _, _, _, _. split; [reflexivity |].
    intros done_ rest Hsplit Hdone. rewrite Hsplit in Hsplit'.
    destruct (first_not_in_stock_unique _ _ _ _ _ _ _ Hsplit' Hdone Hd Hnit Hnot)
      as [_ <-].
    rewrite Hp. cbn. auto.
Qed.

Lemma C9_absent_stock_is_insufficient_witness :
  exists s',
    save Scenario.env0 (Scenario.request [Scenario.line 3 1] 0)
      (open_session store_unstocked) = (Raise (ValueError 3 None 1), s') /\
    db s' = store_unstocked /\ tx s' = store_unstocked.
Proof.
  destruct (C9_absent_stock_is_insufficient Scenario.env0
              (Scenario.request [Scenario.line 3 1] 0) store_unstocked
              (Scenario.line 3 1) {| price := Some 2%float; stock := None |})
    as [(e & s0 & Hraise & Hdb & Htx & _) Hresolved].
  - left.
  - vm_compute. reflexivity.
  - reflexivity.
  - destruct Hresolved as (pid & a & q & s' & Hsave & Hwhich).
    { split; [reflexivity |]. split.
      - exists 1. split; [reflexivity |]. vm_compute. reflexivity.
      - repeat constructor. vm_compute. eauto. }
    destruct (Hwhich [] [] eq_refl (Forall_nil_2 _)) as (-> & -> & ->).
    rewrite Hsave in Hraise. injection Hraise as <- <-.
    exists s'. auto.
Defined.

(** C6.  When the lines of the item list ask of some product, in sum,
    more than its stock, the placement never succeeds and changes
    nothing.  When the references of the request resolve, it fails with
    the insufficient-stock error; and when every single line is within the
    original stock, so that the pre-check lets them all pass, it is the
    check after the decrement, made on the one product object all the
    lines share, that fails: the figure reported is negative and the
    transaction is rolled back. *)
Theorem C6_repeated_lines_compound_stock_check env schema st k p v :
  k ∈ item_ids (default [] (items schema)) ->
  products st !! k = Some p -> stock p = Some v ->
  v < total_quantity k (default [] (items schema)) ->
  (exists e s',
     save env schema (open_session st) = (Raise e, s') /\
     db s' = st /\ tx s' = st) /\
  (lookups_resolve env schema st ->
   exists pid a q s',
     save env schema (open_session st) = (Raise (ValueError pid a q), s') /\
     (Forall (in_stock (products st)) (default [] (items schema)) ->
      rolled_back s' /\ exists a', a = Some a' /\ a' < 0)).
Proof.
  intros Hk Hp Hv Hlt.
  destruct (save env schema (open_session st)) as [o s'] eqn:E.
  split.
  - destruct o as [r | e].
    + exfalso. apply save_ret in E
        as (? & ? & ? & ? & ? & _ & _ & _ & _ & _ & _ & _ & _ & Hprod & Hnn & _).
      cbn [open_session tx] in Hprod, Hnn.
      destruct (Hnn k Hk) as (p' & v' & Hp' & Hv' & Hge).
      rewrite Hprod, Hp in Hp'. injection Hp' as <-.
      unfold take_stock in Hv'. cbn in Hv'. rewrite Hv in Hv'.
      injection Hv' as <-. lia.
    + destruct (save_raise_spec _ _ _ _ _ E) as (Hdb & Htx & _). eauto.
  - intros Hres.
    destruct (save_when_lookups_resolve _ _ _ _ _ Hres E)
      as [(d & it & rest & Hsplit & Hd & Hnot & -> & ->)
         | (Hall & c & sub & n & s2 & s3 & Hready & Hdb & Htx & Ht & ->)].
    + eexists _, _, _, _. split; [reflexivity |].
      intros Hall. exfalso. apply Hnot.
      rewrite Forall_forall in Hall. apply Hall.
      rewrite Hsplit. apply elem_of_app. right. left.
    + rewrite <- Htx in Hready, Hp.
      destruct o as [r | e].
      * exfalso. apply save_transaction_ret in Ht as (om & s4 & Hm & _).
        apply (save_mutations_stock_short _ _ _ _ _ _ _ _ _ _ _ _ _
                 Hready Hk Hp Hv Hlt) in Hm as (? & ? & ? & [=] & _).
      * apply save_transaction_raise in Ht as (Hdb3 & [Hm | (om & Hm & _)]).
        -- apply (save_mutations_stock_short _ _ _ _ _ _ _ _ _ _ _ _ _
                    Hready Hk Hp Hv Hlt) in Hm as (pid & a & q & [= ->] & Ha).
           eexists _, _, _, _. split; [reflexivity |].
           intros _. split; [| eauto].
           unfold rolled_back. cbn. right. left.
        -- exfalso.
           apply (save_mutations_stock_short _ _ _ _ _ _ _ _ _ _ _ _ _
                    Hready Hk Hp Hv Hlt) in Hm as (? & ? & ? & [=] & _).
Qed.

Lemma C6_repeated_lines_compound_stock_check_witness :
  Forall (in_stock (products Scenario.store0))
         [Scenario.line 1 7; Scenario.line 1 7] /\
  exists s',
    save Scenario.env0
      (Scenario.request [Scenario.line 1 7; Scenario.line 1 7] 0)
      (open_session Scenario.store0) = (Raise (ValueError 1 (Some (-4)) 7), s') /\
    db s' = Scenario.store0 /\ tx s' = Scenario.store0 /\ rolled_back s'.
Proof.
  assert (Forall (in_stock (products Scenario.store0))
            [Scenario.line 1 7; Scenario.line 1 7]) as Hall.
  { repeat constructor;
      exists {| price := Some 5%float; stock := Some 10 |}, 10;
      (split; [vm_compute; reflexivity |]); (split; [reflexivity |]);
      cbn; lia. }
  split; [exact Hall |].
  destruct (C6_repeated_lines_compound_stock_check Scenario.env0
              (Scenario.request [Scenario.line 1 7; Scenario.line 1 7] 0)
              Scenario.store0 1 {| price := Some 5%float; stock := Some 10 |} 10)
    as [(e & s0 & Hraise & Hdb & Htx) Hresolved].
  - left.
  - vm_compute. reflexivity.
  - reflexivity.
  - vm_compute. reflexivity.
  - destruct Hresolved as (pid & a & q & s' & Hsave & Hpost).
    { split; [reflexivity |]. split.
      - exists 1. split; [reflexivity |]. vm_compute. reflexivity.
      - repeat constructor; vm_compute; eauto. }
    destruct (Hpost Hall) as (Hrb & _).
    rewrite Hsave in Hraise. injection Hraise as <- <-.
    assert (exists s1,
              save Scenario.env0
                (Scenario.request [Scenario.line 1 7; Scenario.line 1 7] 0)
                (open_session Scenario.store0) =
              (Raise (ValueError 1 (Some (-4)) 7), s1)) as [s1 Hrun].
    { eexists. vm_compute. reflexivity. }
    rewrite Hrun in Hsave. injection Hsave as <- <- <- ->.
    exists s'. auto.
Defined.

(* ================================================================== *)
(** ** More on the sequence allocator *)
(* ================================================================== *)

Lemma scan_bill_number_attained rows : forall m,
  foldl scan_bill_number m rows = m \/
  exists bn, bn ∈ rows /\
             int_of_bill_number bn = Some (foldl scan_bill_number m rows).
Proof.
  induction rows as [| x rows IH]; intros m; cbn; [now left |].
  destruct (IH (scan_bill_number m x)) as [Heq | (bn & Hin & Hbn)].
  - rewrite Heq. unfold scan_bill_number.
    destruct (int_of_bill_number x) as [num |] eqn:E; [| now left].
    destruct (Z.ltb_spec m num); [| now left].
    right. exists x. split; [left | exact E].
  - right. exists bn. split; [now right | exact Hbn].
Qed.

(** The number the allocator returns when both lookups answer, in full:
    one more than the largest of 999, the order ids and the bill numbers
    that read as integers. *)
Lemma generate_next_order_number_exact env s :
  faults env CallMaxOrderId = false ->
  faults env CallBillNumbers = false ->
  exists n,
    _generate_next_order_number env s = (Ret n, s) /\
    1000 <= n /\
    (forall k o, orders (tx s) !! k = Some o -> k < n) /\
    (forall k b num, bills (tx s) !! k = Some b ->
                     int_of_bill_number (bill_number b) = Some num -> num < n) /\
    (n = 1000 \/
     (exists o, orders (tx s) !! (n - 1) = Some o) \/
     (exists k b, bills (tx s) !! k = Some b /\
                  int_of_bill_number (bill_number b) = Some (n - 1))).
Proof.
  intros Ho Hb.
  destruct (generate_next_order_number_ok env s Ho Hb)
    as (n & Hn & Hfloor & Hord & Hbill & _).
  exists n. split; [exact Hn |]. split; [exact Hfloor |].
  split; [exact Hord |]. split; [exact Hbill |].
  revert Hn.
  unfold _generate_next_order_number, query_max_order_id, query_bill_numbers,
    attempt, call, get_tx, mbind, M_bind, mret, M_ret.
  rewrite Ho, Hb. cbn.
  set (v0 := match max_key (orders (tx s)) with
             | Some m => if negb (m =? 0) && (999 <? m) then m else 999
             | None => 999
             end).
  set (rows := bill_number <$> (map_to_list (bills (tx s))).*2).
  intros [= <-].
  destruct (scan_bill_number_attained rows v0) as [-> | (bn & Hin & Hbn)].
  - unfold v0. destruct (max_key (orders (tx s))) as [m |] eqn:E; [| now left].
    destruct (negb (m =? 0) && (999 <? m)); [| now left].
    right. left. destruct (max_key_in _ _ E) as [o Hm]. exists o.
    now replace (m + 1 - 1) with m by lia.
  - right. right. unfold rows in Hin.
    apply list_elem_of_fmap in Hin as (b & -> & Hin).
    apply list_elem_of_fmap in Hin as ([k b'] & -> & Hin).
    apply elem_of_map_to_list in Hin. exists k, b'. split; [exact Hin |].
    cbn [snd] in Hbn. rewrite Hbn. f_equal. lia.
Qed.

(** X1.  Whatever the two lookups do, the allocator returns a number, never
    an exception; the number is at least 1000; no table is touched; and
    the journal gets a warning exactly when a lookup failed. *)
Theorem X1_allocator_always_answers env s :
  exists n s',
    _generate_next_order_number env s = (Ret n, s') /\
    1000 <= n /\ db s' = db s /\ tx s' = tx s /\
    (if faults env CallMaxOrderId || faults env CallBillNumbers
     then exists e, journal s' = EvLog WARNING (MsgAllocDefault e) :: journal s
     else journal s' = journal s).
Proof.
  destruct (faults env CallMaxOrderId) eqn:Ho.
  - rewrite (generate_next_order_number_first_lookup_fails env s Ho).
    eexists _, _. split; [reflexivity |]. cbn. repeat split; [lia | eauto].
  - destruct (faults env CallBillNumbers) eqn:Hb.
    + destruct (generate_next_order_number_second_lookup_fails env s Ho Hb)
        as (n & -> & Hn & _).
      eexists _, _. split; [reflexivity |]. cbn. repeat split; [lia | eauto].
    + destruct (generate_next_order_number_ok env s Ho Hb)
        as (n & -> & Hn & _).
      eexists _, _. split; [reflexivity |]. cbn. auto.
Qed.

(** X2.  When both lookups answer and the bill numbers of the store are
    plain, the number allocated is tight: it is 1000, or one more than an
    order id that exists, or one more than a bill number that exists and
    reads as an integer. *)
Theorem X2_allocated_number_is_tight env s :
  faults env CallMaxOrderId = false ->
  faults env CallBillNumbers = false ->
  plain_bill_numbers (bills (tx s)) ->
  exists n,
    _generate_next_order_number env s = (Ret n, s) /\
    (n = 1000 \/
     (exists o, orders (tx s) !! (n - 1) = Some o) \/
     (exists k b, bills (tx s) !! k = Some b /\
                  int_of_bill_number (bill_number b) = Some (n - 1))).
Proof.
  intros Ho Hb _.
  destruct (generate_next_order_number_exact env s Ho Hb)
    as (n & Hn & _ & _ & _ & Htight).
  exists n. split; [exact Hn | exact Htight].
Qed.

Lemma X2_allocated_number_is_tight_witness :
  exists n,
    _generate_next_order_number Scenario.env0
      (open_session store_with_bill_2000)
      = (Ret n, open_session store_with_bill_2000) /\
    n = 2001 /\
    (n = 1000 \/
     (exists o, orders (tx (open_session store_with_bill_2000)) !! (n - 1)
                = Some o) \/
     (exists k b, bills (tx (open_session store_with_bill_2000)) !! k = Some b /\
                  int_of_bill_number (bill_number b) = Some (n - 1))).
Proof.
  destruct (X2_allocated_number_is_tight Scenario.env0
              (open_session store_with_bill_2000) eq_refl eq_refl
              plain_bill_numbers_2000)
    as (n & Hn & Htight).
  exists n. split; [exact Hn |]. split; [| exact Htight].
  revert Hn. vm_compute. now intros [= <-].
Defined.

(** X3.  Among plain bill numbers, a bill whose number does not read as
    an integer, or that has none, has no part in the allocation: adding
    such a bill to the session leaves the number allocated as it was. *)
Theorem X3_unreadable_bill_numbers_are_skipped env s k b :
  faults env CallMaxOrderId = false ->
  faults env CallBillNumbers = false ->
  plain_bill_numbers (bills (tx s)) ->
  (forall bn, bill_number b = Some bn -> PyInt.plain bn = true) ->
  bills (tx s) !! k = None ->
  int_of_bill_number (bill_number b) = None ->
  exists n,
    _generate_next_order_number env s = (Ret n, s) /\
    _generate_next_order_number env (with_extra_bill k b s)
      = (Ret n, with_extra_bill k b s).
Proof.
  intros Ho Hb _ _ Hfree Hnum.
  destruct (generate_next_order_number_exact env s Ho Hb)
    as (n & Hn & Hfloor & Hord & Hbill & Htight).
  destruct (generate_next_order_number_exact env (with_extra_bill k b s) Ho Hb)
    as (n' & Hn' & Hfloor' & Hord' & Hbill' & Htight').
  cbn [with_extra_bill tx with_bills bills orders] in Hord', Hbill', Htight'.
  exists n. split; [exact Hn |]. rewrite Hn'. do 2 f_equal.
  assert (n' - 1 < n) as H1.
  { destruct Htight' as [-> | [(o & Hk) | (k' & b' & Hk & Hp)]]; [lia | eauto |].
    destruct (decide (k = k')) as [<- | Hne].
    - rewrite lookup_insert_eq in Hk. injection Hk as <-. congruence.
    - rewrite lookup_insert_ne in Hk by done. eauto. }
  assert (n - 1 < n') as H2.
  { destruct Htight as [-> | [(o & Hk) | (k' & b' & Hk & Hp)]]; [lia | eauto |].
    eapply (Hbill' k' b'); [| exact Hp].
    rewrite lookup_insert_ne; [exact Hk | congruence]. }
  lia.
Qed.

Lemma X3_unreadable_bill_numbers_are_skipped_witness :
  exists n,
    _generate_next_order_number Scenario.env0 (open_session Scenario.store0)
      = (Ret n, open_session Scenario.store0) /\
    _generate_next_order_number Scenario.env0
      (with_extra_bill 7 unreadable_bill (open_session Scenario.store0))
      = (Ret n, with_extra_bill 7 unreadable_bill (open_session Scenario.store0)).
Proof.
  apply (X3_unreadable_bill_numbers_are_skipped Scenario.env0
           (open_session Scenario.store0) 7 unreadable_bill).
  - reflexivity.
  - reflexivity.
  - exact plain_bill_numbers_empty.
  - intros bn [= <-]. reflexivity.
  - vm_compute. reflexivity.
  - vm_compute. reflexivity.
Defined.

(* ================================================================== *)
(** ** Running a placement forward *)
(* ================================================================== *)

Lemma total_quantity_nonneg k items :
  Forall (fun it => 0 <= quantity it) items -> 0 <= total_quantity k items.
Proof.
  induction 1 as [| it items Hq _ IH]; [reflexivity |].
  rewrite total_quantity_cons. case_bool_decide; lia.
Qed.

Lemma total_quantity_ge_line it items :
  Forall (fun it => 0 <= quantity it) items -> it ∈ items ->
  quantity it <= total_quantity (product_id it) items.
Proof.
  intros Hall Hin. induction Hall as [| x items Hq Hall IH]; [inversion Hin |].
  rewrite total_quantity_cons.
  pose proof (total_quantity_nonneg (product_id it) items Hall).
  apply elem_of_cons in Hin as [-> | Hin].
  - rewrite bool_decide_eq_true_2 by done. lia.
  - specialize (IH Hin). case_bool_decide; lia.
Qed.

Lemma stock_suffices_nonneg st its :
  stock_suffices st its -> Forall (fun it => 0 <= quantity it) its.
Proof.
  intros H. eapply Forall_impl; [exact H |]. intros it (Hq & _). lia.
Qed.

Lemma stock_suffices_in_stock st its :
  stock_suffices st its -> Forall (in_stock (products st)) its.
Proof.
  intros H. pose proof (stock_suffices_nonneg _ _ H) as Hnn.
  apply Forall_forall. intros it Hit.
  unfold stock_suffices in H. rewrite Forall_forall in H.
  destruct (H it Hit) as (_ & p & v & Hp & Hv & Hle).
  exists p, v. repeat split; try assumption.
  pose proof (total_quantity_ge_line it its Hnn Hit). lia.
Qed.

Lemma stock_suffices_total st its k :
  stock_suffices st its -> k ∈ item_ids its ->
  exists p v, products st !! k = Some p /\ stock p = Some v /\
              total_quantity k its <= v.
Proof.
  intros H Hk. unfold item_ids in Hk.
  apply list_elem_of_fmap in Hk as (it & -> & Hit).
  unfold stock_suffices in H. rewrite Forall_forall in H.
  destruct (H it Hit) as (_ & p & v & Hp & Hv & Hle). eauto.
Qed.

(** The pre-check passes a list whose lines are all in stock. *)
Lemma precheck_ok env items c0 sub0 s :
  Forall (fun it => faults env (CallGetProduct (product_id it)) = false) items ->
  Forall (in_stock (products (tx s))) items ->
  exists c sub,
    for_in items (precheck_item env) (c0, sub0) s = (Ret (c, sub), s).
Proof.
  intros Hf Hin.
  destruct (for_in items (precheck_item env) (c0, sub0) s) as [o s'] eqn:E.
  pose proof (precheck_spec _ _ _ _ _ _ _ E) as (-> & Ho).
  destruct o as [[c sub] | e]; [eauto |].
  exfalso. destruct Ho as (d & it & rest & -> & _ & _ & Hfail).
  apply Forall_app in Hf as (_ & Hf). apply Forall_app in Hin as (_ & Hin).
  inversion Hf as [| ? ? Hfit _]; inversion Hin as [| ? ? Hiit _]; subst.
  destruct Hiit as (p & v & Hp & Hv & Hle).
  destruct Hfail as [(Hft & _) | [(_ & Hnone & _) | (_ & p' & Hp' & _ & Hshort)]];
    [congruence | congruence |].
  assert (p' = p) by congruence. subst p'. rewrite Hv in Hshort. lia.
Qed.

(** The loop that takes the stock goes through when no product is asked
    for more than it has. *)
Lemma update_stock_ok c items : forall s,
  Forall (stock_ready (products (tx s)) c) items ->
  Forall (fun it => 0 <= quantity it) items ->
  (forall k, k ∈ item_ids items ->
     exists p v, products (tx s) !! k = Some p /\ stock p = Some v /\
                 total_quantity k items <= v) ->
  exists s', for_in items (update_stock_item c) tt s = (Ret tt, s').
Proof.
  induction items as [| it items IH]; intros s Hready Hnn Hsum.
  - eexists. reflexivity.
  - rewrite for_in_cons.
    inversion Hready as [| ? ? Hit Hrest]; inversion Hnn as [| ? ? Hq Hnn'];
      subst.
    destruct (update_stock_item c it tt s) as [o s1] eqn:E.
    destruct (update_stock_item_spec _ _ _ _ _ Hit E)
      as (p & st & Hp & Hst & -> & Ho).
    destruct (Hsum (product_id it)) as (p' & v & Hp' & Hv & Hle).
    { unfold item_ids. rewrite fmap_cons. left. }
    assert (p' = p) by congruence. subst p'.
    assert (v = st) by congruence. subst v.
    rewrite total_quantity_cons, bool_decide_eq_true_2 in Hle by done.
    pose proof (total_quantity_nonneg (product_id it) items Hnn').
    destruct Ho as [(_ & ->) | (Hneg & _)]; [| lia].
    rewrite (bind_run_ret _ _ _ _ _ E). apply IH.
    + cbn. eapply Forall_impl; [exact Hrest |].
      intros it' (Hc' & p' & st' & Hpp & Hst'). split; [exact Hc' |].
      destruct (decide (product_id it = product_id it')) as [Heq | Hne].
      * rewrite <- Heq, lookup_alter_eq, Hp. cbn. eauto.
      * rewrite lookup_alter_ne by done. eauto.
    + exact Hnn'.
    + intros k Hk. cbn.
      destruct (Hsum k) as (pk & vk & Hpk & Hvk & Hlek).
      { unfold item_ids in *. rewrite fmap_cons. now right. }
      rewrite total_quantity_cons in Hlek.
      destruct (decide (product_id it = k)) as [<- | Hne].
      * rewrite lookup_alter_eq, Hp. cbn.
        rewrite bool_decide_eq_true_2 in Hlek by done.
        assert (vk = st) by congruence. subst vk.
        eexists _, _. split; [reflexivity |]. split; [reflexivity |]. lia.
      * rewrite lookup_alter_ne by done.
        rewrite bool_decide_eq_false_2 in Hlek by done. eauto.
Qed.

(** How the mutations end when the stock suffices, the order key is free
    and the storage answers: with the order row, unless the bill supplied
    does not exist. *)
Lemma save_mutations_forward env schema items c d t n s o s' :
  Forall (stock_ready (products (tx s)) c) items ->
  Forall (fun it => 0 <= quantity it) items ->
  (forall k, k ∈ item_ids items ->
     exists p v, products (tx s) !! k = Some p /\ stock p = Some v /\
                 total_quantity k items <= v) ->
  faults env CallFlushOrder = false -> faults env CallGetBill = false ->
  faults env CallFlushBill = false ->
  orders (tx s) !! n = None ->
  save_mutations env schema items c d t n s = (o, s') ->
  match bill_id schema with
  | Some b0 =>
      match bills (tx s) !! b0 with
      | Some _ => exists om, o = Ret om
      | None => o = Raise (InstanceNotFoundError FromService EBill (Some b0))
      end
  | None => exists om, o = Ret om
  end.
Proof.
  intros Hready Hnn Hsum Hfo Hfg Hfb Hfree H.
  destruct (update_stock_ok c items s Hready Hnn Hsum) as (s1 & Hloop).
  pose proof (update_stock_spec _ _ _ _ _ Hready Hloop)
    as ((_ & _ & _ & Hb1 & Ho1 & _) & Hprod & _).
  unfold save_mutations in H. rewrite (bind_run_ret _ _ _ _ _ Hloop) in H.
  apply bind_inv in H as [([] & s2 & Horder & H) | (e' & Horder & ->)].
  2: { exfalso. unfold add_flush_order in Horder. msim; congruence. }
  apply add_flush_order_ret in Horder as (_ & _ & ->).
  apply bind_inv in H as [(bid & s3 & Hbill & H) | (e' & Hbill & ->)].
  - pose proof (create_or_update_bill_ret _ _ _ _ _ _ _ _ Hbill)
      as (_ & _ & Hp3 & _ & _ & Hkind).
    cbn in Hkind, Hp3.
    assert (exists om, o = Ret om) as Hret.
    { apply bind_inv in H as [([] & s4 & Hlink & H) | (e' & Hlink & _)].
      2: { unfold modify_tx in Hlink. discriminate Hlink. }
      unfold modify_tx in Hlink. injection Hlink as <-.
      apply bind_inv in H as [([] & s5 & _ & H) | (e' & Hdet & _)].
      { unfold mret, M_ret in H. injection H as <- _. eauto. }
      exfalso. apply create_order_details_total in Hdet; [discriminate Hdet |].
      eapply Forall_impl; [exact Hready |].
      intros it (Hc & p & v & Hp & _). split; [exact Hc |].
      cbn. rewrite Hp3, Hprod, Hp. cbn. eauto. }
    destruct (bill_id schema) as [b0 |]; [| exact Hret].
    destruct Hkind as (_ & b & Hb & _). rewrite Hb1 in Hb. now rewrite Hb.
  - unfold create_or_update_bill, add_flush_bill, session_get_bill in Hbill.
    destruct (bill_id schema) as [b0 |] eqn:Hb0; msim; try congruence.
    cbn in *. rewrite Hb1 in *.
    destruct (bills (tx s) !! b0); [discriminate | reflexivity].
Qed.

(** With the client found, the lines in stock and the allocator's lookups
    answering, [save] is its [try] block run on the session it was given,
    with a cache that holds every line's product and an order key that is
    free. *)
Lemma save_enters_transaction env schema st :
  storage_answers env ->
  (exists c, client_id schema = Some c /\ c ∈ clients st) ->
  Forall (in_stock (products st)) (default [] (items schema)) ->
  exists c sub n,
    Forall (stock_ready (products st) c) (default [] (items schema)) /\
    sub = subtotal_of (products st) (default [] (items schema)) /\
    orders st !! n = None /\
    save env schema (open_session st) =
      try_except
        (save_transaction env schema (default [] (items schema)) c
           (apply_discount sub (discount_pct schema)).1
           (apply_discount sub (discount_pct schema)).2 n)
        save_handler (open_session st).
Proof.
  intros (Hfc & Hfp & Hfo & Hfb & _) (c0 & Hc0 & Hin0) Hstock.
  pose proof (validate_client_ok env schema (open_session st) c0 Hfc Hc0 Hin0)
    as Hv.
  destruct (precheck_ok env (default [] (items schema)) ∅ 0%float (open_session st))
    as (c & sub & Hp); [apply Forall_forall; auto | exact Hstock |].
  destruct (generate_next_order_number_ok env (open_session st) Hfo Hfb)
    as (n & Hn & _ & Hgt & _).
  exists c, sub, n.
  split; [exact (precheck_ready _ _ _ _ _ Hp) |]. split.
  { apply precheck_spec in Hp as (_ & Hsub & _). exact Hsub. }
  split.
  { cbn in Hgt. destruct (orders st !! n) as [o |] eqn:E; [| done].
    specialize (Hgt n o E). lia. }
  unfold save. rewrite (bind_run_ret _ _ _ _ _ Hv).
  rewrite (bind_run_ret _ _ _ _ _ Hp). cbv beta iota.
  destruct (apply_discount sub (discount_pct schema)) as [d t].
  now rewrite (bind_run_ret _ _ _ _ _ Hn).
Qed.

#[global] Instance only_logged_preorder : PreOrder only_logged.
Proof.
  split.
  - intros s ev Hev. now left.
  - intros s1 s2 s3 H12 H23 ev Hev.
    destruct (H23 ev Hev) as [H | H]; [auto | now right].
Qed.

Lemma keeps_only_logged_logger lvl m : keeps only_logged (logger lvl m).
Proof.
  intros s o s' H. unfold logger, emit in H. injection H as <- <-.
  intros ev. cbn. apply is_log_cons.
Qed.

Lemma keeps_only_logged_modify_tx f : keeps only_logged (modify_tx f).
Proof.
  intros s o s' H. unfold modify_tx in H. injection H as <- <-.
  intros ev. cbn. now left.
Qed.

Lemma quiet_only_logged s s' : quiet s s' -> only_logged s s'.
Proof. now intros (_ & _ & H). Qed.

(** Up to the commit a placement writes nothing to the journal but log
    lines. *)
Lemma save_mutations_only_logged env schema items c d t n :
  keeps only_logged (save_mutations env schema items c d t n).
Proof.
  unfold save_mutations, update_stock_item, add_flush_order,
    create_or_update_bill, add_flush_bill, session_get_bill,
    create_order_detail, product_attrs, session_add_persistent.
  repeat keeps_step;
    first [apply keeps_only_logged_logger | apply keeps_only_logged_modify_tx].
Qed.

Lemma save_commit_journal env items n om s r s' :
  save_commit env items n om s = (Ret r, s') ->
  journal s' =
    eviction_entry env :: EvLog INFO (MsgOrderCreated n (length items))
      :: EvCommit :: journal s.
Proof.
  unfold save_commit, session_commit, cache_delete_pattern, eviction_entry,
    try_except, call, persist_tx, logger, emit, mbind, M_bind, mret, M_ret.
  destruct (faults env CallCommit); [discriminate |].
  destruct (faults env CallDeletePattern); cbn; now intros [= _ <-].
Qed.

Lemma save_handler_run e s :
  save_handler e s = (Raise e, after_rollback e s).
Proof. reflexivity. Qed.

(** How the [try] block and its handler end when the stock suffices, the
    order key is free and the storage answers up to the commit. *)
Lemma try_save_transaction_forward env schema items c d t n s o s' :
  Forall (stock_ready (products (tx s)) c) items ->
  Forall (fun it => 0 <= quantity it) items ->
  (forall k, k ∈ item_ids items ->
     exists p v, products (tx s) !! k = Some p /\ stock p = Some v /\
                 total_quantity k items <= v) ->
  faults env CallFlushOrder = false -> faults env CallGetBill = false ->
  faults env CallFlushBill = false ->
  orders (tx s) !! n = None ->
  try_except (save_transaction env schema items c d t n) save_handler s
    = (o, s') ->
  exists s4,
    db s4 = db s /\ only_logged s s4 /\
    match bill_id schema ≫= (fun b0 =>
            match bills (tx s) !! b0 with
            | Some _ => None
            | None => Some b0
            end) with
    | Some b0 =>
        o = Raise (InstanceNotFoundError FromService EBill (Some b0)) /\
        s' = after_rollback (InstanceNotFoundError FromService EBill (Some b0)) s4
    | None =>
        if faults env CallCommit
        then o = Raise (StorageError CallCommit) /\
             s' = after_rollback (StorageError CallCommit) s4
        else exists r, o = Ret r /\ save_commit env items n
                                      (placed_order env schema (to_float t)
                                         (default 0 (bill_id r))) s4
                                    = (Ret r, s')
    end.
Proof.
  intros Hready Hnn Hsum Hfo Hfg Hfb Hfree H.
  destruct (save_mutations env schema items c d t n s) as [om s4] eqn:Em.
  pose proof (save_mutations_forward _ _ _ _ _ _ _ _ _ _
                Hready Hnn Hsum Hfo Hfg Hfb Hfree Em) as Hkind.
  exists s4.
  split; [exact (save_mutations_same_db _ _ _ _ _ _ _ _ _ _ Em) |].
  split; [exact (save_mutations_only_logged _ _ _ _ _ _ _ _ _ _ Em) |].
  unfold try_except, save_transaction in H.
  assert (forall om', om = Ret om' ->
            if faults env CallCommit
            then o = Raise (StorageError CallCommit) /\
                 s' = after_rollback (StorageError CallCommit) s4
            else exists r, o = Ret r /\
                   save_commit env items n
                     (placed_order env schema (to_float t)
                        (default 0 (bill_id r))) s4
                   = (Ret r, s')) as Hcommit.
  { intros om' ->. rewrite (bind_run_ret _ _ _ _ _ Em) in H.
    pose proof (save_mutations_ret _ _ _ _ _ _ _ _ _ _ Hready Em)
      as (bid & -> & _).
    destruct (save_commit env items n (placed_order env schema (to_float t) bid) s4)
      as [o2 s5] eqn:Ec.
    pose proof (save_commit_spec _ _ _ _ _ _ _ Ec)
      as [(Hf & -> & ->) | (Hf & -> & _)]; rewrite Hf.
    - rewrite save_handler_run in H. now injection H as <- <-.
    - injection H as <- <-. eexists. split; [reflexivity |]. exact Ec. }
  destruct (bill_id schema) as [b0 |]; cbn.
  - destruct (bills (tx s) !! b0) as [b |].
    + destruct Hkind as (om' & Hom). exact (Hcommit om' Hom).
    + subst om. rewrite (bind_run_raise _ _ _ _ _ Em) in H.
      rewrite save_handler_run in H. now injection H as <- <-.
  - destruct Hkind as (om' & Hom). exact (Hcommit om' Hom).
Qed.

(** A placement whose client exists and whose stock suffices, on a
    storage that answers up to the commit: its three ways to end. *)
Lemma save_forward env schema st o s' :
  storage_answers env ->
  (exists c, client_id schema = Some c /\ c ∈ clients st) ->
  stock_suffices st (default [] (items schema)) ->
  save env schema (open_session st) = (o, s') ->
  exists n sub s4,
    orders st !! n = None /\
    sub = subtotal_of (products st) (default [] (items schema)) /\
    db s4 = st /\ only_logged (open_session st) s4 /\
    match bill_id schema ≫= (fun b0 =>
            match bills st !! b0 with
            | Some _ => None
            | None => Some b0
            end) with
    | Some b0 =>
        o = Raise (InstanceNotFoundError FromService EBill (Some b0)) /\
        s' = after_rollback (InstanceNotFoundError FromService EBill (Some b0)) s4
    | None =>
        if faults env CallCommit
        then o = Raise (StorageError CallCommit) /\
             s' = after_rollback (StorageError CallCommit) s4
        else exists r, o = Ret r /\
               save_commit env (default [] (items schema)) n
                 (placed_order env schema
                    (to_float (apply_discount sub (discount_pct schema)).2)
                    (default 0 (bill_id r))) s4
               = (Ret r, s')
    end.
Proof.
  intros Hstorage Hclient Hstock H.
  destruct (save_enters_transaction env schema st Hstorage Hclient
              (stock_suffices_in_stock _ _ Hstock))
    as (c & sub & n & Hready & Hsub & Hfree & Hsave).
  rewrite Hsave in H.
  destruct Hstorage as (_ & _ & _ & _ & Hfo & Hfg & Hfb).
  destruct (try_save_transaction_forward env schema
              (default [] (items schema)) c _ _ n (open_session st) o s'
              Hready (stock_suffices_nonneg _ _ Hstock)
              (fun k => stock_suffices_total _ _ k Hstock)
              Hfo Hfg Hfb Hfree H)
    as (s4 & Hdb & Hlog & Hkind).
  exists n, sub, s4. auto.
Qed.





(** X5.  When everything else is in order but the bill supplied does not
    exist, the placement fails with [NotFound] for that bill, after the
    stock was taken and the order inserted; the rollback undoes both, so
    the stores are what they were. *)
Theorem X5_missing_supplied_bill_rolls_back env schema st b :
  storage_answers env ->
  (exists c, client_id schema = Some c /\ c ∈ clients st) ->
  stock_suffices st (default [] (items schema)) ->
  bill_id schema = Some b -> bills st !! b = None ->
  exists s',
    save env schema (open_session st)
      = (Raise (InstanceNotFoundError FromService EBill (Some b)), s') /\
    db s' = st /\ tx s' = st /\ rolled_back s' /\
    EvCommit ∉ journal s'.
Proof.
  intros Hstorage Hclient Hstock Hb Hnone.
  destruct (save env schema (open_session st)) as [o s'] eqn:E.
  destruct (save_forward _ _ _ _ _ Hstorage Hclient Hstock E)
    as (n & sub & s4 & _ & _ & Hdb & Hlog & Hkind).
  rewrite Hb in Hkind. cbn in Hkind. rewrite Hnone in Hkind.
  destruct Hkind as (-> & ->).
  exists (after_rollback (InstanceNotFoundError FromService EBill (Some b)) s4).
  split; [reflexivity |]. cbn. split; [exact Hdb |]. split; [exact Hdb |].
  split; [unfold rolled_back; cbn; right; left |].
  intros [[=] | [[=] | Hin]%elem_of_cons]%elem_of_cons.
  destruct (Hlog _ Hin) as [Hnil | (lvl & m & [=])].
  cbn in Hnil. now apply elem_of_nil in Hnil.
Qed.

Lemma X5_missing_supplied_bill_rolls_back_witness :
  exists s',
    save Scenario.env0 request_with_bill (open_session Scenario.store0)
      = (Raise (InstanceNotFoundError FromService EBill (Some 7)), s') /\
    db s' = Scenario.store0 /\ tx s' = Scenario.store0 /\ rolled_back s' /\
    EvCommit ∉ journal s'.
Proof.
  apply (X5_missing_supplied_bill_rolls_back Scenario.env0 request_with_bill
           Scenario.store0 7).
  - repeat split.
  - exists 1. split; [reflexivity |]. vm_compute. reflexivity.
  - repeat constructor; cbn; try lia.
    exists {| price := Some 5%float; stock := Some 10 |}, 10.
    split; [vm_compute; reflexivity |]. split; [reflexivity |].
    vm_compute. discriminate.
  - reflexivity.
  - vm_compute. reflexivity.
Defined.

(** X6.  When everything else is in order but the commit fails, the
    placement fails with the storage's error, the session is rolled back,
    the stores are what they were, and the product cache is not evicted. *)
Theorem X6_failed_commit_rolls_back env schema st :
  storage_answers env -> faults env CallCommit = true ->
  (exists c, client_id schema = Some c /\ c ∈ clients st) ->
  stock_suffices st (default [] (items schema)) ->
  (forall b, bill_id schema = Some b -> is_Some (bills st !! b)) ->
  exists s',
    save env schema (open_session st) = (Raise (StorageError CallCommit), s') /\
    db s' = st /\ tx s' = st /\ rolled_back s' /\
    (EvCommit ∉ journal s') /\
    (forall pattern, EvDeletePattern pattern ∉ journal s').
Proof.
  intros Hstorage Hcommit Hclient Hstock Hbill.
  destruct (save env schema (open_session st)) as [o s'] eqn:E.
  destruct (save_forward _ _ _ _ _ Hstorage Hclient Hstock E)
    as (n & sub & s4 & _ & _ & Hdb & Hlog & Hkind).
  rewrite Hcommit in Hkind.
  assert (o = Raise (StorageError CallCommit) /\
          s' = after_rollback (StorageError CallCommit) s4) as [-> ->].
  { destruct (bill_id schema) as [b0 |]; cbn in Hkind; [| exact Hkind].
    destruct (Hbill b0 eq_refl) as [b Hb]. now rewrite Hb in Hkind. }
  eexists. split; [reflexivity |]. cbn.
  split; [exact Hdb |]. split; [exact Hdb |].
  split; [unfold rolled_back; cbn; right; left |].
  assert (forall ev, ~ is_log ev -> ev <> EvRollback ->
            ev ∉ EvLog ERROR (MsgErrorCreating (StorageError CallCommit))
                 :: EvRollback :: journal s4) as Hnot.
  { intros ev Hnl Hnr [-> | [-> | Hin]%elem_of_cons]%elem_of_cons.
    - apply Hnl. unfold is_log. eauto.
    - now apply Hnr.
    - destruct (Hlog _ Hin) as [Hnil | Hl]; [| now apply Hnl].
      cbn in Hnil. now apply elem_of_nil in Hnil. }
  split; [| intros pattern]; apply Hnot; try discriminate;
    intros (lvl & m & [=]).
Qed.

Lemma X6_failed_commit_rolls_back_witness :
  exists s',
    save env_commit_fails (Scenario.request [Scenario.line 1 2] 10)
      (open_session Scenario.store0) = (Raise (StorageError CallCommit), s') /\
    db s' = Scenario.store0 /\ tx s' = Scenario.store0 /\ rolled_back s' /\
    (EvCommit ∉ journal s') /\
    (forall pattern, EvDeletePattern pattern ∉ journal s').
Proof.
  apply (X6_failed_commit_rolls_back env_commit_fails
           (Scenario.request [Scenario.line 1 2] 10) Scenario.store0).
  - repeat split.
  - reflexivity.
  - exists 1. split; [reflexivity |]. vm_compute. reflexivity.
  - repeat constructor; cbn; try lia.
    exists {| price := Some 5%float; stock := Some 10 |}, 10.
    split; [vm_compute; reflexivity |]. split; [reflexivity |].
    vm_compute. discriminate.
  - intros b [=].
Defined.

(* ================================================================== *)
(** ** More on placements that succeed *)
(* ================================================================== *)

(** X7.  The journal of a placement that succeeds ends with the commit,
    the line that reports the order, and then the cache eviction, or, when
    the cache could not be reached, the warning that says so: the failed
    eviction does not fail the placement.  Before the commit there are log
    lines only, and no rollback anywhere. *)
Theorem X7_eviction_is_best_effort env schema st r s' :
  save env schema (open_session st) = (Ret r, s') ->
  exists n tail,
    id_key r = Some n /\
    journal s' =
      eviction_entry env
        :: EvLog INFO (MsgOrderCreated n (length (default [] (items schema))))
        :: EvCommit :: tail /\
    (forall ev, ev ∈ tail -> is_log ev) /\
    ~ rolled_back s'.
Proof.
  intros H. apply save_inv in H.
  inversion H as [| | s1 c sub n s2 o s3 Hv Hp Hn Ht Ho Hs]; subst.
  unfold save_transaction in Ht.
  apply bind_ret_inv in Ht as (om & s4 & Hm & Hc).
  pose proof (save_commit_journal _ _ _ _ _ _ _ Hc) as Hj.
  apply save_commit_spec in Hc as [(_ & [=] & _) | (_ & [= ->] & _)].
  assert (only_logged (open_session st) s4) as Hlog.
  { etransitivity; [| exact (save_mutations_only_logged _ _ _ _ _ _ _ _ _ _ Hm)].
    apply quiet_only_logged. etransitivity.
    - exact (validate_client_quiet _ _ _ _ _ Hv).
    - exact (generate_next_order_number_quiet _ _ _ _ Hn). }
  assert (forall ev, ev ∈ journal s4 -> is_log ev) as Htail.
  { intros ev Hev. destruct (Hlog ev Hev) as [Hnil | Hl]; [| exact Hl].
    cbn in Hnil. now apply elem_of_nil in Hnil. }
  exists n, (journal s4). split; [reflexivity |]. split; [exact Hj |].
  split; [exact Htail |].
  unfold rolled_back. rewrite Hj.
  intros [Hev | [[=] | [[=] | Hin]%elem_of_cons]%elem_of_cons]%elem_of_cons.
  - unfold eviction_entry in Hev.
    destruct (faults env CallDeletePattern); discriminate Hev.
  - destruct (Htail _ Hin) as (lvl & m & [=]).
Qed.

Lemma X7_eviction_is_best_effort_witness :
  exists r s' tail,
    save env_cache_down (Scenario.request [Scenario.line 1 2] 10)
      (open_session Scenario.store0) = (Ret r, s') /\
    journal s' =
      EvLog WARNING (MsgCacheNotInvalidated (StorageError CallDeletePattern))
        :: EvLog INFO (MsgOrderCreated 1000 1) :: EvCommit :: tail /\
    products (db s') !! 1 = Some {| price := Some 5%float; stock := Some 8 |}.
Proof.
  assert (exists r s',
            save env_cache_down (Scenario.request [Scenario.line 1 2] 10)
              (open_session Scenario.store0) = (Ret r, s') /\
            id_key r = Some 1000 /\
            products (db s') !! 1 = Some {| price := Some 5%float; stock := Some 8 |})
    as (r & s' & Hsave & Hid & Hprod).
  { eexists _, _. repeat split; vm_compute; reflexivity. }
  destruct (X7_eviction_is_best_effort _ _ _ _ _ Hsave)
    as (n & tail & Hn & Hj & _).
  rewrite Hid in Hn. injection Hn as <-.
  exists r, s', tail. split; [exact Hsave |]. split; [exact Hj | exact Hprod].
Defined.

(** X8.  A placement that succeeds leaves the rows it is not about as
    they were: the clients, every order that existed, every bill but the
    one it is linked to, and the detail rows that existed; it neither
    creates nor deletes a product. *)
Theorem X8_placement_leaves_other_rows env schema st r s' :
  save env schema (open_session st) = (Ret r, s') ->
  clients (db s') = clients st /\
  (forall k o, orders st !! k = Some o -> orders (db s') !! k = Some o) /\
  (forall k b, bills st !! k = Some b -> bill_id r <> Some k ->
               bills (db s') !! k = Some b) /\
  (exists news, order_details (db s') = order_details st ++ news) /\
  (forall k, is_Some (products (db s') !! k) <-> is_Some (products st !! k)).
Proof.
  intros H. apply save_ret in H
    as (sub & n & bid & s1 & s2 & _ & _ & _ & _ & -> & _ & _ & Hcl & Hprod & _
        & Hfree & Hord & Hdet & Hbill).
  cbn [open_session tx] in *.
  split; [exact Hcl |]. split; [| split; [| split]].
  - intros k o Hk. rewrite Hord, lookup_insert_ne; [exact Hk | congruence].
  - intros k b Hk Hne. cbn in Hne.
    destruct (bill_id schema) as [b0 |].
    + destruct Hbill as (-> & b' & _ & ->).
      rewrite lookup_insert_ne; [exact Hk | congruence].
    + destruct Hbill as (_ & ->).
      rewrite lookup_insert_ne; [exact Hk | congruence].
  - eauto.
  - intros k. rewrite Hprod. destruct (products st !! k); cbn.
    + split; eauto.
    + split; intros [? [=]].
Qed.

Lemma X8_placement_leaves_other_rows_witness :
  exists r s',
    save Scenario.env0 request_with_bill (open_session store_with_bill)
      = (Ret r, s') /\
    clients (db s') = clients store_with_bill /\
    (exists news, order_details (db s') = order_details store_with_bill ++ news).
Proof.
  eexists _, _. split; [vm_compute; reflexivity |].
  destruct (X8_placement_leaves_other_rows Scenario.env0 request_with_bill
              store_with_bill _ _ ltac:(vm_compute; reflexivity))
    as (Hcl & _ & _ & Hdet & _).
  split; [exact Hcl | exact Hdet].
Defined.

(** X9.  A bill that is supplied only has its number rewritten: its
    discount, total, date, payment type and client stay what they were,
    whatever the order comes to. *)
Theorem X9_supplied_bill_keeps_its_amounts env schema st r s' b0 :
  save env schema (open_session st) = (Ret r, s') ->
  bill_id schema = Some b0 ->
  exists n b b',
    id_key r = Some n /\ bill_id r = Some b0 /\
    bills st !! b0 = Some b /\ bills (db s') !! b0 = Some b' /\
    bill_number b' = Some (PyInt.py_str n) /\
    discount b' = discount b /\ b_total b' = b_total b /\
    b_date b' = b_date b /\ payment_type b' = payment_type b /\
    b_client_id b' = b_client_id b.
Proof.
  intros H Hb0. apply save_ret in H
    as (sub & n & bid & s1 & s2 & _ & _ & _ & _ & -> & _ & _ & _ & _ & _
        & _ & _ & _ & Hbill).
  cbn [open_session tx] in *. rewrite Hb0 in Hbill.
  destruct Hbill as (-> & b & Hb & Hbills).
  exists n, b, (set_bill_number (Some (PyInt.py_str n)) b).
  split; [reflexivity |]. split; [reflexivity |]. split; [exact Hb |].
  split; [rewrite Hbills; apply lookup_insert_eq |].
  repeat split.
Qed.

Lemma X9_supplied_bill_keeps_its_amounts_witness :
  exists r s' b',
    save Scenario.env0 request_with_bill (open_session store_with_bill)
      = (Ret r, s') /\
    total r = 5%float /\
    bills (db s') !! 7 = Some b' /\
    bill_number b' = Some "1000"%string /\ b_total b' = 0%float.
Proof.
  assert (exists r s',
            save Scenario.env0 request_with_bill (open_session store_with_bill)
              = (Ret r, s') /\ total r = 5%float /\ id_key r = Some 1000)
    as (r & s' & Hsave & Htotal & Hid).
  { eexists _, _. repeat split; vm_compute; reflexivity. }
  destruct (X9_supplied_bill_keeps_its_amounts _ _ _ _ _ 7 Hsave eq_refl)
    as (n & b & b' & Hn & _ & Hb & Hb' & Hnum & _ & Htot & _).
  rewrite Hid in Hn. injection Hn as <-.
  exists r, s', b'. split; [exact Hsave |]. split; [exact Htotal |].
  split; [exact Hb' |]. split; [exact Hnum |].
  rewrite Htot. revert Hb. vm_compute. now intros [= <-].
Defined.

Lemma detail_quantity_details_of P n its k :
  detail_quantity k (details_of P n its) = total_quantity k its.
Proof.
  induction its as [| it its IH]; [reflexivity |].
  rewrite total_quantity_cons, <- IH. reflexivity.
Qed.

(** X10.  The detail rows and the stock agree: a placement that succeeds
    adds one row per item, in order, each under the new order's id, and
    every product's stock went down by exactly the quantity the new rows
    record for it. *)
Theorem X10_details_account_for_stock env schema st r s' :
  save env schema (open_session st) = (Ret r, s') ->
  exists n news,
    id_key r = Some n /\
    order_details (db s') = order_details st ++ news /\
    length news = length (default [] (items schema)) /\
    (od_product_id <$> news) = item_ids (default [] (items schema)) /\
    (od_quantity <$> news) = (quantity <$> default [] (items schema)) /\
    Forall (fun od => od_order_id od = n) news /\
    (forall k, products (db s') !! k =
               take_stock (detail_quantity k news) <$> products st !! k).
Proof.
  intros H. apply save_ret in H
    as (sub & n & bid & s1 & s2 & _ & _ & _ & _ & -> & _ & _ & _ & Hprod & _
        & _ & _ & Hdet & _).
  cbn [open_session tx] in *.
  exists n, (details_of (products st) n (default [] (items schema))).
  split; [reflexivity |]. split; [exact Hdet |].
  unfold details_of at 1 2 3 4, item_ids.
  split; [apply length_fmap |].
  split; [rewrite <- list_fmap_compose; reflexivity |].
  split; [rewrite <- list_fmap_compose; reflexivity |].
  split; [apply Forall_fmap, Forall_forall; reflexivity |].
  intros k. now rewrite detail_quantity_details_of.
Qed.

Lemma X10_details_account_for_stock_witness :
  exists r s' news,
    save Scenario.env0
      (Scenario.request [Scenario.line 1 4; Scenario.line 1 6] 0)
      (open_session Scenario.store0) = (Ret r, s') /\
    order_details (db s') = order_details Scenario.store0 ++ news /\
    length news = 2%nat /\
    products (db s') !! 1 =
      take_stock (detail_quantity 1 news) <$> products Scenario.store0 !! 1.
Proof.
  assert (exists r s',
            save Scenario.env0
              (Scenario.request [Scenario.line 1 4; Scenario.line 1 6] 0)
              (open_session Scenario.store0) = (Ret r, s'))
    as (r & s' & Hsave).
  { eexists _, _. vm_compute. reflexivity. }
  destruct (X10_details_account_for_stock _ _ _ _ _ Hsave)
    as (n & news & _ & Hdet & Hlen & _ & _ & _ & Hprod).
  exists r, s', news. auto.
Defined.

(** X11.  [to_model] undoes the conversion on the way out of [save]:
    applied to the schema a placement returns, whatever the clock says, it
    gives back the order row the placement stored. *)
Theorem X11_to_model_of_result_is_stored_row env schema st r s' :
  save env schema (open_session st) = (Ret r, s') ->
  exists n,
    id_key r = Some n /\
    forall env', orders (db s') !! n = Some (to_model env' r).
Proof.
  intros H. apply save_ret in H
    as (sub & n & bid & s1 & s2 & _ & _ & _ & _ & -> & _ & _ & _ & _ & _
        & _ & Hord & _).
  exists n. split; [reflexivity |]. intros env'.
  rewrite Hord. apply lookup_insert_eq.
Qed.

Lemma X11_to_model_of_result_is_stored_row_witness :
  exists r s',
    save Scenario.env0 (Scenario.request [Scenario.line 1 2] 10)
      (open_session Scenario.store0) = (Ret r, s') /\
    orders (db s') !! 1000 = Some (to_model env_commit_fails r).
Proof.
  assert (exists r s',
            save Scenario.env0 (Scenario.request [Scenario.line 1 2] 10)
              (open_session Scenario.store0) = (Ret r, s') /\
            id_key r = Some 1000)
    as (r & s' & Hsave & Hid).
  { eexists _, _. split; vm_compute; reflexivity. }
  destruct (X11_to_model_of_result_is_stored_row _ _ _ _ _ Hsave)
    as (n & Hn & Hrow).
  rewrite Hid in Hn. injection Hn as <-.
  exists r, s'. split; [exact Hsave | apply Hrow].
Defined.

(* ================================================================== *)
(** ** Placements that stop before the transaction *)
(* ================================================================== *)

(** X12.  The client is checked before anything else: when the lookup
    answers and the client does not exist, the placement fails with the
    service's own [NotFound] for the client, whatever the items are, and
    all it leaves is one error line in the log. *)
Theorem X12_missing_client_fails_first env schema st c :
  faults env CallFindClient = false ->
  client_id schema = Some c -> c ∉ clients st ->
  save env schema (open_session st) =
    (Raise (InstanceNotFoundError FromService EClient (Some c)),
     {| db := st; tx := st;
        journal := [EvLog ERROR (MsgNotFound EClient (Some c))] |}).
Proof.
  intros Hf Hc Hnin. unfold save. apply bind_run_raise.
  unfold validate_client, client_repository_find, try_except_not_found,
    try_except, call, get_tx, logger, emit, raise, mbind, M_bind, mret, M_ret.
  rewrite Hf, Hc. cbn. rewrite bool_decide_eq_false_2 by done. reflexivity.
Qed.

Lemma X12_missing_client_fails_first_witness :
  save Scenario.env0
    {| id_key := None; date := None; total := 0%float; delivery_method := 1;
       status := 1; client_id := Some 9; bill_id := None;
       items := Some [Scenario.line 5 1]; discount_pct := None |}
    (open_session Scenario.store0) =
    (Raise (InstanceNotFoundError FromService EClient (Some 9)),
     {| db := Scenario.store0; tx := Scenario.store0;
        journal := [EvLog ERROR (MsgNotFound EClient (Some 9))] |}).
Proof.
  apply (X12_missing_client_fails_first Scenario.env0 _ Scenario.store0 9).
  - reflexivity.
  - reflexivity.
  - vm_compute. discriminate.
Defined.

Lemma for_in_app {A S} (xs ys : list A) (body : A -> S -> M S) : forall acc s,
  for_in (xs ++ ys) body acc s = (for_in xs body acc ≫= for_in ys body) s.
Proof.
  induction xs as [| x xs IH]; intros acc s; [reflexivity |].
  cbn [app]. rewrite !for_in_cons.
  unfold mbind, M_bind in *.
  destruct (body x acc s) as [[a | e] s1]; [apply IH | reflexivity].
Qed.

(** X13.  The pre-check stops at the first line whose product does not
    exist: when the client exists and the lines before it are in stock,
    the placement fails with [NotFound] for that product, the lines after
    it are not looked at, and the session is left exactly as it was, with
    nothing logged and nothing rolled back. *)
Theorem X13_missing_product_stops_the_precheck
    env schema st c done_ it rest :
  faults env CallFindClient = false ->
  client_id schema = Some c -> c ∈ clients st ->
  default [] (items schema) = done_ ++ it :: rest ->
  Forall (fun i => faults env (CallGetProduct (product_id i)) = false)
         (done_ ++ [it]) ->
  Forall (in_stock (products st)) done_ ->
  products st !! product_id it = None ->
  save env schema (open_session st) =
    (Raise (InstanceNotFoundError FromService EProduct (Some (product_id it))),
     open_session st).
Proof.
  intros Hf Hc Hin Hits Hfaults Hdone Hnone.
  apply Forall_app in Hfaults as (Hfd & Hfit).
  inversion Hfit as [| ? ? Hfi _]; subst.
  unfold save.
  rewrite (bind_run_ret _ _ _ _ _
             (validate_client_ok env schema (open_session st) c Hf Hc Hin)).
  cbv zeta. rewrite Hits. apply bind_run_raise.
  rewrite for_in_app.
  destruct (precheck_ok env done_ ∅ 0%float (open_session st) Hfd Hdone)
    as (c1 & sub1 & Hrun).
  rewrite (bind_run_ret _ _ _ _ _ Hrun), for_in_cons.
  apply bind_run_raise.
  unfold precheck_item, session_get_product, call, get_tx, raise,
    mbind, M_bind, mret, M_ret.
  rewrite Hfi. cbn. rewrite Hnone. reflexivity.
Qed.

Lemma X13_missing_product_stops_the_precheck_witness :
  save Scenario.env0
    (Scenario.request
       [Scenario.line 1 2; Scenario.line 5 1; Scenario.line 1 100] 0)
    (open_session Scenario.store0) =
    (Raise (InstanceNotFoundError FromService EProduct (Some 5)),
     open_session Scenario.store0).
Proof.
  apply (X13_missing_product_stops_the_precheck Scenario.env0 _
           Scenario.store0 1 [Scenario.line 1 2] (Scenario.line 5 1)
           [Scenario.line 1 100]).
  - reflexivity.
  - reflexivity.
  - vm_compute. reflexivity.
  - reflexivity.
  - repeat constructor.
  - repeat constructor.
    exists {| price := Some 5%float; stock := Some 10 |}, 10.
    split; [vm_compute; reflexivity |]. split; [reflexivity |].
    vm_compute. discriminate.
  - vm_compute. reflexivity.
Defined.

(* ================================================================== *)
(** ** The floor of the total *)
(* ================================================================== *)

(** X15.  What [save] returns, for quantities a float can hold, has a
    total that is never below zero, whatever the request was: it is the
    float zero, or the difference of subtotal and discount amount when
    that is not below zero.  It is a NaN exactly when that difference is
    one. *)
Theorem X15_total_is_never_below_zero env schema st r s' :
  save env schema (open_session st) = (Ret r, s') ->
  quantities_fit (default [] (items schema)) ->
  let sub := subtotal_of (products st) (default [] (items schema)) in
  let diff :=
    (sub - discount_of sub (default 0%float (discount_pct schema)))%float in
  (total r <? 0)%float = false /\
  (total r = 0%float \/ total r = diff) /\
  is_nan (total r) = is_nan diff.
Proof.
  intros H _ sub diff. apply save_ret in H
    as (sub0 & n & bid & s1 & s2 & _ & _ & Hsub & _ & -> & _).
  cbn [open_session tx] in Hsub. fold sub in Hsub. subst sub0.
  cbn [total model_validate placed_order o_total].
  destruct (apply_discount_spec sub (discount_pct schema)) as [_ ->].
  unfold total_of. fold diff.
  split; [apply floor_zero_not_below |].
  unfold floor_zero. destruct (diff <? 0)%float eqn:E.
  - split; [now left |].
    symmetry. destruct (is_nan diff) eqn:En; [| reflexivity].
    rewrite is_nan_spec in En. rewrite FloatAxioms.ltb_spec in E.
    destruct (Prim2SF diff); discriminate.
  - split; [now right | reflexivity].
Qed.

Lemma X15_total_is_never_below_zero_witness :
  exists r s',
    save Scenario.env0 (Scenario.request [Scenario.line 1 2] 250)
      (open_session Scenario.store0) = (Ret r, s') /\
    (total r <? 0)%float = false /\ total r = 0%float.
Proof.
  assert (exists r s',
            save Scenario.env0 (Scenario.request [Scenario.line 1 2] 250)
              (open_session Scenario.store0) = (Ret r, s') /\
            total r = 0%float)
    as (r & s' & Hsave & Htotal).
  { eexists _, _. split; vm_compute; reflexivity. }
  exists r, s'. split; [exact Hsave |].
  destruct (X15_total_is_never_below_zero _ _ _ _ _ Hsave) as (Hv & _).
  - repeat constructor.
  - split; [exact Hv | exact Htotal].
Defined.

(** X16.  A request without items, or with an empty list of them, is
    accepted like any other: the order is stored with a total of zero,
    whatever the discount short of the infinity, and no product and no
    detail row is touched. *)
Theorem X16_order_without_items_is_accepted env schema st :
  storage_answers env -> faults env CallCommit = false ->
  (exists c, client_id schema = Some c /\ c ∈ clients st) ->
  default [] (items schema) = [] ->
  discount_pct schema <> Some infinity ->
  (forall b, bill_id schema = Some b -> is_Some (bills st !! b)) ->
  exists r s' n,
    save env schema (open_session st) = (Ret r, s') /\
    id_key r = Some n /\ is_Some (orders (db s') !! n) /\
    total r = 0%float /\
    products (db s') = products st /\
    order_details (db s') = order_details st.
Proof.
  intros Hstorage Hcommit Hclient Hits Hpct Hbill.
  destruct (save env schema (open_session st)) as [o s'] eqn:E.
  assert (exists r, o = Ret r) as (r & ->).
  { assert (stock_suffices st (default [] (items schema))) as Hstock
      by (rewrite Hits; constructor).
    destruct (save_forward _ _ _ _ _ Hstorage Hclient Hstock E)
      as (n & sub & s4 & _ & _ & _ & _ & Hkind).
    rewrite Hcommit in Hkind.
    destruct (bill_id schema) as [b0 |]; cbn in Hkind.
    - destruct (Hbill b0 eq_refl) as [b Hb]. rewrite Hb in Hkind.
      destruct Hkind as (r & -> & _). eauto.
    - destruct Hkind as (r & -> & _). eauto. }
  apply save_ret in E
    as (sub & n & bid & s1 & s2 & _ & _ & Hsub & _ & -> & _ & _ & _ & Hprod
        & _ & _ & Hord & Hdet & _).
  cbn [open_session tx] in *. rewrite Hits in *.
  change (subtotal_of (products st) []) with 0%float in Hsub. subst sub.
  exists (model_validate n
            (placed_order env schema
               (to_float (apply_discount 0 (discount_pct schema)).2) bid)),
    s', n.
  split; [reflexivity |]. split; [reflexivity |].
  split; [rewrite Hord, lookup_insert_eq; eauto |].
  split; [| split].
  - cbn [total model_validate placed_order o_total].
    destruct (apply_discount_spec 0 (discount_pct schema)) as (_ & ->).
    unfold total_of, discount_of.
    destruct (0 <? default 0%float (discount_pct schema))%float eqn:Hpos;
      [| reflexivity].
    rewrite zero_times_positive; [reflexivity | exact Hpos |].
    intros Hinf. apply Hpct.
    destruct (discount_pct schema) as [d |]; [now f_equal | discriminate Hinf].
  - apply map_eq. intros k. rewrite Hprod. cbn [total_quantity foldr].
    destruct (products st !! k) as [p |]; cbn; [| reflexivity].
    now rewrite take_stock_0.
  - rewrite Hdet. cbn. apply app_nil_r.
Qed.

Lemma X16_order_without_items_is_accepted_witness :
  exists r s' n,
    save Scenario.env0
      {| id_key := None; date := None; total := 0%float; delivery_method := 1;
         status := 1; client_id := Some 1; bill_id := None;
         items := None; discount_pct := Some 10%float |}
      (open_session Scenario.store0) = (Ret r, s') /\
    id_key r = Some n /\ is_Some (orders (db s') !! n) /\
    total r = 0%float /\
    products (db s') = products Scenario.store0 /\
    order_details (db s') = order_details Scenario.store0.
Proof.
  apply (X16_order_without_items_is_accepted Scenario.env0 _ Scenario.store0).
  - repeat split.
  - reflexivity.
  - exists 1. split; [reflexivity |]. vm_compute. reflexivity.
  - reflexivity.
  - cbn. intros [=].
  - intros b [=].
Defined.

(* ================================================================== *)
(** ** The order of the checks of [update] *)
(* ================================================================== *)

(** X17.  [update] looks at the client first: a client id that does not
    exist fails the update with [NotFound] for the client whatever the
    bill id is and whether or not the order exists; the bill is not
    looked up, and all that is left is one error line in the log. *)
Theorem X17_update_checks_client_first env key schema st c :
  faults env CallFindClient = false ->
  client_id schema = Some c -> c ∉ clients st ->
  update env key schema (open_session st) =
    (Raise (InstanceNotFoundError FromService EClient (Some c)),
     {| db := st; tx := st;
        journal := [EvLog ERROR (MsgNotFound EClient (Some c))] |}).
Proof.
  intros Hf Hc Hnin. unfold update. apply bind_run_raise.
  unfold client_repository_find, try_except_not_found,
    try_except, call, get_tx, logger, emit, raise, mbind, M_bind, mret, M_ret.
  rewrite Hc, Hf. cbn. rewrite bool_decide_eq_false_2 by done. reflexivity.
Qed.

Lemma X17_update_checks_client_first_witness :
  update Scenario.env0 4242
    {| id_key := None; date := None; total := 3%float; delivery_method := 2;
       status := 2; client_id := Some 9; bill_id := Some 8;
       items := None; discount_pct := None |}
    (open_session Scenario.store0) =
    (Raise (InstanceNotFoundError FromService EClient (Some 9)),
     {| db := Scenario.store0; tx := Scenario.store0;
        journal := [EvLog ERROR (MsgNotFound EClient (Some 9))] |}).
Proof.
  apply (X17_update_checks_client_first Scenario.env0 4242 _ Scenario.store0 9).
  - reflexivity.
  - reflexivity.
  - vm_compute. discriminate.
Defined.
